(** * ats_builder: bullet selection and context assembly

    A shallow embedding of [match.py] (relevance scoring and budgeted
    bullet selection) and [generate.py] (resume and cover-letter contexts)
    over the dataclasses of [schemas.py].

    Conventions of the embedding.
    - A Python [str] is a [string]: the UTF-8 bytes of the text.  The
      [str] methods used by the code ([lower], [split], [strip]) act on
      the ASCII code points and leave every other byte alone.
    - A Python [float] is an exact rational ([Q]); the literals [0.6],
      [0.05], ... are the fractions they denote and [/] is exact.  Two
      scores are compared as exact numbers: where binary rounding would
      separate two scores that are equal as fractions, the ranking proved
      here is that of the exact values.
    - A Python [set] of strings is a [gset string]; a [dict] is an
      insertion-ordered association list with unique keys.
    - The scikit-learn pipeline called inside [_tfidf_similarity] is not
      part of the repository: it is a parameter that either returns the
      similarity column or raises (is [None]). *)

From Stdlib Require Import QArith Lqa Ascii.
From Stdlib Require String.
From stdpp Require Import gmap strings list sorting.

(** ** Python [str] methods *)

Module PyStr.

(** [str.isspace] on the code points below 128: TAB..CR, FS..US, SPACE. *)
Definition is_space (c : ascii) : bool :=
  let n := nat_of_ascii c in
  ((9 <=? n) && (n <=? 13)) || ((28 <=? n) && (n <=? 32)).

Definition lower_char (c : ascii) : ascii :=
  let n := nat_of_ascii c in
  if (65 <=? n) && (n <=? 90) then ascii_of_nat (n + 32) else c.

(** [s.lower()] *)
Fixpoint lower (s : string) : string :=
  match s with
  | EmptyString => EmptyString
  | String c s' => String (lower_char c) (lower s')
  end.

Fixpoint lstrip_by (p : ascii → bool) (s : string) : string :=
  match s with
  | EmptyString => EmptyString
  | String c s' => if p c then lstrip_by p s' else s
  end.

Definition rstrip_by (p : ascii → bool) (s : string) : string :=
  String.rev (lstrip_by p (String.rev s)).

Definition strip_by (p : ascii → bool) (s : string) : string :=
  rstrip_by p (lstrip_by p s).

(** [s.strip()] *)
Definition strip : string → string := strip_by is_space.

Fixpoint mem_char (c : ascii) (chars : string) : bool :=
  match chars with
  | EmptyString => false
  | String d chars' => if Ascii.eqb c d then true else mem_char c chars'
  end.

(** [s.strip(chars)] *)
Definition strip_chars (chars : string) : string → string :=
  strip_by (fun c => mem_char c chars).

Definition flush (cur : list ascii) : list string :=
  match cur with
  | [] => []
  | _ => [String.string_of_list_ascii (rev cur)]
  end.

(** [cur] is the word being read, last character first. *)
Fixpoint split_from (cur : list ascii) (s : string) : list string :=
  match s with
  | EmptyString => flush cur
  | String c s' =>
      if is_space c then flush cur ++ split_from [] s'
      else split_from (c :: cur) s'
  end.

(** [s.split()]: maximal runs of non-whitespace. *)
Definition split : string → list string := split_from [].

(** [sep.join(parts)] *)
Fixpoint join (sep : string) (parts : list string) : string :=
  match parts with
  | [] => ""
  | [p] => p
  | p :: rest => p +:+ sep +:+ join sep rest
  end.

(** Truth value of a [str]: the empty string is false. *)
Definition truthy (s : string) : bool :=
  match s with EmptyString => false | _ => true end.

End PyStr.

(** ** Python [dict]: insertion-ordered, unique keys *)

Module PyDict.
Abbreviation t K V := (list (K * V)) (only parsing).

Section Dict.
Context {K V : Type} `{EqDecision K}.

Definition empty : t K V := [].

(** [d[k] = v]: a present key keeps its position. *)
Fixpoint setitem (k : K) (v : V) (d : t K V) : t K V :=
  match d with
  | [] => [(k, v)]
  | (k', v') :: d' =>
      if decide (k = k') then (k', v) :: d' else (k', v') :: setitem k v d'
  end.

(** [d[k]]; [None] stands for [KeyError]. *)
Fixpoint getitem (d : t K V) (k : K) : option V :=
  match d with
  | [] => None
  | (k', v') :: d' => if decide (k = k') then Some v' else getitem d' k
  end.

(** [d.get(k, default)] *)
Definition get (d : t K V) (k : K) (default : V) : V :=
  match getitem d k with Some v => v | None => default end.

(** [d.keys()], [d.items()] in insertion order. *)
Definition keys (d : t K V) : list K := d.*1.
Definition items (d : t K V) : list (K * V) := d.
End Dict.

(** [dict.fromkeys(l)]: every value is [None] (here [tt]). *)
Definition fromkeys {K} `{EqDecision K} (l : list K) : t K unit :=
  fold_left (fun d k => setitem k tt d) l empty.
End PyDict.

(** ** schemas.py: the dataclasses *)

Module Identity.
Record t := mk {
  name : string;
  email : string;
  phone : option string;
  location : option string;
  links : list string }.
End Identity.

Module Artifact.
Record t := mk {
  source_id : string;
  type_ : string;
  uri_or_text : string }.
End Artifact.

Module Bullet.
Record t := mk {
  text : string;
  source_ids : list string }.
End Bullet.

Module Experience.
Record t := mk {
  company : string;
  role : string;
  start : option string;
  end_ : option string;
  bullets : list Bullet.t;
  skills : list string;
  tools : list string }.
End Experience.

Module Education.
Record t := mk {
  institution : string;
  degree : option string;
  start : option string;
  end_ : option string }.
End Education.

Module Candidate.
Record t := mk {
  identity : Identity.t;
  work_experience : list Experience.t;
  education : list Education.t;
  skills_hard : list string;
  skills_soft : list string;
  certifications : list string;
  projects : list (list (string * string));
  artifacts : list Artifact.t }.
End Candidate.

Module JobPosting.
Record t := mk {
  text : string;
  title : option string;
  company : option string;
  location : option string;
  keywords : list string }.
End JobPosting.

Module SelectedBullet.
Record t := mk {
  role_index : nat;
  bullet_index : nat;
  text : string;
  source_ids : list string;
  score : Q }.
End SelectedBullet.

Module SelectionResult.
Record t := mk {
  selected_by_role : PyDict.t nat (list SelectedBullet.t);
  keywords : list string }.
End SelectionResult.

(** ** Python [list] operations used by the selector *)

Module PyList.
Section List.
Context {A : Type}.

(** [enumerate(l)] *)
Definition enumerate (l : list A) : list (nat * A) := imap pair l.

(** [l[:stop]] for an [int] stop: a negative stop counts from the end. *)
Definition slice_to (l : list A) (stop : Z) : list A :=
  if (stop <? 0)%Z
  then take (Z.to_nat (Z.max 0 (Z.of_nat (length l) + stop))) l
  else take (Z.to_nat stop) l.

(** [l.sort(key=key, reverse=True)].  Python's sort is a stable
    comparison sort and [reverse=True] keeps the original order of
    items with equal keys; on keys that are totally ordered every such
    sort returns the same list, here computed by stable insertion. *)
Fixpoint insert_desc (key : A → Q) (x : A) (l : list A) : list A :=
  match l with
  | [] => [x]
  | y :: l' =>
      if QMicromega.Qlt_bool (key x) (key y) then y :: insert_desc key x l'
      else x :: l
  end.

Definition sort_desc (key : A → Q) (l : list A) : list A :=
  foldr (insert_desc key) [] l.

(** Truth value of a list. *)
Definition truthy (l : list A) : bool :=
  match l with [] => false | _ => true end.
End List.
End PyList.

(** ** match.py: tokens and the keyword score *)

Definition nat2Q (n : nat) : Q := inject_Z (Z.of_nat n).

Definition _normalize_token (t : string) : string :=
  PyStr.strip_chars ".,;:!?" (PyStr.strip (PyStr.lower t)).

Definition _token_set (text : string) : gset string :=
  list_to_set
    (_normalize_token <$>
       filter (fun t => PyStr.truthy (PyStr.strip t) = true) (PyStr.split text)).

Definition score_text_against_keywords (text : string) (keywords : list string) : Q :=
  let tokens := _token_set text in
  let kws : gset string := list_to_set (_normalize_token <$> keywords) in
  if bool_decide (tokens = ∅) || bool_decide (kws = ∅) then 0%Q
  else
    let overlap := tokens ∩ kws in
    let base := (nat2Q (size overlap) / nat2Q (max 1 (size kws)))%Q in
    let density := (nat2Q (size overlap) / nat2Q (max 1 (size tokens)))%Q in
    (base * (7 # 10) + density * (3 # 10))%Q.


(** ** match.py: similarity and selection *)

(** The frame of one call of [select_bullets]: its argument [candidate]
    and the locals [selected] and [scored] that its statements update. *)
Module Frame.
Record t := mk {
  candidate : Candidate.t;
  selected : PyDict.t nat (list SelectedBullet.t);
  scored : list SelectedBullet.t }.
End Frame.

Section Selection.

(** [TfidfVectorizer(min_df=1, ngram_range=(1, 2))] fitted on the job
    text and the bullets, followed by [cosine_similarity]: the body of
    the [try] block.  [None] stands for any exception raised there
    (the import itself included). *)
Variable sklearn_tfidf_cosine : list string → string → option (list Q).

Definition _tfidf_similarity (bullets : list string) (job_text : string) : list Q :=
  match sklearn_tfidf_cosine bullets job_text with
  | Some sim => sim
  | None =>
      let jd_tokens := _token_set job_text in
      (fun b =>
         let bt := _token_set b in
         let inter := size (bt ∩ jd_tokens) in
         let union := match size (bt ∪ jd_tokens) with 0 => 1 | n => n end in
         (nat2Q inter / nat2Q union)%Q) <$> bullets
  end.

(** Line 61: the semantic scores of the bullets of one role. *)
Definition sim_scores_of (exp : Experience.t) (job_text : option string) : list Q :=
  let bullet_texts := Bullet.text <$> Experience.bullets exp in
  match job_text with
  | Some jt =>
      if PyStr.truthy jt && PyList.truthy bullet_texts
      then _tfidf_similarity bullet_texts jt
      else replicate (length bullet_texts) 0%Q
  | None => replicate (length bullet_texts) 0%Q
  end.

(** Lines 63-66: the blended score [s] of bullet [bidx] of a role.  Line
    64 guards the index itself: [sem] is [0.0] when [bidx] is not below
    [len(sim_scores)], so no [IndexError] is raised. *)
Definition blended_score (exp : Experience.t) (keywords : list string)
    (sim_scores : list Q) (bidx : nat) (b : Bullet.t) : Q :=
  let kw_score := score_text_against_keywords (Bullet.text b) keywords in
  let sem := match sim_scores !! bidx with Some x => x | None => 0%Q end in
  (sem * (6 # 10) + kw_score * (4 # 10)
   + (5 # 100) * nat2Q (size ((list_to_set (Experience.skills exp) : gset string)
                                ∩ list_to_set keywords)))%Q.

(** Lines 62-68: one turn of the loop over the bullets. *)
Definition bullet_step (idx : nat) (exp : Experience.t) (keywords : list string)
    (sim_scores : list Q) (fr : Frame.t) (ib : nat * Bullet.t) : Frame.t :=
  let '(bidx, b) := ib in
  let s := blended_score exp keywords sim_scores bidx b in
  if QMicromega.Qlt_bool 0 s
  then Frame.mk (Frame.candidate fr) (Frame.selected fr)
         (Frame.scored fr ++
            [SelectedBullet.mk idx bidx (Bullet.text b) (Bullet.source_ids b) s])
  else fr.

Definition budget_of (budgets : Z * Z * Z) (idx : nat) : Z :=
  match idx with
  | 0 => budgets.1.1
  | 1 => budgets.1.2
  | _ => budgets.2
  end.

(** Lines 58-77: one turn of the loop over the roles. *)
Definition role_step (keywords : list string) (job_text : option string)
    (budgets : Z * Z * Z) (fr : Frame.t) (ie : nat * Experience.t) : Frame.t :=
  let '(idx, exp) := ie in
  let fr := Frame.mk (Frame.candidate fr) (Frame.selected fr) [] in
  let sim_scores := sim_scores_of exp job_text in
  let fr :=
    foldl (bullet_step idx exp keywords sim_scores) fr
      (PyList.enumerate (Experience.bullets exp)) in
  let fr :=
    Frame.mk (Frame.candidate fr) (Frame.selected fr)
      (PyList.sort_desc SelectedBullet.score (Frame.scored fr)) in
  let budget := budget_of budgets idx in
  Frame.mk (Frame.candidate fr)
    (PyDict.setitem idx (PyList.slice_to (Frame.scored fr) budget) (Frame.selected fr))
    (Frame.scored fr).

(** The frame when [select_bullets] reaches its [return]. *)
Definition select_bullets_frame (candidate : Candidate.t) (keywords : list string)
    (job_text : option string) (budgets : Z * Z * Z) : Frame.t :=
  let fr := Frame.mk candidate PyDict.empty [] in
  foldl (role_step keywords job_text budgets) fr
    (PyList.enumerate (Candidate.work_experience (Frame.candidate fr))).

Definition select_bullets (candidate : Candidate.t) (keywords : list string)
    (job_text : option string) (budgets : Z * Z * Z) : SelectionResult.t :=
  let fr := select_bullets_frame candidate keywords job_text budgets in
  SelectionResult.mk (Frame.selected fr) (PyDict.keys (PyDict.fromkeys keywords)).

End Selection.

Definition default_budgets : Z * Z * Z := (6, 4, 2)%Z.

(** ** generate.py: the render contexts *)

(** The dictionaries built by [build_resume_context].  The "identity",
    "education" and bullet dictionaries have the keys of [Identity.t],
    [Education.t] and [Bullet.t] and are represented by them. *)
Module CtxExperience.
Record t := mk {
  company : string;
  role : string;
  start : option string;
  end_ : option string;
  bullets : list Bullet.t }.
End CtxExperience.

Module TraceEntry.
Record t := mk {
  text : string;
  source_ids : list string;
  role_index : nat;
  score : Q }.
End TraceEntry.

Module JobSummary.
Record t := mk {
  title : option string;
  company : option string;
  location : option string;
  keywords : list string }.
End JobSummary.

Module ResumeContext.
Record t := mk {
  identity : Identity.t;
  experiences : list CtxExperience.t;
  education : list Education.t;
  skills : list string;
  trace : list TraceEntry.t;
  job : JobSummary.t }.
End ResumeContext.

Module LetterContext.
Record t := mk {
  greeting : string;
  paragraphs : list string;
  closing : string }.
End LetterContext.

Definition build_resume_context (candidate : Candidate.t) (job : JobPosting.t)
    (selection : SelectionResult.t) : ResumeContext.t :=
  let experiences :=
    (fun '(idx, exp) =>
       let picked := PyDict.get (SelectionResult.selected_by_role selection) idx [] in
       let bullets :=
         (fun sb => Bullet.mk (SelectedBullet.text sb) (SelectedBullet.source_ids sb))
           <$> picked in
       CtxExperience.mk (Experience.company exp) (Experience.role exp)
         (Experience.start exp) (Experience.end_ exp) bullets)
      <$> PyList.enumerate (Candidate.work_experience candidate) in
  let skills :=
    PyDict.keys
      (PyDict.fromkeys (Candidate.skills_hard candidate ++ Candidate.skills_soft candidate)) in
  ResumeContext.mk
    (Identity.mk
       (Identity.name (Candidate.identity candidate))
       (Identity.email (Candidate.identity candidate))
       (Identity.phone (Candidate.identity candidate))
       (Identity.location (Candidate.identity candidate))
       (Identity.links (Candidate.identity candidate)))
    experiences
    ((fun ed =>
        Education.mk (Education.institution ed) (Education.degree ed)
          (Education.start ed) (Education.end_ ed))
       <$> Candidate.education candidate)
    skills
    (mjoin
       ((fun '(ridx, lst) =>
           (fun sb =>
              TraceEntry.mk (SelectedBullet.text sb) (SelectedBullet.source_ids sb)
                ridx (SelectedBullet.score sb)) <$> lst)
          <$> PyDict.items (SelectionResult.selected_by_role selection)))
    (JobSummary.mk (JobPosting.title job) (JobPosting.company job)
       (JobPosting.location job) (JobPosting.keywords job)).

(** [x or default] for an optional string. *)
Definition str_or (x : option string) (default : string) : string :=
  match x with
  | Some s => if PyStr.truthy s then s else default
  | None => default
  end.

Definition newline : string := String (ascii_of_nat 10) EmptyString.

Definition build_cover_letter (candidate : Candidate.t) (job : JobPosting.t)
    (selection : SelectionResult.t) (personal_notes : option string) : LetterContext.t :=
  let name := Identity.name (Candidate.identity candidate) in
  let company := str_or (JobPosting.company job) "your team" in
  let title := str_or (JobPosting.title job) "this role" in
  let by_role := SelectionResult.selected_by_role selection in
  (* every [idx] below is a key of [by_role]: the subscript finds it *)
  let all_bullets :=
    foldl
      (fun acc idx =>
         acc ++ (SelectedBullet.text <$> default [] (PyDict.getitem by_role idx)))
      [] (merge_sort Nat.le (PyDict.keys by_role)) in
  let highlights := take 3 all_bullets in
  let lead_skills := take 3 (Candidate.skills_hard candidate) in
  let soft := take 2 (Candidate.skills_soft candidate) in
  let intro :=
    "I'm reaching out about the " +:+ title +:+ " at " +:+ company +:+ ". "
    +:+ "My recent work has centered on " +:+ PyStr.join ", " lead_skills
    +:+ (if PyList.truthy soft
         then " and I tend to bring " +:+ PyStr.join ", " soft
              +:+ " to cross‑functional work."
         else ".") in
  let middle :=
    if PyList.truthy highlights
    then "A few examples of the kind of work I do: "
         +:+ PyStr.join "; " highlights +:+ "."
    else "I’m glad to share examples of recent projects on request." in
  let closing :=
    "If the team is exploring solutions in this area, I’d value a conversation to compare notes and see where I can help." in
  let middle :=
    match personal_notes with
    | Some notes =>
        if PyStr.truthy notes then middle +:+ " " +:+ PyStr.strip notes else middle
    | None => middle
    end in
  LetterContext.mk "Hello," [intro; middle; closing]
    ("Best regards," +:+ newline +:+ name).


(** ** Derived views of the selector, used to state its properties *)

(** What the loop over the bullets appends to [scored]: the bullets with a
    positive blended score, in the order of the enumeration. *)
Definition scored_of (idx : nat) (exp : Experience.t) (keywords : list string)
    (sim_scores : list Q) (ibs : list (nat * Bullet.t)) : list SelectedBullet.t :=
  omap
    (λ '(bidx, b),
       let s := blended_score exp keywords sim_scores bidx b in
       if QMicromega.Qlt_bool 0 s
       then Some (SelectedBullet.mk idx bidx (Bullet.text b) (Bullet.source_ids b) s)
       else None)
    ibs.

(** The eligible bullets of role [idx], then their ranking, then the cut. *)
Definition eligible (backend : list string → string → option (list Q))
    (keywords : list string) (job_text : option string)
    (idx : nat) (exp : Experience.t) : list SelectedBullet.t :=
  scored_of idx exp keywords (sim_scores_of backend exp job_text)
    (PyList.enumerate (Experience.bullets exp)).

Definition ranked (backend : list string → string → option (list Q))
    (keywords : list string) (job_text : option string)
    (idx : nat) (exp : Experience.t) : list SelectedBullet.t :=
  PyList.sort_desc SelectedBullet.score (eligible backend keywords job_text idx exp).

Definition role_selection (backend : list string → string → option (list Q))
    (keywords : list string) (job_text : option string) (budgets : Z * Z * Z)
    (idx : nat) (exp : Experience.t) : list SelectedBullet.t :=
  PyList.slice_to (ranked backend keywords job_text idx exp) (budget_of budgets idx).

(** [a] is ranked before [b]: a higher score, or the same score and an
    earlier position in the role's bullet list. *)
Definition ranks_before (a b : SelectedBullet.t) : Prop :=
  (SelectedBullet.score b < SelectedBullet.score a)%Q
  ∨ ((SelectedBullet.score a == SelectedBullet.score b)%Q
     ∧ SelectedBullet.bullet_index a < SelectedBullet.bullet_index b).

(** The semantic score that line 64 reads for bullet [bidx]. *)
Definition semantic_score (backend : list string → string → option (list Q))
    (exp : Experience.t) (job_text : option string) (bidx : nat) : Q :=
  match sim_scores_of backend exp job_text !! bidx with
  | Some x => x
  | None => 0%Q
  end.

(** Truth value of an optional string ([None] and [""] are false). *)
Definition opt_truthy (x : option string) : bool :=
  match x with Some s => PyStr.truthy s | None => false end.


(** ** The statements of the specification that differ from the code *)

(** The skills list as the specification words it: hard and soft skills
    combined, a skill dropped when an earlier one equals it up to case. *)
Definition dedup_case_insensitive (l : list string) : list string :=
  foldl
    (λ acc s,
       if bool_decide (PyStr.lower s ∈ PyStr.lower <$> acc) then acc else acc ++ [s])
    [] l.

(** The relevance score as the specification words it: one keyword set,
    the normalized one, in the keyword score and in the skill overlap. *)
Definition relevance_as_stated (semantic_score : Q) (skills : list string)
    (text : string) (keywords : list string) : Q :=
  let tokens := _token_set text in
  let keywords : gset string := list_to_set (_normalize_token <$> keywords) in
  let base := (nat2Q (size (tokens ∩ keywords)) / nat2Q (max 1 (size keywords)))%Q in
  let density := (nat2Q (size (tokens ∩ keywords)) / nat2Q (max 1 (size tokens)))%Q in
  let keyword_score := ((7 # 10) * base + (3 # 10) * density)%Q in
  ((6 # 10) * semantic_score + (4 # 10) * keyword_score
   + (5 # 100) * nat2Q (size ((list_to_set skills : gset string) ∩ keywords)))%Q.

(** ** Sample inputs *)

(** scikit-learn is not installed: the import inside the [try] raises. *)
Definition no_sklearn : list string → string → option (list Q) := λ _ _, None.

Definition sample_role_acme : Experience.t :=
  Experience.mk "Acme" "Engineer" (Some "2021") None
    [Bullet.mk "Led migration to AWS, reducing cost 20%" ["resume.pdf"];
     Bullet.mk "Wrote documentation" ["cv.docx"];
     Bullet.mk "Cut AWS cost" ["cv.docx"; "linkedin"]]
    ["aws"] [].

Definition sample_role_initech : Experience.t :=
  Experience.mk "Initech" "Analyst" (Some "2018") (Some "2021")
    [Bullet.mk "Built reports" ["resume.pdf"]] [] [].

Definition sample_candidate : Candidate.t :=
  Candidate.mk (Identity.mk "Ada Park" "ada@example.org" None None [])
    [sample_role_acme; sample_role_initech]
    [] ["Python"; "AWS"] ["python"; "Leadership"] [] [] [].

Definition sample_keywords : list string := ["aws"; "cost"; "migration"].

Definition sample_job : JobPosting.t :=
  JobPosting.mk "We run on AWS and watch cost." (Some "Cloud Engineer") None None
    sample_keywords.

Definition empty_selection : SelectionResult.t := SelectionResult.mk [(0, [])] [].

(** Two bullets that only earn the skill boost: they tie. *)
Definition tie_role : Experience.t :=
  Experience.mk "Globex" "Writer" None None
    [Bullet.mk "Wrote documentation" ["cv.docx"];
     Bullet.mk "Built reports" ["resume.pdf"]]
    ["aws"] [].

Definition tie_candidate : Candidate.t :=
  Candidate.mk (Identity.mk "Ada Park" "ada@example.org" None None [])
    [tie_role] [] [] [] [] [] [].

(** Two skills that differ only by case. *)
Definition casing_candidate : Candidate.t :=
  Candidate.mk (Identity.mk "Ada Park" "ada@example.org" None None [])
    [] [] ["Python"] ["python"] [] [] [].

(** ** ingest.py: keyword extraction *)

Definition STOPWORDS : list string :=
  ["the"; "and"; "to"; "of"; "in"; "a"; "for"; "with"; "on"; "is"; "as"; "by"; "or";
   "at"; "an"; "be"; "are"; "from"; "that"; "this"; "will"; "we"; "our"; "your";
   "you"; "us"; "it"; "into"; "across"; "using"; "use"; "team"; "work"; "role";
   "company"; "llc"; "inc"; "co"; "corp"].

(** The substrings that earn a token one more count (line 33). *)
Definition SKILL_HINTS : list string :=
  ["sql"; "aws"; "azure"; "gcp"; "etl"; "crm"; "erp"; "sap"; "python"; "java";
   "excel"; "saas"; "api"; "ml"; "ai"; "pm"].

Module PyRe.

(** The character class [[A-Za-z0-9+#\.\-/]] of line 26. *)
Definition keyword_char (c : ascii) : bool :=
  let n := nat_of_ascii c in
  ((65 <=? n) && (n <=? 90)) || ((97 <=? n) && (n <=? 122))
  || ((48 <=? n) && (n <=? 57)) || PyStr.mem_char c "+#.-/".

(** [re.findall] of a pattern [[cls]+]: the maximal runs of class
    characters, left to right.  [cur] is the run being read, last
    character first. *)
Fixpoint findall_from (cls : ascii → bool) (cur : list ascii) (s : string) : list string :=
  match s with
  | EmptyString => PyStr.flush cur
  | String c s' =>
      if cls c then findall_from cls (c :: cur) s'
      else PyStr.flush cur ++ findall_from cls [] s'
  end.

Definition findall_class (cls : ascii → bool) : string → list string :=
  findall_from cls [].

End PyRe.

Module PyStr2.

(** [c.isupper()] on the code points below 128. *)
Definition is_upper (c : ascii) : bool :=
  let n := nat_of_ascii c in (65 <=? n) && (n <=? 90).

(** [any(ch.isupper() for ch in s)] *)
Fixpoint any_upper (s : string) : bool :=
  match s with
  | EmptyString => false
  | String c s' => is_upper c || any_upper s'
  end.

(** [needle in hay] for two strings. *)
Fixpoint contains (needle hay : string) : bool :=
  if String.prefix needle hay then true
  else match hay with
       | EmptyString => false
       | String _ hay' => contains needle hay'
       end.

End PyStr2.

(** [collections.Counter]: a [dict] from items to counts, in the order
    the items are first met. *)
Module Counter.

Definition bump (counts : PyDict.t string nat) (t : string) : PyDict.t string nat :=
  PyDict.setitem t (PyDict.get counts t 0 + 1) counts.

(** [Counter(tokens)] *)
Definition of_list (tokens : list string) : PyDict.t string nat :=
  foldl bump PyDict.empty tokens.

(** [counts.most_common(n)]: the [n] entries of highest count, from the
    most common to the least, entries of equal count in the order first
    met; no entry when [n <= 0]. *)
Definition most_common (counts : PyDict.t string nat) (n : Z) : list (string * nat) :=
  take (Z.to_nat n) (PyList.sort_desc (λ it, nat2Q it.2) (PyDict.items counts)).

End Counter.

(** Lines 26-27: the tokens that are counted. *)
Definition keyword_tokens (text : string) : list string :=
  let tokens := PyStr.lower <$> PyRe.findall_class PyRe.keyword_char text in
  PyStr.strip_chars ".-/"
    <$> filter
          (λ t, (PyStr.truthy t = true)
                ∧ (PyStr.lower t ∉ STOPWORDS)
                ∧ (1 < String.length t))
          tokens.

(** Lines 30-34: one turn of the loop that favours skill-like tokens. *)
Definition favor_step (counts : PyDict.t string nat) (t : string) : PyDict.t string nat :=
  let counts := if PyStr2.any_upper t then Counter.bump counts t else counts in
  if bool_decide (Exists (λ c, PyStr2.contains c t = true) SKILL_HINTS)
  then Counter.bump counts t else counts.

(** The counts when [extract_keywords] reaches its [return]. *)
Definition keyword_counts (text : string) : PyDict.t string nat :=
  let counts := Counter.of_list (keyword_tokens text) in
  foldl favor_step counts (PyDict.keys counts).

Definition extract_keywords (text : string) (top_k : Z) : list string :=
  (Counter.most_common (keyword_counts text) top_k).*1.

(** schemas.py, [job_from_text]. *)
Definition job_from_text (text : string) (title company location : option string)
    (keywords : option (list string)) : JobPosting.t :=
  JobPosting.mk text title company location
    (match keywords with
     | Some kws => if PyList.truthy kws then kws else []
     | None => []
     end).

(** [load_job] past its file read: [text] is what [read_job_text] returned. *)
Definition load_job (text : string) (title company location : option string) : JobPosting.t :=
  let keywords := extract_keywords text 40 in
  job_from_text text title company location (Some keywords).

(** A lowercase character of the keyword class: [[a-z0-9+#.\-/]]. *)
Definition keyword_lower_char (c : ascii) : bool :=
  PyRe.keyword_char c && negb (PyStr2.is_upper c).

(** How often [k] occurs in [l]. *)
Definition occurrences (k : string) (l : list string) : nat :=
  length (filter (λ t, t = k) l).

(** The count that [extract_keywords] ranks [k] by. *)
Definition keyword_count (text : string) (k : string) : nat :=
  PyDict.get (keyword_counts text) k 0.

Definition has_skill_hint (t : string) : bool :=
  bool_decide (Exists (λ c, PyStr2.contains c t = true) SKILL_HINTS).

(** ** cli.py: from the loaded inputs to the two contexts *)

Section Main.
Variable sklearn_tfidf_cosine : list string → string → option (list Q).

(** Lines 90-92 and 105 of [main]; [personal_notes] is what lines 94-104
    read from the notes file or the terminal. *)
Definition main_contexts (candidate : Candidate.t) (job : JobPosting.t)
    (one_page : bool) (personal_notes : option string)
    : SelectionResult.t * ResumeContext.t * LetterContext.t :=
  let budgets := if one_page then (5, 3, 1)%Z else (6, 4, 2)%Z in
  let selection :=
    select_bullets sklearn_tfidf_cosine candidate (JobPosting.keywords job)
      (Some (JobPosting.text job)) budgets in
  let resume_ctx := build_resume_context candidate job selection in
  let letter_ctx := build_cover_letter candidate job selection personal_notes in
  (selection, resume_ctx, letter_ctx).
End Main.

(** ** evaluate.py *)

Module Coverage.
Record t := mk {
  coverage : Q;
  covered : list string;
  missing : list string;
  total_keywords : nat }.
End Coverage.

Module Evaluation.
Record t := mk {
  keyword_coverage : Coverage.t;
  suggestions : list string }.
End Evaluation.

(** [norm], the local function of [keyword_coverage]. *)
Definition norm (t : string) : string :=
  PyStr.strip_chars ".,;:!?()[]{}" (PyStr.strip (PyStr.lower t)).

(** Lines 11-16: the tokens of the selected bullets and of the skills. *)
Definition coverage_tokens (resume_ctx : ResumeContext.t) : gset string :=
  let tokens :=
    foldl
      (λ tokens exp,
         foldl
           (λ tokens b, tokens ∪ list_to_set (norm <$> PyStr.split (Bullet.text b)))
           tokens (CtxExperience.bullets exp))
      ∅ (ResumeContext.experiences resume_ctx) in
  foldl (λ tokens s, tokens ∪ {[norm s]}) tokens (ResumeContext.skills resume_ctx).

(** Line 22: the coverage before it is rounded. *)
Definition coverage_ratio (covered kws : list string) : Q :=
  if PyList.truthy kws then (nat2Q (length covered) / nat2Q (max 1 (length kws)))%Q
  else 0%Q.

Section Evaluate.

(** [round(x, 3)], the built-in rounding of a float to three decimals. *)
Variable round3 : Q → Q.

Definition keyword_coverage (job_keywords : list string) (resume_ctx : ResumeContext.t)
    : Coverage.t :=
  let tokens := coverage_tokens resume_ctx in
  let kws := norm <$> filter (λ k, PyStr.truthy k = true) job_keywords in
  let covered := filter (λ k, k ∈ tokens) kws in
  let missing := filter (λ k, k ∉ tokens) kws in
  let coverage := coverage_ratio covered kws in
  let top_missing := take 15 missing in
  Coverage.mk (round3 coverage) covered top_missing (length kws).

Definition summarize_evaluation (job : JobSummary.t) (resume_ctx : ResumeContext.t)
    : Evaluation.t :=
  let cov := keyword_coverage (JobSummary.keywords job) resume_ctx in
  let suggestions := [] in
  let suggestions :=
    if QMicromega.Qlt_bool (Coverage.coverage cov) (35 # 100)
    then suggestions
         ++ ["Low keyword coverage; consider adding relevant bullets or skills."]
    else suggestions in
  let suggestions :=
    if PyList.truthy (ResumeContext.experiences resume_ctx)
       && negb (existsb (λ e, PyList.truthy (CtxExperience.bullets e))
                  (ResumeContext.experiences resume_ctx))
    then suggestions
         ++ ["No bullets selected; ensure candidate bullets are provided."]
    else suggestions in
  let suggestions :=
    if negb (PyList.truthy (ResumeContext.skills resume_ctx))
    then suggestions
         ++ ["Skills section empty; include key tools and domains from JD."]
    else suggestions in
  Evaluation.mk cov suggestions.

End Evaluate.

(** ** llm.py: the guarded rewriting of the bullets *)

Section Refine.

(** Lines 52-88 of [_safe_rewrite_bullets]: the prompt, the call of the
    language model, the decoding of its answer and the reading of each
    role's index and bullets, in the order of the answer.  [None] when
    there is no answer or when any of this raises. *)
Variable llm_rewrite :
  PyDict.t Z (list string) → list string → option (list (Z * list string)).

(** [_digits_set]: the matches of the number pattern of line 47. *)
Variable _digits_set : string → gset string.

(** Lines 95-104: what is kept for the new bullet [nb] at position [i]. *)
Definition guard_bullet (originals : list string) (i : nat) (nb : string) : string :=
  let ob := match originals !! i with Some o => o | None => "" end in
  if negb (PyStr.truthy ob) then nb
  else if bool_decide (_digits_set nb ∖ _digits_set ob ≠ ∅) then ob
  else nb.

Definition _safe_rewrite_bullets (originals_by_role : PyDict.t Z (list string))
    (job_keywords : list string) : PyDict.t Z (list string) :=
  match llm_rewrite originals_by_role job_keywords with
  | None => originals_by_role
  | Some roles =>
      let out :=
        foldl (λ out '(ridx, bullets), PyDict.setitem ridx bullets out)
          PyDict.empty roles in
      foldl
        (λ safe '(ridx, new_bullets),
           let originals := PyDict.get originals_by_role ridx [] in
           PyDict.setitem ridx (imap (guard_bullet originals) new_bullets) safe)
        PyDict.empty (PyDict.items out)
  end.

Definition refine_resume_ctx_with_llm (resume_ctx : ResumeContext.t)
    (job_keywords : list string) : ResumeContext.t :=
  let experiences := ResumeContext.experiences resume_ctx in
  let originals_by_role :=
    foldl
      (λ d '(ridx, exp),
         PyDict.setitem (Z.of_nat ridx) (Bullet.text <$> CtxExperience.bullets exp) d)
      PyDict.empty (PyList.enumerate experiences) in
  let refined_by_role := _safe_rewrite_bullets originals_by_role job_keywords in
  let experiences :=
    imap
      (λ ridx exp,
         CtxExperience.mk (CtxExperience.company exp) (CtxExperience.role exp)
           (CtxExperience.start exp) (CtxExperience.end_ exp)
           (imap
              (λ i b,
                 match PyDict.getitem refined_by_role (Z.of_nat ridx) with
                 | Some texts =>
                     match texts !! i with
                     | Some t => Bullet.mk t (Bullet.source_ids b)
                     | None => b
                     end
                 | None => b
                 end)
              (CtxExperience.bullets exp)))
      experiences in
  ResumeContext.mk (ResumeContext.identity resume_ctx) experiences
    (ResumeContext.education resume_ctx) (ResumeContext.skills resume_ctx)
    (ResumeContext.trace resume_ctx) (ResumeContext.job resume_ctx).

End Refine.

(** ** docs_to_json.py: the deduplication of the merged skills *)

(** One turn of the loop of [dedup_list]; the state is [(seen, out)]. *)
Definition dedup_step (st : gset string * list string) (x : string)
    : gset string * list string :=
  let k := PyStr.lower (PyStr.strip x) in
  if PyStr.truthy k && negb (bool_decide (k ∈ st.1))
  then (st.1 ∪ {[k]}, st.2 ++ [PyStr.strip x])
  else st.

Definition dedup_list (items : list string) : list string :=
  (foldl dedup_step (∅, []) items).2.

(** ** Definitions used by the statements below *)

(** The characters of a string. *)
Abbreviation chars := String.list_ascii_of_string (only parsing).

(** A string of ASCII characters only: every byte is below 128. *)
Definition is_ascii (s : string) : Prop :=
  Forall (λ c, nat_of_ascii c < 128) (chars s).

(** The invariant of the loop of [dedup_list]: [seen] holds the lower-case
    forms of [out], which are distinct. *)
Definition dedup_inv (st : gset string * list string) : Prop :=
  (∀ k, k ∈ st.1 ↔ k ∈ PyStr.lower <$> st.2) ∧ NoDup (PyStr.lower <$> st.2).

(** ** More sample inputs *)

(** A posting with no text and no keywords. *)
Definition blank_job : JobPosting.t := JobPosting.mk "" None None None [].

(** A context with one block of two bullets, an answer of the language
    model that adds a number to the first, and a digit reader that sees
    a number in exactly that rewritten text. *)
Definition sample_ctx : ResumeContext.t :=
  ResumeContext.mk (Identity.mk "Ada Park" "ada@example.org" None None [])
    [CtxExperience.mk "Acme" "Engineer" (Some "2021") None
       [Bullet.mk "Cut AWS cost" ["cv.docx"]; Bullet.mk "Wrote documentation" ["cv.docx"]]]
    [] ["AWS"] []
    (JobSummary.mk (Some "Cloud Engineer") None None ["aws"]).

Definition sample_llm_answer
    : PyDict.t Z (list string) → list string → option (list (Z * list string)) :=
  λ _ _, Some [(0%Z, ["Cut AWS cost by 90"; "Authored documentation"])].

Definition sample_digits : string → gset string :=
  λ s, if String.eqb s "Cut AWS cost by 90" then {["90"]} else ∅.

(** A candidate as the merge of parsed documents leaves it: the hard
    skills are the deduplicated skills of the pieces, no soft skills. *)
Definition merged_candidate : Candidate.t :=
  Candidate.mk (Identity.mk "" "" None None [])
    [] [] (dedup_list ["Python"; " python "; "AWS"; ""]) [] [] [] [].

(** * Properties *)

(** ** Dictionaries *)

Section DictFacts.
Context {K V : Type} `{EqDecision K}.
Implicit Types (d : PyDict.t K V) (k : K) (v : V).

Lemma setitem_fresh d k v :
  k ∉ PyDict.keys d → PyDict.setitem k v d = d ++ [(k, v)].
Proof.
  unfold PyDict.keys. induction d as [|[k' v'] d IH]; simpl; intros Hk; [done|].
  apply not_elem_of_cons in Hk as [Hne Hk].
  destruct (decide (k = k')); [done|]. by rewrite IH.
Qed.

Lemma getitem_None d k : PyDict.getitem d k = None ↔ k ∉ PyDict.keys d.
Proof.
  unfold PyDict.keys. induction d as [|[k' v'] d IH]; simpl.
  - split; [intros _; apply not_elem_of_nil | done].
  - rewrite not_elem_of_cons. destruct (decide (k = k')) as [->|Hne].
    + split; [done | by intros [? _]].
    + rewrite IH. split; [by intros ? | by intros [_ ?]].
Qed.

Lemma getitem_lookup d k v i :
  NoDup (PyDict.keys d) → d !! i = Some (k, v) → PyDict.getitem d k = Some v.
Proof.
  unfold PyDict.keys. revert i. induction d as [|[k' v'] d IH]; intros i Hnd Hi; [done|].
  simpl in *. apply NoDup_cons in Hnd as [Hk' Hnd].
  destruct i as [|i]; simpl in Hi.
  - injection Hi as -> ->. by rewrite decide_True.
  - destruct (decide (k = k')) as [->|]; [|by eapply IH].
    exfalso. apply Hk'. apply list_elem_of_fmap. exists (k', v). split; [done|].
    by eapply list_elem_of_lookup_2.
Qed.
Lemma keys_setitem d k v :
  PyDict.keys (PyDict.setitem k v d)
  = if decide (k ∈ PyDict.keys d) then PyDict.keys d else PyDict.keys d ++ [k].
Proof.
  unfold PyDict.keys. induction d as [|[k' v'] d IH]; [done|].
  cbn [PyDict.setitem]. destruct (decide (k = k')) as [->|Hne].
  - rewrite !fmap_cons. cbn [fst]. rewrite decide_True; [done | apply elem_of_cons; by left].
  - rewrite !fmap_cons, IH. cbn [fst]. destruct (decide (k ∈ d.*1)) as [Hin|Hnin].
    + rewrite decide_True; [done | apply elem_of_cons; by right].
    + rewrite decide_False; [done|]. by apply not_elem_of_cons.
Qed.

Lemma keys_fold_setitem (l : list K) (v : V) d :
  NoDup (PyDict.keys d) →
  NoDup (PyDict.keys (fold_left (λ d k, PyDict.setitem k v d) l d))
  ∧ ∀ k, k ∈ PyDict.keys (fold_left (λ d k, PyDict.setitem k v d) l d)
         ↔ k ∈ PyDict.keys d ∨ k ∈ l.
Proof.
  revert d. induction l as [|x l IH]; intros d Hnd; simpl.
  - split; [done|]. intros k. rewrite elem_of_nil. tauto.
  - destruct (IH (PyDict.setitem x v d)) as [Hnd' Hin].
    + rewrite keys_setitem. destruct (decide (x ∈ PyDict.keys d)); [done|].
      apply NoDup_app. split_and!; [done| |apply NoDup_singleton].
      by intros k Hk ->%list_elem_of_singleton.
    + split; [done|]. intros k. rewrite Hin, keys_setitem, elem_of_cons.
      destruct (decide (x ∈ PyDict.keys d)) as [Hx|Hx].
      * split; [tauto|]. intros [?|[->|?]]; tauto.
      * rewrite elem_of_app, list_elem_of_singleton. tauto.
Qed.
End DictFacts.

(** [list(dict.fromkeys(l))] has the elements of [l], each once. *)
Lemma fromkeys_keys `{EqDecision K} (l : list K) :
  NoDup (PyDict.keys (PyDict.fromkeys l))
  ∧ ∀ k, k ∈ PyDict.keys (PyDict.fromkeys l) ↔ k ∈ l.
Proof.
  unfold PyDict.fromkeys.
  destruct (keys_fold_setitem l tt (PyDict.empty (K:=K) (V:=unit))) as [Hnd Hin].
  { apply NoDup_nil_2. }
  split; [done|]. intros k. rewrite Hin. unfold PyDict.keys, PyDict.empty.
  rewrite fmap_nil, elem_of_nil. tauto.
Qed.

(** ** The two loops of [select_bullets] *)

Lemma enumerate_keys {A} (l : list A) :
  (PyList.enumerate l).*1 = seq 0 (length l).
Proof.
  unfold PyList.enumerate. apply list_eq. intros i.
  rewrite list_lookup_fmap, list_lookup_imap.
  destruct (l !! i) as [x|] eqn:Hi; simpl.
  - symmetry. apply lookup_seq. split; [done|]. by eapply lookup_lt_Some.
  - symmetry. apply lookup_seq_ge. by apply lookup_ge_None.
Qed.

Lemma enumerate_lookup {A} (l : list A) i k x :
  PyList.enumerate l !! i = Some (k, x) ↔ k = i ∧ l !! i = Some x.
Proof.
  unfold PyList.enumerate. rewrite list_lookup_imap_Some. split.
  - intros (y & Hy & [= -> ->]). done.
  - intros [-> Hx]. eauto.
Qed.

Section Loops.
Variable backend : list string → string → option (list Q).
Implicit Types (fr : Frame.t) (exp : Experience.t).

Lemma bullet_loop idx exp keywords sims ibs fr :
  foldl (bullet_step idx exp keywords sims) fr ibs
  = Frame.mk (Frame.candidate fr) (Frame.selected fr)
      (Frame.scored fr ++ scored_of idx exp keywords sims ibs).
Proof.
  revert fr. induction ibs as [|[bidx b] ibs IH]; intros fr; simpl.
  - rewrite app_nil_r. by destruct fr.
  - rewrite IH. unfold scored_of. simpl.
    destruct (QMicromega.Qlt_bool 0 _); simpl; [|done].
    by rewrite <- app_assoc.
Qed.

Lemma role_step_eq keywords job_text budgets fr idx exp :
  role_step backend keywords job_text budgets fr (idx, exp)
  = Frame.mk (Frame.candidate fr)
      (PyDict.setitem idx (role_selection backend keywords job_text budgets idx exp)
         (Frame.selected fr))
      (ranked backend keywords job_text idx exp).
Proof. unfold role_step. rewrite bullet_loop. reflexivity. Qed.

Lemma role_loop keywords job_text budgets ies fr :
  NoDup (ies.*1 ++ PyDict.keys (Frame.selected fr)) →
  Frame.candidate (foldl (role_step backend keywords job_text budgets) fr ies)
  = Frame.candidate fr
  ∧ Frame.selected (foldl (role_step backend keywords job_text budgets) fr ies)
    = Frame.selected fr
      ++ ((λ '(idx, exp),
             (idx, role_selection backend keywords job_text budgets idx exp)) <$> ies).
Proof.
  revert fr. induction ies as [|[idx exp] ies IH]; intros fr Hnd.
  - simpl. by rewrite app_nil_r.
  - rewrite fmap_cons in Hnd. cbn [fst app] in Hnd.
    apply NoDup_cons in Hnd as [Hidx Hnd].
    cbn [foldl]. rewrite role_step_eq, fmap_cons.
    assert (idx ∉ PyDict.keys (Frame.selected fr)) as Hfresh.
    { intros ?. apply Hidx. apply elem_of_app. by right. }
    rewrite (setitem_fresh _ _ _ Hfresh).
    destruct (IH (Frame.mk (Frame.candidate fr)
                    (Frame.selected fr ++
                       [(idx, role_selection backend keywords job_text budgets idx exp)])
                    (ranked backend keywords job_text idx exp))) as [Hc Hs].
    + cbn [Frame.selected]. unfold PyDict.keys. rewrite fmap_app. cbn [fmap list_fmap fst].
      apply NoDup_app in Hnd as (Hn1 & Hn2 & Hn3).
      apply NoDup_app. split_and!; [done| |].
      * intros k Hk. rewrite elem_of_app, list_elem_of_singleton.
        intros [Hin| ->]; [by apply (Hn2 k)|].
        apply Hidx. apply elem_of_app. by left.
      * apply NoDup_app. split_and!; [done| |apply NoDup_singleton].
        intros k Hk ->%list_elem_of_singleton. done.
    + split; [done|]. rewrite Hs. cbn [Frame.selected]. by rewrite <- app_assoc.
Qed.

Lemma select_bullets_frame_eq candidate keywords job_text budgets :
  Frame.candidate (select_bullets_frame backend candidate keywords job_text budgets)
  = candidate
  ∧ Frame.selected (select_bullets_frame backend candidate keywords job_text budgets)
    = imap (λ idx exp, (idx, role_selection backend keywords job_text budgets idx exp))
        (Candidate.work_experience candidate).
Proof.
  unfold select_bullets_frame. cbn [Frame.candidate].
  destruct (role_loop keywords job_text budgets
              (PyList.enumerate (Candidate.work_experience candidate))
              (Frame.mk candidate PyDict.empty [])) as [Hc Hs].
  - cbn [Frame.selected]. unfold PyDict.keys, PyDict.empty.
    rewrite fmap_nil, app_nil_r, enumerate_keys. apply NoDup_seq.
  - split; [done|]. rewrite Hs. unfold PyList.enumerate. cbn [Frame.selected app PyDict.empty].
    apply list_eq. intros i. rewrite list_lookup_fmap, !list_lookup_imap.
    by destruct (_ !! i).
Qed.

Lemma selected_by_role_eq candidate keywords job_text budgets :
  SelectionResult.selected_by_role
    (select_bullets backend candidate keywords job_text budgets)
  = imap (λ idx exp, (idx, role_selection backend keywords job_text budgets idx exp))
      (Candidate.work_experience candidate).
Proof. apply select_bullets_frame_eq. Qed.

Lemma selected_keys candidate keywords job_text budgets :
  PyDict.keys
    (SelectionResult.selected_by_role
       (select_bullets backend candidate keywords job_text budgets))
  = seq 0 (length (Candidate.work_experience candidate)).
Proof.
  rewrite selected_by_role_eq. unfold PyDict.keys. apply list_eq. intros i.
  rewrite list_lookup_fmap, list_lookup_imap.
  destruct (_ !! i) eqn:Hi; simpl.
  - symmetry. apply lookup_seq. split; [done|]. by eapply lookup_lt_Some.
  - symmetry. apply lookup_seq_ge. by apply lookup_ge_None.
Qed.

Lemma selected_getitem candidate keywords job_text budgets idx :
  PyDict.getitem
    (SelectionResult.selected_by_role
       (select_bullets backend candidate keywords job_text budgets)) idx
  = role_selection backend keywords job_text budgets idx
      <$> Candidate.work_experience candidate !! idx.
Proof.
  pose proof (selected_keys candidate keywords job_text budgets) as Hk.
  pose proof (selected_by_role_eq candidate keywords job_text budgets) as He.
  set (d := SelectionResult.selected_by_role _) in *.
  destruct (Candidate.work_experience candidate !! idx) as [exp|] eqn:Hi; simpl.
  - apply getitem_lookup with (i := idx).
    + rewrite Hk. apply NoDup_seq.
    + rewrite He, list_lookup_imap, Hi. done.
  - apply getitem_None. rewrite Hk, elem_of_seq.
    apply lookup_ge_None in Hi. lia.
Qed.

Lemma selected_getitem_Some candidate keywords job_text budgets idx exp l :
  Candidate.work_experience candidate !! idx = Some exp →
  PyDict.getitem
    (SelectionResult.selected_by_role
       (select_bullets backend candidate keywords job_text budgets)) idx = Some l →
  l = role_selection backend keywords job_text budgets idx exp.
Proof.
  intros Hexp Hl. rewrite selected_getitem, Hexp in Hl. by injection Hl.
Qed.

End Loops.

(** ** Sorting and slicing *)

Section SortDesc.
Context {A : Type} (key : A → Q).

Lemma insert_desc_Permutation x l : PyList.insert_desc key x l ≡ₚ x :: l.
Proof.
  induction l as [|y l IH]; simpl; [done|].
  destruct (QMicromega.Qlt_bool (key x) (key y)); [|done].
  rewrite IH. apply Permutation_swap.
Qed.

Lemma sort_desc_Permutation l : PyList.sort_desc key l ≡ₚ l.
Proof.
  unfold PyList.sort_desc. induction l as [|x l IH]; simpl; [done|].
  by rewrite insert_desc_Permutation, IH.
Qed.
End SortDesc.

Lemma slice_to_take {A} (l : list A) (stop : Z) :
  ∃ n, PyList.slice_to l stop = take n l.
Proof. unfold PyList.slice_to. destruct (stop <? 0)%Z; eauto. Qed.

Lemma slice_to_length {A} (l : list A) (stop : Z) :
  (0 ≤ stop)%Z → (Z.of_nat (length (PyList.slice_to l stop)) ≤ stop)%Z.
Proof.
  intros Hs. unfold PyList.slice_to.
  destruct (Z.ltb_spec stop 0); [lia|]. rewrite length_take. lia.
Qed.

Lemma slice_to_length_neg {A} (l : list A) (stop : Z) :
  (stop < 0)%Z →
  Z.of_nat (length (PyList.slice_to l stop)) = Z.max 0 (Z.of_nat (length l) + stop).
Proof.
  intros Hs. unfold PyList.slice_to.
  destruct (Z.ltb_spec stop 0); [|lia]. rewrite length_take. lia.
Qed.

Lemma slice_to_elem_of {A} (l : list A) (stop : Z) x :
  x ∈ PyList.slice_to l stop → x ∈ l.
Proof.
  destruct (slice_to_take l stop) as [n ->]. intros Hx.
  eapply elem_of_prefix; [done | apply prefix_take].
Qed.

Lemma slice_to_StronglySorted {A} (R : relation A) (l : list A) (stop : Z) :
  StronglySorted R l → StronglySorted R (PyList.slice_to l stop).
Proof.
  destruct (slice_to_take l stop) as [n ->]. intros Hl.
  rewrite <- (take_drop n l) in Hl. by apply StronglySorted_app_1_l in Hl.
Qed.

(** ** Ranking of the eligible bullets *)

Lemma ranks_before_score a b :
  ranks_before a b → (SelectedBullet.score b <= SelectedBullet.score a)%Q.
Proof. intros [H|[H _]]; lra. Qed.

Lemma ranks_before_asym a b : ranks_before a b → ranks_before b a → False.
Proof. intros [H1|[H1 H1']] [H2|[H2 H2']]; try lra. lia. Qed.

Lemma insert_desc_ranked x s :
  StronglySorted ranks_before s →
  Forall (λ y, SelectedBullet.bullet_index x < SelectedBullet.bullet_index y) s →
  StronglySorted ranks_before (PyList.insert_desc SelectedBullet.score x s).
Proof.
  induction s as [|y s IH]; intros Hs Hx; simpl.
  - repeat constructor.
  - apply StronglySorted_inv in Hs as [Hs Hy].
    apply Forall_cons in Hx as [Hxy Hx].
    destruct (QMicromega.Qlt_bool _ _) eqn:Hlt.
    + apply QMicromega.Qlt_bool_iff in Hlt. constructor; [by apply IH|].
      rewrite insert_desc_Permutation. constructor; [by left | done].
    + assert (SelectedBullet.score y <= SelectedBullet.score x)%Q as Hle.
      { apply Qnot_lt_le. intros Hc. apply QMicromega.Qlt_bool_iff in Hc. congruence. }
      constructor; [by constructor|].
      assert (∀ z, (SelectedBullet.score z <= SelectedBullet.score x)%Q →
                   SelectedBullet.bullet_index x < SelectedBullet.bullet_index z →
                   ranks_before x z) as Hrank.
      { intros z Hz Hi. destruct (Qlt_le_dec (SelectedBullet.score z) (SelectedBullet.score x)).
        - by left.
        - right. split; [lra | done]. }
      constructor; [by apply Hrank|].
      rewrite Forall_forall in Hy, Hx |- *. intros z Hz.
      apply Hrank; [|by apply Hx].
      pose proof (ranks_before_score _ _ (Hy z Hz)). lra.
Qed.

Lemma sort_desc_ranked l :
  StronglySorted
    (λ a b, SelectedBullet.bullet_index a < SelectedBullet.bullet_index b) l →
  StronglySorted ranks_before (PyList.sort_desc SelectedBullet.score l).
Proof.
  unfold PyList.sort_desc. induction 1 as [|x l Hl IH Hx]; simpl; [constructor|].
  apply insert_desc_ranked; [done|].
  pose proof (sort_desc_Permutation SelectedBullet.score l) as HP.
  unfold PyList.sort_desc in HP. by rewrite HP.
Qed.

Lemma elem_of_scored_of idx exp keywords sims ibs sb :
  sb ∈ scored_of idx exp keywords sims ibs ↔
  ∃ bidx b, (bidx, b) ∈ ibs
    ∧ (0 < blended_score exp keywords sims bidx b)%Q
    ∧ sb = SelectedBullet.mk idx bidx (Bullet.text b) (Bullet.source_ids b)
             (blended_score exp keywords sims bidx b).
Proof.
  unfold scored_of. rewrite list_elem_of_omap. split.
  - intros ([bidx b] & Hin & Hsb). exists bidx, b. simpl in Hsb.
    destruct (QMicromega.Qlt_bool _ _) eqn:Hlt; [|done].
    apply QMicromega.Qlt_bool_iff in Hlt. injection Hsb as <-. done.
  - intros (bidx & b & Hin & Hpos & ->). exists (bidx, b). split; [done|].
    simpl. apply QMicromega.Qlt_bool_iff in Hpos. by rewrite Hpos.
Qed.

Lemma scored_of_index_sorted idx exp keywords sims ibs :
  StronglySorted lt ibs.*1 →
  StronglySorted
    (λ a b, SelectedBullet.bullet_index a < SelectedBullet.bullet_index b)
    (scored_of idx exp keywords sims ibs).
Proof.
  induction ibs as [|[bidx b] ibs IH]; intros Hs; [constructor|].
  rewrite fmap_cons in Hs. apply StronglySorted_inv in Hs as [Hs Hb].
  specialize (IH Hs). unfold scored_of in *. simpl.
  destruct (QMicromega.Qlt_bool _ _); [|done].
  simpl. constructor; [done|].
  rewrite Forall_forall. intros sb Hsb.
  apply (elem_of_scored_of idx exp keywords sims ibs sb) in Hsb
    as (bidx' & b' & Hin & _ & ->). simpl.
  rewrite Forall_forall in Hb. apply Hb.
  apply list_elem_of_fmap. by exists (bidx', b').
Qed.

Lemma seq_StronglySorted start n : StronglySorted lt (seq start n).
Proof.
  revert start. induction n as [|n IH]; intros start; simpl; constructor; [done|].
  rewrite Forall_forall. intros k Hk%elem_of_seq. lia.
Qed.

Section Ranking.
Variable backend : list string → string → option (list Q).

Lemma elem_of_eligible keywords job_text idx exp sb :
  sb ∈ eligible backend keywords job_text idx exp ↔
  ∃ b, Experience.bullets exp !! SelectedBullet.bullet_index sb = Some b
    ∧ (0 < SelectedBullet.score sb)%Q
    ∧ sb = SelectedBullet.mk idx (SelectedBullet.bullet_index sb) (Bullet.text b)
             (Bullet.source_ids b)
             (blended_score exp keywords (sim_scores_of backend exp job_text)
                (SelectedBullet.bullet_index sb) b).
Proof.
  unfold eligible. rewrite elem_of_scored_of. split.
  - intros (bidx & b & Hin & Hpos & ->). simpl. exists b.
    apply list_elem_of_lookup in Hin as [i Hi].
    apply enumerate_lookup in Hi as [-> Hi]. done.
  - intros (b & Hb & Hpos & Hsb). exists (SelectedBullet.bullet_index sb), b.
    split_and!; [| |done].
    + apply list_elem_of_lookup. exists (SelectedBullet.bullet_index sb).
      by apply enumerate_lookup.
    + rewrite Hsb in Hpos. done.
Qed.

Lemma ranked_Permutation keywords job_text idx exp :
  ranked backend keywords job_text idx exp
  ≡ₚ eligible backend keywords job_text idx exp.
Proof. apply sort_desc_Permutation. Qed.

Lemma ranked_sorted keywords job_text idx exp :
  StronglySorted ranks_before (ranked backend keywords job_text idx exp).
Proof.
  apply sort_desc_ranked, scored_of_index_sorted.
  rewrite enumerate_keys. apply seq_StronglySorted.
Qed.

Lemma elem_of_role_selection keywords job_text budgets idx exp sb :
  sb ∈ role_selection backend keywords job_text budgets idx exp →
  sb ∈ eligible backend keywords job_text idx exp.
Proof.
  intros H%slice_to_elem_of. by rewrite ranked_Permutation in H.
Qed.

End Ranking.

Lemma StronglySorted_lookup_lt {A} (R : relation A) (l : list A) i j a b :
  StronglySorted R l → i < j → l !! i = Some a → l !! j = Some b → R a b.
Proof.
  intros Hs. revert i j. induction Hs as [|x l Hs IH Hx]; intros i j Hij Hi Hj; [done|].
  destruct j as [|j]; [lia|]. simpl in Hj. destruct i as [|i]; simpl in Hi.
  - injection Hi as ->. rewrite Forall_forall in Hx. apply Hx.
    by eapply list_elem_of_lookup_2.
  - apply (IH i j); [lia|done..].
Qed.

(** ** Arithmetic of the scores *)

Lemma nat2Q_nonneg n : (0 <= nat2Q n)%Q.
Proof. unfold nat2Q. change 0%Q with (inject_Z 0). rewrite <- Zle_Qle. lia. Qed.

Lemma nat2Q_le n m : n ≤ m → (nat2Q n <= nat2Q m)%Q.
Proof. intros H. unfold nat2Q. rewrite <- Zle_Qle. lia. Qed.

Lemma nat2Q_max1_pos m : (0 < nat2Q (max 1 m))%Q.
Proof. unfold nat2Q. change 0%Q with (inject_Z 0). rewrite <- Zlt_Qlt. lia. Qed.

Lemma ratio_bounds a m :
  a ≤ m → (0 <= nat2Q a / nat2Q (max 1 m) <= 1)%Q.
Proof.
  intros Ham. pose proof (nat2Q_max1_pos m) as Hpos. split.
  - apply Qle_shift_div_l; [done|]. rewrite Qmult_0_l. apply nat2Q_nonneg.
  - apply Qle_shift_div_r; [done|]. rewrite Qmult_1_l. apply nat2Q_le. lia.
Qed.

Lemma ratio_zero q : (nat2Q 0 / q == 0)%Q.
Proof. unfold Qdiv. apply Qmult_0_l. Qed.

(** The keyword score as one closed expression: the early [return 0.0]
    agrees with it, the overlap being empty there. *)
Lemma keyword_score_formula text keywords :
  let tokens := _token_set text in
  let kws : gset string := list_to_set (_normalize_token <$> keywords) in
  (score_text_against_keywords text keywords
   == (7 # 10) * (nat2Q (size (tokens ∩ kws)) / nat2Q (max 1 (size kws)))
      + (3 # 10) * (nat2Q (size (tokens ∩ kws)) / nat2Q (max 1 (size tokens))))%Q.
Proof.
  intros tokens kws. unfold score_text_against_keywords. fold tokens. fold kws.
  destruct (bool_decide (tokens = ∅)) eqn:Ht; simpl.
  - apply bool_decide_eq_true in Ht. rewrite Ht.
    rewrite intersection_empty_l_L, size_empty, !ratio_zero. lra.
  - destruct (bool_decide (kws = ∅)) eqn:Hk; simpl.
    + apply bool_decide_eq_true in Hk. rewrite Hk.
      rewrite intersection_empty_r_L, size_empty, !ratio_zero. lra.
    + lra.
Qed.

Lemma keyword_score_range text keywords :
  (0 <= score_text_against_keywords text keywords <= 1)%Q.
Proof.
  rewrite keyword_score_formula.
  set (tokens := _token_set text).
  set (kws := list_to_set (_normalize_token <$> keywords) : gset string).
  pose proof (ratio_bounds (size (tokens ∩ kws)) (size kws)
                (subseteq_size _ _ (intersection_subseteq_r tokens kws))) as H1.
  pose proof (ratio_bounds (size (tokens ∩ kws)) (size tokens)
                (subseteq_size _ _ (intersection_subseteq_l tokens kws))) as H2.
  lra.
Qed.

Lemma keyword_score_no_keywords text : score_text_against_keywords text [] = 0%Q.
Proof.
  unfold score_text_against_keywords. rewrite fmap_nil, list_to_set_nil.
  rewrite (bool_decide_eq_true_2 (∅ = ∅)) by done. by rewrite orb_true_r.
Qed.

Lemma keyword_score_no_tokens text keywords :
  _token_set text = ∅ → score_text_against_keywords text keywords = 0%Q.
Proof.
  intros Ht. unfold score_text_against_keywords. rewrite Ht.
  by rewrite (bool_decide_eq_true_2 (∅ = ∅)) by done.
Qed.

(** ** Roles without an eligible bullet *)

Lemma slice_to_nil {A} (stop : Z) : PyList.slice_to (@nil A) stop = [].
Proof. destruct (slice_to_take (@nil A) stop) as [n ->]. apply take_nil. Qed.

Lemma role_selection_nil backend keywords job_text budgets idx exp :
  (∀ bidx b, Experience.bullets exp !! bidx = Some b →
     (blended_score exp keywords (sim_scores_of backend exp job_text) bidx b <= 0)%Q) →
  role_selection backend keywords job_text budgets idx exp = [].
Proof.
  intros Hall. unfold role_selection, ranked.
  assert (eligible backend keywords job_text idx exp = []) as ->.
  { apply elem_of_nil_inv. intros sb Hsb.
    apply elem_of_eligible in Hsb as (b & Hb & Hpos & Hsb).
    specialize (Hall _ _ Hb). rewrite Hsb in Hpos. simpl in Hpos. lra. }
  apply slice_to_nil.
Qed.

Lemma sim_scores_of_no_job_text backend exp job_text :
  opt_truthy job_text = false →
  sim_scores_of backend exp job_text
  = replicate (length (Experience.bullets exp)) 0%Q.
Proof.
  intros Hjt. unfold sim_scores_of. rewrite length_fmap.
  destruct job_text as [jt|]; [|done]. simpl in Hjt. by rewrite Hjt.
Qed.

Lemma blended_score_no_signal backend exp job_text bidx b :
  opt_truthy job_text = false →
  (blended_score exp [] (sim_scores_of backend exp job_text) bidx b == 0)%Q.
Proof.
  intros Hjt. unfold blended_score.
  rewrite keyword_score_no_keywords, (sim_scores_of_no_job_text _ _ _ Hjt).
  rewrite list_to_set_nil, intersection_empty_r_L, size_empty.
  destruct (replicate _ _ !! bidx) as [x|] eqn:Hx.
  - apply lookup_replicate in Hx as [-> _]. reflexivity.
  - reflexivity.
Qed.

(** ** The highlights of the cover letter *)

Lemma collect_texts_nil (by_role : PyDict.t nat (list SelectedBullet.t)) (ks : list nat) :
  (∀ idx l, PyDict.getitem by_role idx = Some l → l = []) →
  foldl
    (λ acc idx, acc ++ (SelectedBullet.text <$> default [] (PyDict.getitem by_role idx)))
    [] ks = [].
Proof.
  intros Hall. induction ks as [|k ks IH]; [done|]. simpl.
  destruct (PyDict.getitem by_role k) as [l|] eqn:Hk; simpl; [|done].
  by rewrite (Hall _ _ Hk).
Qed.

(** ** Strings as character lists *)

Lemma last_rev_head {A} (l : list A) : last (rev l) = head l.
Proof. destruct l as [|x l]; simpl; [done|]. apply last_snoc. Qed.

Lemma elem_of_rev_iff {A} (x : A) (l : list A) : x ∈ rev l ↔ x ∈ l.
Proof. rewrite !list_elem_of_In. symmetry. apply in_rev. Qed.

Lemma chars_inj s1 s2 : chars s1 = chars s2 → s1 = s2.
Proof.
  intros H. rewrite <- (String.string_of_list_ascii_of_string s1),
    <- (String.string_of_list_ascii_of_string s2). by rewrite H.
Qed.

Lemma chars_rev_app s1 s2 : chars (String.rev_app s1 s2) = rev (chars s1) ++ chars s2.
Proof.
  revert s2. induction s1 as [|c s1 IH]; intros s2; simpl; [done|].
  rewrite IH. simpl. by rewrite <- app_assoc.
Qed.

Lemma chars_rev s : chars (String.rev s) = rev (chars s).
Proof. unfold String.rev. rewrite chars_rev_app. simpl. by rewrite app_nil_r. Qed.

Lemma string_rev_involutive s : String.rev (String.rev s) = s.
Proof. apply chars_inj. by rewrite !chars_rev, rev_involutive. Qed.

Lemma chars_lower s : chars (PyStr.lower s) = PyStr.lower_char <$> chars s.
Proof. induction s as [|c s IH]; simpl; [done|]. by rewrite IH. Qed.

Lemma chars_of_list l : chars (String.string_of_list_ascii l) = l.
Proof. apply String.list_ascii_of_string_of_list_ascii. Qed.

(** What [lstrip], [rstrip] and [strip] remove and what they leave. *)
Lemma lstrip_by_chars p s :
  ∃ pre, chars s = pre ++ chars (PyStr.lstrip_by p s)
    ∧ Forall (λ c, p c = true) pre
    ∧ ∀ c, head (chars (PyStr.lstrip_by p s)) = Some c → p c = false.
Proof.
  induction s as [|c s (pre & Hs & Hpre & Hhead)]; simpl.
  - exists []. by split_and!.
  - destruct (p c) eqn:Hc.
    + exists (c :: pre). split_and!; [by rewrite Hs | by constructor | done].
    + exists []. split_and!; [done | constructor |]. simpl. by intros ? [= <-].
Qed.

Lemma rstrip_by_chars p s :
  ∃ suf, chars s = chars (PyStr.rstrip_by p s) ++ suf
    ∧ Forall (λ c, p c = true) suf
    ∧ ∀ c, last (chars (PyStr.rstrip_by p s)) = Some c → p c = false.
Proof.
  unfold PyStr.rstrip_by.
  destruct (lstrip_by_chars p (String.rev s)) as (pre & Hs & Hpre & Hhead).
  exists (rev pre). rewrite chars_rev in Hs |- *. split_and!.
  - rewrite <- (rev_involutive (chars s)), Hs, rev_app_distr. done.
  - rewrite Forall_forall in Hpre |- *. intros c Hc. apply Hpre.
    by apply elem_of_rev_iff.
  - intros c Hc. apply Hhead. by rewrite <- last_rev_head.
Qed.

Lemma strip_by_chars p s :
  ∃ pre suf, chars s = pre ++ chars (PyStr.strip_by p s) ++ suf
    ∧ Forall (λ c, p c = true) pre ∧ Forall (λ c, p c = true) suf
    ∧ (∀ c, head (chars (PyStr.strip_by p s)) = Some c → p c = false)
    ∧ (∀ c, last (chars (PyStr.strip_by p s)) = Some c → p c = false).
Proof.
  unfold PyStr.strip_by.
  destruct (lstrip_by_chars p s) as (pre & Hs & Hpre & Hhead).
  destruct (rstrip_by_chars p (PyStr.lstrip_by p s)) as (suf & Hl & Hsuf & Hlast).
  exists pre, suf. split_and!; [by rewrite Hs, Hl at 1|done..| |done].
  intros c Hc. apply Hhead. rewrite Hl.
  destruct (chars (PyStr.rstrip_by p (PyStr.lstrip_by p s))); [done|]. done.
Qed.

Lemma lstrip_by_id p s :
  (∀ c, head (chars s) = Some c → p c = false) → PyStr.lstrip_by p s = s.
Proof.
  destruct s as [|c s]; simpl; [done|]. intros H. by rewrite (H c eq_refl).
Qed.

Lemma rstrip_by_id p s :
  (∀ c, last (chars s) = Some c → p c = false) → PyStr.rstrip_by p s = s.
Proof.
  intros H. unfold PyStr.rstrip_by. rewrite lstrip_by_id.
  - apply string_rev_involutive.
  - intros c Hc. apply H. rewrite chars_rev in Hc. by rewrite <- last_rev_head, rev_involutive in Hc.
Qed.

Lemma strip_by_id p s :
  (∀ c, head (chars s) = Some c → p c = false) →
  (∀ c, last (chars s) = Some c → p c = false) →
  PyStr.strip_by p s = s.
Proof.
  intros Hh Hl. unfold PyStr.strip_by. rewrite (lstrip_by_id p s Hh).
  by apply rstrip_by_id.
Qed.

Lemma lower_id s :
  Forall (λ c, PyStr.lower_char c = c) (chars s) → PyStr.lower s = s.
Proof.
  intros H. apply chars_inj. rewrite chars_lower.
  induction H as [|c l Hc _ IH]; [done|]. by rewrite fmap_cons, Hc, IH.
Qed.

(** * The claims *)

(** The specification's wording of C1 puts the normalized keywords in
    the skill overlap too.  The code intersects the role's skill tags with
    the keyword strings as given: with the skill tag "aws" and the keyword
    "AWS" the code adds no boost and the bullet scores 0, while the formula
    of the specification gives 0.05. *)
Lemma C1_counterexample :
  (blended_score tie_role ["AWS"] (sim_scores_of no_sklearn tie_role None) 0
     (Bullet.mk "Wrote documentation" ["cv.docx"]) == 0)%Q
  ∧ (relevance_as_stated (semantic_score no_sklearn tie_role None 0)
       (Experience.skills tie_role) "Wrote documentation" ["AWS"] == 5 # 100)%Q
  ∧ ¬ (blended_score tie_role ["AWS"] (sim_scores_of no_sklearn tie_role None) 0
         (Bullet.mk "Wrote documentation" ["cv.docx"])
       == relevance_as_stated (semantic_score no_sklearn tie_role None 0)
            (Experience.skills tie_role) "Wrote documentation" ["AWS"])%Q.
Proof.
  assert (blended_score tie_role ["AWS"] (sim_scores_of no_sklearn tie_role None) 0
            (Bullet.mk "Wrote documentation" ["cv.docx"]) == 0)%Q as Hcode
    by (vm_compute; reflexivity).
  assert (relevance_as_stated (semantic_score no_sklearn tie_role None 0)
            (Experience.skills tie_role) "Wrote documentation" ["AWS"] == 5 # 100)%Q
    as Hspec by (vm_compute; reflexivity).
  split; [done|]. split; [done|]. rewrite Hcode, Hspec. intros H. discriminate H.
Qed.

(** C1 (amended).  For every bullet [b] at position [bidx] of a role [exp],
    the score that the selection computes is
    0.6·semantic_score + 0.4·keyword_score + 0.05·|role.skills ∩ keywords|,
    with keyword_score = 0.7·base + 0.3·density,
    base = |tokens ∩ kws| / max(1, |kws|) and
    density = |tokens ∩ kws| / max(1, |tokens|).  Here [tokens] is the set
    of normalized whitespace-delimited tokens of the bullet text and [kws]
    the set of normalized keywords, each keyword normalized as a whole;
    the skill overlap is counted on the role's skill tags and the keyword
    strings as given, not on the normalized ones; semantic_score is the
    entry that line 64 reads.  A selected bullet carries that score.
    Normalizing a string lower-cases it, strips its whitespace and then
    removes the characters [.,;:!?] from both ends, and only those: what
    remains neither begins nor ends with one of them. *)
Theorem C1_blended_score_formula
    (backend : list string → string → option (list Q))
    (candidate : Candidate.t) (keywords : list string) (job_text : option string)
    (budgets : Z * Z * Z) (idx : nat) (exp : Experience.t) (bidx : nat) (b : Bullet.t) :
  Candidate.work_experience candidate !! idx = Some exp →
  Experience.bullets exp !! bidx = Some b →
  let tokens := _token_set (Bullet.text b) in
  let kws : gset string := list_to_set (_normalize_token <$> keywords) in
  let base := (nat2Q (size (tokens ∩ kws)) / nat2Q (max 1 (size kws)))%Q in
  let density := (nat2Q (size (tokens ∩ kws)) / nat2Q (max 1 (size tokens)))%Q in
  let keyword_score := ((7 # 10) * base + (3 # 10) * density)%Q in
  let skill_overlap :=
    size ((list_to_set (Experience.skills exp) : gset string) ∩ list_to_set keywords) in
  let relevance :=
    ((6 # 10) * semantic_score backend exp job_text bidx
     + (4 # 10) * keyword_score + (5 # 100) * nat2Q skill_overlap)%Q in
  (score_text_against_keywords (Bullet.text b) keywords == keyword_score)%Q
  ∧ (blended_score exp keywords (sim_scores_of backend exp job_text) bidx b
     == relevance)%Q
  ∧ (∀ l sb,
      PyDict.getitem
        (SelectionResult.selected_by_role
           (select_bullets backend candidate keywords job_text budgets)) idx = Some l →
      sb ∈ l → SelectedBullet.bullet_index sb = bidx →
      (SelectedBullet.score sb == relevance)%Q)
  ∧ (∀ t, t ∈ tokens ↔
       ∃ w, w ∈ PyStr.split (Bullet.text b) ∧ PyStr.strip w ≠ ""
            ∧ t = _normalize_token w)
  ∧ (∀ t, ∃ pre suf,
       chars (PyStr.strip (PyStr.lower t)) = pre ++ chars (_normalize_token t) ++ suf
       ∧ Forall (λ c, PyStr.mem_char c ".,;:!?" = true) pre
       ∧ Forall (λ c, PyStr.mem_char c ".,;:!?" = true) suf
       ∧ (∀ c, head (chars (_normalize_token t)) = Some c →
            PyStr.mem_char c ".,;:!?" = false)
       ∧ (∀ c, last (chars (_normalize_token t)) = Some c →
            PyStr.mem_char c ".,;:!?" = false)).
Proof.
  intros Hexp Hb tokens kws base density keyword_score skill_overlap relevance.
  assert (score_text_against_keywords (Bullet.text b) keywords == keyword_score)%Q
    as Hkw by apply keyword_score_formula.
  assert (blended_score exp keywords (sim_scores_of backend exp job_text) bidx b
          == relevance)%Q as Hblend.
  { unfold blended_score, relevance, semantic_score. fold skill_overlap.
    rewrite Hkw. destruct (_ !! bidx); lra. }
  split; [done|]. split; [done|]. split; [|split].
  - intros l sb Hl Hsb Hidx.
    apply (selected_getitem_Some _ _ _ _ _ _ _ _ Hexp) in Hl. subst l.
    apply elem_of_role_selection, elem_of_eligible in Hsb as (b' & Hb' & _ & Hsb).
    rewrite Hidx in Hb'. assert (b' = b) as -> by congruence.
    rewrite Hsb. simpl. by rewrite Hidx.
  - intros t. unfold tokens, _token_set.
    rewrite elem_of_list_to_set, list_elem_of_fmap. split.
    + intros (w & -> & [Hw Hin]%list_elem_of_filter). exists w.
      split; [done|]. split; [|done]. intros Hnil. by rewrite Hnil in Hw.
    + intros (w & Hin & Hw & ->). exists w. split; [done|].
      apply list_elem_of_filter. split; [|done]. by destruct (PyStr.strip w).
  - intros t. unfold _normalize_token, PyStr.strip_chars.
    apply (strip_by_chars (λ c, PyStr.mem_char c ".,;:!?")
             (PyStr.strip (PyStr.lower t))).
Qed.

Lemma C1_witness :
  (blended_score sample_role_acme sample_keywords [0; 0; 0]%Q 0
     (Bullet.mk "Led migration to AWS, reducing cost 20%" ["resume.pdf"])
   == 267 # 700)%Q.
Proof.
  destruct (C1_blended_score_formula no_sklearn sample_candidate sample_keywords None
              default_budgets 0 sample_role_acme 0
              (Bullet.mk "Led migration to AWS, reducing cost 20%" ["resume.pdf"])
              eq_refl eq_refl)
    as (_ & H & _).
  change (sim_scores_of no_sklearn sample_role_acme None) with [0; 0; 0]%Q in H.
  rewrite H. vm_compute. reflexivity.
Defined.

(** C2.  For every role of the candidate, the selector's output for that
    role contains only bullets whose score is strictly greater than 0, is
    ordered by non-increasing score, and has length at most
    budget(role_index); budget is b0 for role index 0, b1 for index 1 and
    b2 for every index >= 2.  A budget is a maximum number of bullets, so
    it is not negative; the last but one conjunct records what the slice
    of line 77 does with a negative integer all the same. *)
Theorem C2_positive_sorted_within_budget
    (backend : list string → string → option (list Q))
    (candidate : Candidate.t) (keywords : list string) (job_text : option string)
    (budgets : Z * Z * Z) (idx : nat) (exp : Experience.t) :
  Candidate.work_experience candidate !! idx = Some exp →
  ∃ l,
    PyDict.getitem
      (SelectionResult.selected_by_role
         (select_bullets backend candidate keywords job_text budgets)) idx = Some l
    ∧ Forall (λ sb, (0 < SelectedBullet.score sb)%Q) l
    ∧ (∀ i j a b, i < j → l !! i = Some a → l !! j = Some b →
         (SelectedBullet.score b <= SelectedBullet.score a)%Q)
    ∧ ((0 ≤ budget_of budgets idx)%Z → (Z.of_nat (length l) ≤ budget_of budgets idx)%Z)
    ∧ ((budget_of budgets idx < 0)%Z →
       Z.of_nat (length l)
       = Z.max 0 (Z.of_nat (length (eligible backend keywords job_text idx exp))
                  + budget_of budgets idx))
    ∧ budget_of budgets idx
      = match idx with 0 => budgets.1.1 | 1 => budgets.1.2 | _ => budgets.2 end.
Proof.
  intros Hexp. exists (role_selection backend keywords job_text budgets idx exp).
  split_and!.
  - by rewrite selected_getitem, Hexp.
  - rewrite Forall_forall. intros sb Hsb.
    by apply elem_of_role_selection, elem_of_eligible in Hsb as (b & _ & Hpos & _).
  - intros i j a b Hij Ha Hb. apply ranks_before_score.
    eapply StronglySorted_lookup_lt; [|done..].
    apply slice_to_StronglySorted, ranked_sorted.
  - apply slice_to_length.
  - intros Hneg. unfold role_selection. rewrite slice_to_length_neg by done.
    by rewrite (Permutation_length (ranked_Permutation backend keywords job_text idx exp)).
  - reflexivity.
Qed.

Lemma C2_witness :
  ∃ l,
    PyDict.getitem
      (SelectionResult.selected_by_role
         (select_bullets no_sklearn sample_candidate sample_keywords
            (Some "We run on AWS and watch cost.") (2, 4, 2)%Z)) 0 = Some l
    ∧ (SelectedBullet.bullet_index <$> l) = [0; 2]
    ∧ Forall (λ sb, (0 < SelectedBullet.score sb)%Q) l
    ∧ (Z.of_nat (length l) ≤ 2)%Z.
Proof.
  destruct (C2_positive_sorted_within_budget no_sklearn sample_candidate
              sample_keywords (Some "We run on AWS and watch cost.") (2, 4, 2)%Z
              0 sample_role_acme eq_refl) as (l & Hl & Hpos & _ & Hlen & _).
  exists l. split_and!; [done| |done|apply Hlen; simpl; lia].
  apply (selected_getitem_Some _ sample_candidate _ _ _ 0 sample_role_acme _ eq_refl) in Hl.
  subst l. vm_compute. reflexivity.
Defined.

(** C3.  Selection is deterministic with a stable tie-break.  Two runs on
    identical inputs return identical results, and nothing is left to
    chance in a role's ranking: it is the only arrangement of the eligible
    bullets in which every bullet precedes those of lower score and,
    among equal scores, those that come later in the role's bullet list.
    In particular two selected bullets of equal score appear in their
    original order. *)
Theorem C3_deterministic_with_stable_ties
    (backend : list string → string → option (list Q))
    (candidate : Candidate.t) (keywords : list string) (job_text : option string)
    (budgets : Z * Z * Z) (idx : nat) (exp : Experience.t) :
  Candidate.work_experience candidate !! idx = Some exp →
  (∀ candidate' keywords' job_text' budgets',
     candidate' = candidate → keywords' = keywords →
     job_text' = job_text → budgets' = budgets →
     select_bullets backend candidate' keywords' job_text' budgets'
     = select_bullets backend candidate keywords job_text budgets)
  ∧ ∃ l,
      PyDict.getitem
        (SelectionResult.selected_by_role
           (select_bullets backend candidate keywords job_text budgets)) idx = Some l
      ∧ l = PyList.slice_to (ranked backend keywords job_text idx exp)
              (budget_of budgets idx)
      ∧ ranked backend keywords job_text idx exp
        ≡ₚ eligible backend keywords job_text idx exp
      ∧ StronglySorted ranks_before (ranked backend keywords job_text idx exp)
      ∧ (∀ r, r ≡ₚ eligible backend keywords job_text idx exp →
              StronglySorted ranks_before r →
              r = ranked backend keywords job_text idx exp)
      ∧ (∀ i j a b, i < j → l !! i = Some a → l !! j = Some b →
           (SelectedBullet.score a == SelectedBullet.score b)%Q →
           SelectedBullet.bullet_index a < SelectedBullet.bullet_index b).
Proof.
  intros Hexp. split.
  { by intros ???? -> -> -> ->. }
  exists (role_selection backend keywords job_text budgets idx exp). split_and!.
  - by rewrite selected_getitem, Hexp.
  - reflexivity.
  - apply ranked_Permutation.
  - apply ranked_sorted.
  - intros r Hperm Hsorted.
    apply (StronglySorted_unique_strong ranks_before); [|done|apply ranked_sorted|].
    + intros x y _ _ Hxy Hyx. destruct (ranks_before_asym _ _ Hxy Hyx).
    + by rewrite Hperm, ranked_Permutation.
  - intros i j a b Hij Ha Hb Heq.
    assert (ranks_before a b) as [Hlt|[_ Hidx]]; [|lra|done].
    eapply StronglySorted_lookup_lt; [|done..].
    apply slice_to_StronglySorted, ranked_sorted.
Qed.

Lemma C3_witness :
  ∃ l,
    PyDict.getitem
      (SelectionResult.selected_by_role
         (select_bullets no_sklearn tie_candidate ["aws"] None default_budgets)) 0
    = Some l
    ∧ (SelectedBullet.bullet_index <$> l) = [0; 1]
    ∧ (SelectedBullet.score <$> l) = [(100000 # 2000000)%Q; (100000 # 2000000)%Q].
Proof.
  destruct (C3_deterministic_with_stable_ties no_sklearn tie_candidate ["aws"]
              None default_budgets 0 tie_role eq_refl)
    as (_ & l & Hl & Heq & _).
  exists l. split; [done|]. rewrite Heq. vm_compute. split; reflexivity.
Defined.

(** C4.  Provenance is never fabricated: every selected bullet stored
    under role index [idx] has [role_index = idx], its [bullet_index] is a
    position of that role's bullet list, and its text and source_ids are
    those of the bullet at that position (so its source_ids are a subset
    of the originating bullet's). *)
Theorem C4_provenance_is_the_originating_bullet
    (backend : list string → string → option (list Q))
    (candidate : Candidate.t) (keywords : list string) (job_text : option string)
    (budgets : Z * Z * Z) (idx : nat) (l : list SelectedBullet.t)
    (sb : SelectedBullet.t) :
  PyDict.getitem
    (SelectionResult.selected_by_role
       (select_bullets backend candidate keywords job_text budgets)) idx = Some l →
  sb ∈ l →
  SelectedBullet.role_index sb = idx
  ∧ ∃ exp b,
      Candidate.work_experience candidate !! SelectedBullet.role_index sb = Some exp
      ∧ Experience.bullets exp !! SelectedBullet.bullet_index sb = Some b
      ∧ SelectedBullet.text sb = Bullet.text b
      ∧ SelectedBullet.source_ids sb = Bullet.source_ids b
      ∧ SelectedBullet.source_ids sb ⊆ Bullet.source_ids b.
Proof.
  intros Hl Hsb. rewrite selected_getitem in Hl.
  destruct (Candidate.work_experience candidate !! idx) as [exp|] eqn:Hexp; [|done].
  injection Hl as <-.
  apply elem_of_role_selection, elem_of_eligible in Hsb as (b & Hb & _ & Hsb).
  assert (SelectedBullet.role_index sb = idx) as Hrole by (by rewrite Hsb).
  split; [done|]. exists exp, b. rewrite Hrole.
  split_and!; [done..| | |]; rewrite Hsb; done.
Qed.

Lemma C4_witness :
  ∃ sb,
    SelectedBullet.bullet_index sb = 2
    ∧ SelectedBullet.role_index sb = 0
    ∧ SelectedBullet.source_ids sb = ["cv.docx"; "linkedin"].
Proof.
  set (res := select_bullets no_sklearn sample_candidate sample_keywords None
                default_budgets).
  set (l := role_selection no_sklearn sample_keywords None default_budgets 0
              sample_role_acme).
  assert (PyDict.getitem (SelectionResult.selected_by_role res) 0 = Some l) as Hl.
  { unfold res. by rewrite selected_getitem. }
  assert (∃ sb, l !! 1 = Some sb ∧ SelectedBullet.bullet_index sb = 2)
    as (sb & Hsb & Hbidx).
  { eexists. split; vm_compute; reflexivity. }
  destruct (C4_provenance_is_the_originating_bullet no_sklearn sample_candidate
              sample_keywords None default_budgets 0 l sb Hl
              (list_elem_of_lookup_2 _ _ _ Hsb))
    as (Hrole & exp & b & Hexp & Hb & _ & Hsrc & _).
  exists sb. split_and!; [done..|].
  rewrite Hsrc. rewrite Hrole in Hexp. rewrite Hbidx in Hb.
  vm_compute in Hexp. injection Hexp as <-.
  vm_compute in Hb. injection Hb as <-. reflexivity.
Defined.

(** C5.  [select_bullets] returns a SelectionResult for every candidate,
    keyword list, job text and budgets, also when the similarity backend
    raises: the embedding is a total function and the [try] falls back.
    With an empty keyword list and no job text every bullet scores exactly
    0 and every role gets the empty selection; a candidate with zero roles
    gets the empty mapping. *)
Theorem C5_always_returns_empty_without_signal
    (backend : list string → string → option (list Q))
    (candidate : Candidate.t) (keywords : list string) (job_text : option string)
    (budgets : Z * Z * Z) :
  ∃ result,
    select_bullets backend candidate keywords job_text budgets = result
    ∧ (keywords = [] → opt_truthy job_text = false →
       ∀ idx exp, Candidate.work_experience candidate !! idx = Some exp →
         (∀ bidx b, Experience.bullets exp !! bidx = Some b →
            (blended_score exp keywords (sim_scores_of backend exp job_text) bidx b
             == 0)%Q)
         ∧ PyDict.getitem (SelectionResult.selected_by_role result) idx = Some [])
    ∧ (Candidate.work_experience candidate = [] →
       SelectionResult.selected_by_role result = []).
Proof.
  eexists. split; [reflexivity|]. split.
  - intros -> Hjt idx exp Hexp.
    assert (∀ bidx b, Experience.bullets exp !! bidx = Some b →
              (blended_score exp [] (sim_scores_of backend exp job_text) bidx b
               == 0)%Q) as Hzero.
    { intros bidx b _. by apply blended_score_no_signal. }
    split; [done|].
    rewrite selected_getitem, Hexp. simpl. f_equal.
    apply role_selection_nil. intros bidx b Hb. rewrite (Hzero _ _ Hb). lra.
  - intros Hnil. by rewrite selected_by_role_eq, Hnil.
Qed.

Lemma C5_witness :
  PyDict.getitem
    (SelectionResult.selected_by_role
       (select_bullets no_sklearn sample_candidate [] (Some "") default_budgets)) 0
  = Some [].
Proof.
  destruct (C5_always_returns_empty_without_signal no_sklearn sample_candidate []
              (Some "") default_budgets) as (result & <- & Hempty & _).
  exact (proj2 (Hempty eq_refl eq_refl 0 sample_role_acme eq_refl)).
Defined.

(** C6.  The skills of the resume context are the combined hard+soft list
    with exact duplicates removed ([dict.fromkeys]): every skill is kept
    once.  The comparison is case-sensitive, so for the hard skill
    "Python" and the soft skill "python" the context lists both, where the
    case-insensitive deduplication of the specification keeps the first. *)
Theorem C6_skills_deduplicated_case_sensitively :
  (∀ candidate job selection,
     NoDup (ResumeContext.skills (build_resume_context candidate job selection))
     ∧ ∀ skill,
         skill ∈ ResumeContext.skills (build_resume_context candidate job selection)
         ↔ skill ∈ Candidate.skills_hard candidate ++ Candidate.skills_soft candidate)
  ∧ ResumeContext.skills (build_resume_context casing_candidate sample_job empty_selection)
    = ["Python"; "python"]
  ∧ dedup_case_insensitive
      (Candidate.skills_hard casing_candidate ++ Candidate.skills_soft casing_candidate)
    = ["Python"].
Proof.
  split_and!.
  - intros candidate job selection. apply fromkeys_keys.
  - vm_compute. reflexivity.
  - vm_compute. reflexivity.
Qed.

(** C7, as stated, fails: the fallback sentence of the code is written
    with the apostrophe U+2019 (bytes E2 80 99), not with the ASCII
    apostrophe of the sentence in the specification. *)
Lemma C7_counterexample :
  LetterContext.paragraphs
    (build_cover_letter sample_candidate sample_job empty_selection None) !! 1
  ≠ Some "I'm glad to share examples of recent projects on request.".
Proof. vm_compute. discriminate. Qed.

(** C7 (amended).  When the selection contains no selected bullet and no
    personal notes are supplied ([None] or the empty string), the middle
    paragraph of the cover-letter context is exactly the sentence
    "I’m glad to share examples of recent projects on request.", whose
    apostrophe is the character U+2019. *)
Theorem C7_fallback_middle_paragraph
    (candidate : Candidate.t) (job : JobPosting.t) (selection : SelectionResult.t)
    (personal_notes : option string) :
  (∀ idx l,
     PyDict.getitem (SelectionResult.selected_by_role selection) idx = Some l →
     l = []) →
  opt_truthy personal_notes = false →
  LetterContext.paragraphs
    (build_cover_letter candidate job selection personal_notes) !! 1
  = Some "I’m glad to share examples of recent projects on request.".
Proof.
  intros Hall Hnotes. unfold build_cover_letter. cbv zeta.
  rewrite (collect_texts_nil _ _ Hall).
  destruct personal_notes as [[|c notes]|]; simpl in Hnotes; try discriminate;
    reflexivity.
Qed.

Lemma C7_witness :
  LetterContext.paragraphs
    (build_cover_letter sample_candidate sample_job empty_selection None) !! 1
  = Some "I’m glad to share examples of recent projects on request.".
Proof.
  apply C7_fallback_middle_paragraph; [|reflexivity].
  intros [|idx] l Hl; [|discriminate]. by injection Hl as <-.
Defined.

(** C8.  [select_bullets] never mutates its Candidate argument: no turn of
    either loop changes the [candidate] of the frame, so when the function
    returns the candidate is the value that was passed in. *)
Theorem C8_candidate_is_not_mutated
    (backend : list string → string → option (list Q))
    (candidate : Candidate.t) (keywords : list string) (job_text : option string)
    (budgets : Z * Z * Z) :
  Frame.candidate (select_bullets_frame backend candidate keywords job_text budgets)
  = candidate
  ∧ SelectionResult.selected_by_role
      (select_bullets backend candidate keywords job_text budgets)
    = Frame.selected (select_bullets_frame backend candidate keywords job_text budgets)
  ∧ (∀ fr ie,
       Frame.candidate (role_step backend keywords job_text budgets fr ie)
       = Frame.candidate fr)
  ∧ (∀ idx exp sims fr ib,
       Frame.candidate (bullet_step idx exp keywords sims fr ib) = Frame.candidate fr).
Proof.
  split_and!.
  - apply select_bullets_frame_eq.
  - reflexivity.
  - intros fr [idx exp]. by rewrite role_step_eq.
  - intros idx exp sims fr [bidx b]. unfold bullet_step.
    by destruct (QMicromega.Qlt_bool _ _).
Qed.

(** C9.  For a candidate with n roles the keys of [selected_by_role] are
    exactly the role indices 0..n-1, each once and in that order: an index
    has an entry if and only if it is below n, and a role none of whose
    bullets scores above 0 is mapped to the empty list. *)
Theorem C9_one_key_per_role
    (backend : list string → string → option (list Q))
    (candidate : Candidate.t) (keywords : list string) (job_text : option string)
    (budgets : Z * Z * Z) :
  let by_role :=
    SelectionResult.selected_by_role
      (select_bullets backend candidate keywords job_text budgets) in
  let n := length (Candidate.work_experience candidate) in
  PyDict.keys by_role = seq 0 n
  ∧ (∀ idx, is_Some (PyDict.getitem by_role idx) ↔ idx < n)
  ∧ (∀ idx exp,
       Candidate.work_experience candidate !! idx = Some exp →
       (∀ bidx b, Experience.bullets exp !! bidx = Some b →
          (blended_score exp keywords (sim_scores_of backend exp job_text) bidx b
           <= 0)%Q) →
       PyDict.getitem by_role idx = Some []).
Proof.
  intros by_role n. split_and!.
  - apply selected_keys.
  - intros idx. unfold by_role. rewrite selected_getitem, fmap_is_Some.
    apply lookup_lt_is_Some.
  - intros idx exp Hexp Hall. unfold by_role.
    rewrite selected_getitem, Hexp. simpl. f_equal. by apply role_selection_nil.
Qed.

Lemma C9_witness :
  PyDict.getitem
    (SelectionResult.selected_by_role
       (select_bullets no_sklearn sample_candidate sample_keywords None
          default_budgets)) 1
  = Some [].
Proof.
  apply (proj2 (proj2 (C9_one_key_per_role no_sklearn sample_candidate
                         sample_keywords None default_budgets))
           1 sample_role_initech eq_refl).
  intros [|bidx] b Hb; [|done]. injection Hb as <-. vm_compute. discriminate.
Defined.

(** C10.  For every text and keyword list, [score_text_against_keywords]
    returns a value in the closed interval [0, 1], and it returns exactly 0
    when the text has no tokens ([split] finds none, or the token set is
    empty) or the keyword list is empty. *)
Theorem C10_keyword_score_range_and_zero (text : string) (keywords : list string) :
  (0 <= score_text_against_keywords text keywords <= 1)%Q
  ∧ (PyStr.split text = [] ∨ _token_set text = ∅ ∨ keywords = [] →
     score_text_against_keywords text keywords = 0%Q).
Proof.
  split; [apply keyword_score_range|].
  intros [Hs|[Ht| ->]].
  - apply keyword_score_no_tokens. unfold _token_set. by rewrite Hs.
  - by apply keyword_score_no_tokens.
  - apply keyword_score_no_keywords.
Qed.

Lemma C10_witness :
  score_text_against_keywords "   " sample_keywords = 0%Q
  ∧ score_text_against_keywords "Cut AWS cost" [] = 0%Q.
Proof.
  split.
  - apply (proj2 (C10_keyword_score_range_and_zero "   " sample_keywords)).
    left. vm_compute. reflexivity.
  - apply (proj2 (C10_keyword_score_range_and_zero "Cut AWS cost" [])).
    right. right. reflexivity.
Defined.

(** * Further properties of the code *)

(** ** Tokens of the keyword extraction *)

Lemma flush_Forall (P : ascii → Prop) cur :
  Forall P cur → Forall (λ t, Forall P (chars t) ∧ t ≠ "") (PyStr.flush cur).
Proof.
  intros H. destruct cur as [|c cur]; [constructor|].
  unfold PyStr.flush. constructor; [|constructor]. split.
  - rewrite chars_of_list. rewrite Forall_forall in H |- *.
    intros x Hx. apply H. by apply elem_of_rev_iff.
  - intros Hs. apply (f_equal String.list_ascii_of_string) in Hs.
    rewrite chars_of_list in Hs. simpl in Hs.
    by destruct (rev cur).
Qed.

Lemma findall_from_Forall cls cur s :
  Forall (λ c, cls c = true) cur →
  Forall (λ t, Forall (λ c, cls c = true) (chars t) ∧ t ≠ "")
    (PyRe.findall_from cls cur s).
Proof.
  revert cur. induction s as [|c s IH]; intros cur Hcur; simpl.
  - by apply flush_Forall.
  - destruct (cls c) eqn:Hc.
    + apply IH. by constructor.
    + apply Forall_app. split; [by apply flush_Forall | apply IH; constructor].
Qed.

Lemma keyword_char_lower c :
  PyRe.keyword_char c = true → keyword_lower_char (PyStr.lower_char c) = true.
Proof. destruct c as [[] [] [] [] [] [] [] []]; vm_compute; done. Qed.

Lemma keyword_lower_char_facts c :
  keyword_lower_char c = true →
  PyStr.lower_char c = c ∧ PyStr.is_space c = false ∧ PyStr2.is_upper c = false
  ∧ (PyStr.mem_char c ".-/" = false → PyStr.mem_char c ".,;:!?" = false).
Proof. destruct c as [[] [] [] [] [] [] [] []]; vm_compute; intros; split_and!; done. Qed.

Lemma strip_by_Forall (P : ascii → Prop) p s :
  Forall P (chars s) → Forall P (chars (PyStr.strip_by p s)).
Proof.
  destruct (strip_by_chars p s) as (pre & suf & Hs & _). rewrite Hs.
  intros H. apply Forall_app in H as [_ H]. by apply Forall_app in H as [H _].
Qed.

(** Every counted token is lowercase, within the class, and neither
    begins nor ends with one of [. - /]. *)
Lemma keyword_tokens_shape text t :
  t ∈ keyword_tokens text →
  Forall (λ c, keyword_lower_char c = true) (chars t)
  ∧ (∀ c, head (chars t) = Some c → PyStr.mem_char c ".-/" = false)
  ∧ (∀ c, last (chars t) = Some c → PyStr.mem_char c ".-/" = false).
Proof.
  unfold keyword_tokens. intros Ht.
  apply list_elem_of_fmap in Ht as (u & -> & Hu).
  apply list_elem_of_filter in Hu as [_ Hu].
  apply list_elem_of_fmap in Hu as (v & -> & Hv).
  pose proof (findall_from_Forall PyRe.keyword_char [] text (Forall_nil_2 _)) as Hall.
  rewrite Forall_forall in Hall. destruct (Hall v Hv) as [Hchars _].
  unfold PyStr.strip_chars.
  destruct (strip_by_chars (λ c, PyStr.mem_char c ".-/") (PyStr.lower v))
    as (pre & suf & _ & _ & _ & Hhead & Hlast).
  split_and!; [|done..].
  apply strip_by_Forall. rewrite chars_lower. apply Forall_fmap.
  eapply Forall_impl; [exact Hchars|]. intros c Hc. by apply keyword_char_lower.
Qed.

Lemma normalize_token_id k :
  Forall (λ c, keyword_lower_char c = true) (chars k) →
  (∀ c, head (chars k) = Some c → PyStr.mem_char c ".-/" = false) →
  (∀ c, last (chars k) = Some c → PyStr.mem_char c ".-/" = false) →
  _normalize_token k = k.
Proof.
  intros Hall Hhead Hlast. unfold _normalize_token.
  assert (PyStr.lower k = k) as ->.
  { apply lower_id. eapply Forall_impl; [exact Hall|].
    intros c Hc. by apply keyword_lower_char_facts in Hc as (? & _). }
  assert (∀ c, c ∈ chars k → keyword_lower_char c = true) as Hin
    by (by apply Forall_forall).
  assert (PyStr.strip k = k) as ->.
  { apply strip_by_id; intros c Hc.
    - apply head_Some_elem_of in Hc. by apply Hin, keyword_lower_char_facts in Hc as (_ & ? & _).
    - apply last_Some_elem_of in Hc. by apply Hin, keyword_lower_char_facts in Hc as (_ & ? & _). }
  apply strip_by_id; intros c Hc.
  - pose proof (Hhead c Hc). apply head_Some_elem_of in Hc.
    apply Hin, keyword_lower_char_facts in Hc as (_ & _ & _ & Hc). auto.
  - pose proof (Hlast c Hc). apply last_Some_elem_of in Hc.
    apply Hin, keyword_lower_char_facts in Hc as (_ & _ & _ & Hc). auto.
Qed.

(** ** Dictionaries: reading after writing *)

Section DictReadWrite.
Context {K V : Type} `{EqDecision K}.
Implicit Types (d : PyDict.t K V) (k : K) (v : V).

Lemma getitem_setitem d k v k' :
  PyDict.getitem (PyDict.setitem k v d) k'
  = if decide (k' = k) then Some v else PyDict.getitem d k'.
Proof.
  induction d as [|[k0 v0] d IH]; simpl.
  - destruct (decide (k' = k)); done.
  - destruct (decide (k = k0)) as [->|Hne]; simpl.
    + destruct (decide (k' = k0)); done.
    + rewrite IH. destruct (decide (k' = k0)) as [->|]; [|done].
      by rewrite decide_False by done.
Qed.

Lemma get_setitem d k v k' default :
  PyDict.get (PyDict.setitem k v d) k' default
  = if decide (k' = k) then v else PyDict.get d k' default.
Proof. unfold PyDict.get. rewrite getitem_setitem. by destruct (decide (k' = k)). Qed.

Lemma get_elem_of d k v default :
  NoDup (PyDict.keys d) → (k, v) ∈ d → PyDict.get d k default = v.
Proof.
  intros Hnd [i Hi]%list_elem_of_lookup. unfold PyDict.get.
  by rewrite (getitem_lookup d k v i Hnd Hi).
Qed.

Lemma fold_setitem_fresh (l : list K) (v : V) d :
  NoDup (PyDict.keys d ++ l) →
  PyDict.keys (fold_left (λ d k, PyDict.setitem k v d) l d) = PyDict.keys d ++ l.
Proof.
  revert d. induction l as [|x l IH]; intros d Hnd; simpl.
  - by rewrite app_nil_r.
  - assert (x ∉ PyDict.keys d) as Hx.
    { apply NoDup_app in Hnd as (_ & Hd & _). intros Hin.
      apply (Hd x Hin). apply elem_of_cons. by left. }
    rewrite IH; rewrite keys_setitem, decide_False by done.
    + by rewrite <- app_assoc.
    + by rewrite <- app_assoc.
Qed.
End DictReadWrite.

(** [list(dict.fromkeys(l))] is [l] itself when [l] has no repetition. *)
Lemma fromkeys_NoDup `{EqDecision K} (l : list K) :
  NoDup l → PyDict.keys (PyDict.fromkeys l) = l.
Proof.
  intros Hnd. unfold PyDict.fromkeys.
  rewrite (fold_setitem_fresh l tt (PyDict.empty (K:=K) (V:=unit))); done.
Qed.

(** ** Counters *)

Lemma keys_bump counts t :
  PyDict.keys (Counter.bump counts t)
  = if decide (t ∈ PyDict.keys counts) then PyDict.keys counts
    else PyDict.keys counts ++ [t].
Proof. apply keys_setitem. Qed.

Lemma get_bump counts t k :
  PyDict.get (Counter.bump counts t) k 0
  = PyDict.get counts k 0 + (if decide (k = t) then 1 else 0).
Proof.
  unfold Counter.bump. rewrite get_setitem.
  destruct (decide (k = t)) as [->|]; lia.
Qed.

Lemma counter_fold counts l :
  NoDup (PyDict.keys counts) →
  NoDup (PyDict.keys (foldl Counter.bump counts l))
  ∧ (∀ k, k ∈ PyDict.keys (foldl Counter.bump counts l)
          ↔ k ∈ PyDict.keys counts ∨ k ∈ l)
  ∧ ∀ k, PyDict.get (foldl Counter.bump counts l) k 0
         = PyDict.get counts k 0 + occurrences k l.
Proof.
  revert counts. induction l as [|t l IH]; intros counts Hnd; simpl.
  - split_and!; [done| |].
    + intros k. rewrite elem_of_nil. tauto.
    + intros k. unfold occurrences. simpl. lia.
  - destruct (IH (Counter.bump counts t)) as (Hnd' & Hin & Hget).
    { rewrite keys_bump. destruct (decide (t ∈ PyDict.keys counts)); [done|].
      apply NoDup_app. split_and!; [done| |apply NoDup_singleton].
      by intros k Hk ->%list_elem_of_singleton. }
    split_and!; [done| |].
    + intros k. rewrite Hin, keys_bump, elem_of_cons.
      destruct (decide (t ∈ PyDict.keys counts)) as [Ht|Ht].
      * split; [tauto|]. intros [?|[->|?]]; tauto.
      * rewrite elem_of_app, list_elem_of_singleton. tauto.
    + intros k. rewrite Hget, get_bump. unfold occurrences.
      rewrite filter_cons. destruct (decide (k = t)) as [->|Hne].
      * rewrite decide_True by done. simpl. lia.
      * rewrite decide_False by congruence. lia.
Qed.

Lemma counter_of_list l :
  NoDup (PyDict.keys (Counter.of_list l))
  ∧ (∀ k, k ∈ PyDict.keys (Counter.of_list l) ↔ k ∈ l)
  ∧ ∀ k, PyDict.get (Counter.of_list l) k 0 = occurrences k l.
Proof.
  destruct (counter_fold (PyDict.empty (K:=string) (V:=nat)) l) as (Hnd & Hin & Hget).
  { apply NoDup_nil_2. }
  split_and!; [done| |].
  - intros k. rewrite Hin. unfold PyDict.keys, PyDict.empty.
    rewrite fmap_nil, elem_of_nil. tauto.
  - intros k. by rewrite Hget.
Qed.

(** The bonus that [favor_step] adds to the count of [t]. *)
Lemma favor_step_spec counts t :
  t ∈ PyDict.keys counts →
  PyDict.keys (favor_step counts t) = PyDict.keys counts
  ∧ ∀ k, PyDict.get (favor_step counts t) k 0
         = PyDict.get counts k 0
           + (if decide (k = t)
              then (if PyStr2.any_upper t then 1 else 0)
                   + (if has_skill_hint t then 1 else 0)
              else 0).
Proof.
  intros Ht. unfold favor_step, has_skill_hint.
  assert (∀ c, t ∈ PyDict.keys c → PyDict.keys (Counter.bump c t) = PyDict.keys c)
    as Hkeys.
  { intros c Hc. by rewrite keys_bump, decide_True. }
  destruct (PyStr2.any_upper t), (bool_decide _); split;
    rewrite ?Hkeys by (rewrite ?Hkeys; done); try done;
    intros k; rewrite ?get_bump; destruct (decide (k = t)); lia.
Qed.

Lemma favor_fold counts ks :
  NoDup ks → ks ⊆ PyDict.keys counts →
  PyDict.keys (foldl favor_step counts ks) = PyDict.keys counts
  ∧ ∀ k, PyDict.get (foldl favor_step counts ks) k 0
         = PyDict.get counts k 0
           + (if decide (k ∈ ks)
              then (if PyStr2.any_upper k then 1 else 0)
                   + (if has_skill_hint k then 1 else 0)
              else 0).
Proof.
  revert counts. induction ks as [|t ks IH]; intros counts Hnd Hsub; simpl.
  - split; [done|]. intros k.
    destruct (decide (k ∈ [])) as [Hk%elem_of_nil|]; [done|lia].
  - apply NoDup_cons in Hnd as [Ht Hnd].
    destruct (favor_step_spec counts t) as [Hk Hg].
    { apply Hsub. apply elem_of_cons. by left. }
    destruct (IH (favor_step counts t) Hnd) as [Hk' Hg'].
    { rewrite Hk. intros x Hx. apply Hsub. apply elem_of_cons. by right. }
    split; [by rewrite Hk', Hk|].
    intros k. rewrite Hg', Hg.
    destruct (decide (k = t)) as [->|Hne].
    + rewrite decide_False by done. rewrite decide_True by (apply elem_of_cons; by left). lia.
    + destruct (decide (k ∈ ks)) as [Hin|Hnin].
      * rewrite decide_True by (apply elem_of_cons; by right). lia.
      * rewrite decide_False; [lia|]. by apply not_elem_of_cons.
Qed.

Lemma any_upper_false s :
  Forall (λ c, keyword_lower_char c = true) (chars s) → PyStr2.any_upper s = false.
Proof.
  induction s as [|c s IH]; simpl; [done|]. intros H.
  apply Forall_cons in H as [Hc H].
  apply keyword_lower_char_facts in Hc as (_ & _ & -> & _). by apply IH.
Qed.

Lemma keyword_counts_spec text :
  NoDup (PyDict.keys (keyword_counts text))
  ∧ (∀ k, k ∈ PyDict.keys (keyword_counts text) ↔ k ∈ keyword_tokens text)
  ∧ ∀ k, k ∈ keyword_tokens text →
         keyword_count text k
         = occurrences k (keyword_tokens text) + (if has_skill_hint k then 1 else 0).
Proof.
  unfold keyword_count, keyword_counts.
  destruct (counter_of_list (keyword_tokens text)) as (Hnd & Hin & Hget).
  destruct (favor_fold (Counter.of_list (keyword_tokens text))
              (PyDict.keys (Counter.of_list (keyword_tokens text))) Hnd)
    as [Hk Hg]; [done|].
  split_and!.
  - by rewrite Hk.
  - intros k. by rewrite Hk.
  - intros k Hkt. rewrite Hg, Hget, decide_True by (by apply Hin).
    rewrite any_upper_false; [lia|]. by apply (keyword_tokens_shape text k).
Qed.

(** ** [sort(reverse=True)] on any key *)

Lemma sort_desc_sorted {A} (key : A → Q) (l : list A) :
  StronglySorted (λ a b, (key b <= key a)%Q) (PyList.sort_desc key l).
Proof.
  unfold PyList.sort_desc. induction l as [|x l IH]; simpl; [constructor|].
  revert IH. generalize (foldr (PyList.insert_desc key) [] l). clear l.
  intros s Hs. induction Hs as [|y s Hs IH Hy]; simpl.
  - repeat constructor.
  - destruct (QMicromega.Qlt_bool (key x) (key y)) eqn:Hlt.
    + apply QMicromega.Qlt_bool_iff in Hlt. constructor; [done|].
      rewrite insert_desc_Permutation. constructor; [lra|done].
    + assert (key y <= key x)%Q as Hle.
      { apply Qnot_lt_le. intros Hc. apply QMicromega.Qlt_bool_iff in Hc. congruence. }
      constructor; [by constructor|]. constructor; [done|].
      eapply Forall_impl; [exact Hy|]. intros z Hz. simpl in Hz. lra.
Qed.

Lemma StronglySorted_weaken {A} (R R' : relation A) (l : list A) :
  (∀ a b, R a b → R' a b) → StronglySorted R l → StronglySorted R' l.
Proof.
  intros HR. induction 1 as [|x l _ IH Hx]; constructor; [done|].
  eapply Forall_impl; [exact Hx|]. intros y. apply HR.
Qed.

Lemma most_common_spec counts n :
  NoDup (PyDict.keys counts) →
  NoDup (Counter.most_common counts n).*1
  ∧ (Counter.most_common counts n) ⊆ counts
  ∧ length (Counter.most_common counts n) = min (Z.to_nat n) (length counts)
  ∧ StronglySorted (λ a b, a.2 ≥ b.2) (Counter.most_common counts n).
Proof.
  intros Hnd. unfold Counter.most_common, PyDict.items.
  pose proof (sort_desc_Permutation (λ it : string * nat, nat2Q it.2) counts) as Hperm.
  split_and!.
  - rewrite fmap_take. eapply sublist_NoDup; [|apply sublist_take].
    unfold PyDict.keys in Hnd. by rewrite Hperm.
  - intros x Hx. rewrite <- Hperm. eapply elem_of_prefix; [done|apply prefix_take].
  - by rewrite length_take, (Permutation_length Hperm).
  - pose proof (sort_desc_sorted (λ it : string * nat, nat2Q it.2) counts) as Hs.
    rewrite <- (take_drop (Z.to_nat n)) in Hs. apply StronglySorted_app_1_l in Hs.
    eapply StronglySorted_weaken; [|exact Hs].
    intros a b Hab. simpl in Hab. unfold nat2Q in Hab.
    rewrite <- Zle_Qle in Hab. lia.
Qed.

(** ** Keyword extraction *)

Lemma most_common_counts counts n k v :
  NoDup (PyDict.keys counts) →
  (k, v) ∈ Counter.most_common counts n → PyDict.get counts k 0 = v.
Proof.
  intros Hnd Hkv. apply get_elem_of; [done|].
  by apply (proj1 (proj2 (most_common_spec counts n Hnd))).
Qed.

Lemma most_common_unselected counts n k v k' :
  NoDup (PyDict.keys counts) →
  (k, v) ∈ Counter.most_common counts n →
  k' ∈ PyDict.keys counts → k' ∉ (Counter.most_common counts n).*1 →
  PyDict.get counts k' 0 ≤ v.
Proof.
  intros Hnd Hkv Hk' Hnk'. unfold Counter.most_common, PyDict.items in *.
  pose proof (sort_desc_Permutation (λ it : string * nat, nat2Q it.2) counts) as Hperm.
  pose proof (sort_desc_sorted (λ it : string * nat, nat2Q it.2) counts) as Hs.
  set (S := PyList.sort_desc (λ it : string * nat, nat2Q it.2) counts) in *.
  apply list_elem_of_fmap in Hk' as ([k0 v'] & -> & Hkv'). simpl in *.
  rewrite (get_elem_of counts k0 v' 0 Hnd Hkv').
  assert ((k0, v') ∈ drop (Z.to_nat n) S) as Hdrop.
  { rewrite <- Hperm, <- (take_drop (Z.to_nat n) S) in Hkv'.
    apply elem_of_app in Hkv' as [Hin|Hin]; [|done].
    exfalso. apply Hnk'. apply list_elem_of_fmap. by exists (k0, v'). }
  rewrite <- (take_drop (Z.to_nat n) S) in Hs.
  pose proof (StronglySorted_app_1_elem_of _ _ _ _ _ Hs Hkv Hdrop) as Hle.
  simpl in Hle. unfold nat2Q in Hle. rewrite <- Zle_Qle in Hle. lia.
Qed.

Lemma extract_keywords_tokens text top_k k :
  k ∈ extract_keywords text top_k → k ∈ keyword_tokens text.
Proof.
  destruct (keyword_counts_spec text) as (Hnd & Hin & _).
  destruct (most_common_spec (keyword_counts text) top_k Hnd) as (_ & Hsub & _).
  unfold extract_keywords. intros Hk.
  apply list_elem_of_fmap in Hk as ([k' v] & -> & Hkv).
  apply Hin. apply list_elem_of_fmap. exists (k', v). split; [done|]. by apply Hsub.
Qed.

Lemma extract_keywords_NoDup text top_k : NoDup (extract_keywords text top_k).
Proof.
  destruct (keyword_counts_spec text) as (Hnd & _).
  by destruct (most_common_spec (keyword_counts text) top_k Hnd) as (Hnd' & _).
Qed.

Lemma extract_keywords_normalized text top_k :
  _normalize_token <$> extract_keywords text top_k = extract_keywords text top_k.
Proof.
  rewrite <- (list_fmap_id (extract_keywords text top_k)) at 2.
  apply list_fmap_ext. intros i k Hk.
  apply list_elem_of_lookup_2, extract_keywords_tokens in Hk.
  destruct (keyword_tokens_shape text k Hk) as (H1 & H2 & H3).
  by apply normalize_token_id.
Qed.

(** X1.  [extract_keywords] returns distinct tokens of the text, at most
    [top_k] of them: exactly min(top_k, number of distinct counted tokens),
    and none when [top_k <= 0]. *)
Theorem X1_extract_keywords_distinct_and_bounded (text : string) (top_k : Z) :
  NoDup (extract_keywords text top_k)
  ∧ (∀ k, k ∈ extract_keywords text top_k → k ∈ keyword_tokens text)
  ∧ length (extract_keywords text top_k)
    = min (Z.to_nat top_k) (size (list_to_set (keyword_tokens text) : gset string))
  ∧ ((top_k ≤ 0)%Z → extract_keywords text top_k = []).
Proof.
  destruct (keyword_counts_spec text) as (Hnd & Hin & _).
  destruct (most_common_spec (keyword_counts text) top_k Hnd) as (Hnd' & Hsub & Hlen & _).
  split_and!.
  - done.
  - apply extract_keywords_tokens.
  - unfold extract_keywords. rewrite length_fmap, Hlen. f_equal.
    assert ((list_to_set (keyword_tokens text) : gset string)
            = list_to_set (PyDict.keys (keyword_counts text))) as ->.
    { apply set_eq. intros k. rewrite !elem_of_list_to_set. by rewrite Hin. }
    rewrite size_list_to_set by done. unfold PyDict.keys. by rewrite length_fmap.
  - intros Hk. unfold extract_keywords, Counter.most_common.
    replace (Z.to_nat top_k) with 0 by lia. done.
Qed.

(** X2.  Every extracted keyword is written in the characters
    [a-z 0-9 + # . - /], neither begins nor ends with [.], [-] or [/], and
    is left unchanged by [_normalize_token]: the selector's two views of the
    keywords (normalized for the keyword score, as given for the skill
    boost) are the same list. *)
Theorem X2_extracted_keywords_are_normalized (text : string) (top_k : Z) :
  (∀ k, k ∈ extract_keywords text top_k →
        Forall (λ c, keyword_lower_char c = true) (String.list_ascii_of_string k)
        ∧ (∀ c, head (String.list_ascii_of_string k) = Some c →
                PyStr.mem_char c ".-/" = false)
        ∧ (∀ c, last (String.list_ascii_of_string k) = Some c →
                PyStr.mem_char c ".-/" = false)
        ∧ _normalize_token k = k)
  ∧ _normalize_token <$> extract_keywords text top_k = extract_keywords text top_k.
Proof.
  assert (∀ k, k ∈ extract_keywords text top_k →
        Forall (λ c, keyword_lower_char c = true) (String.list_ascii_of_string k)
        ∧ (∀ c, head (String.list_ascii_of_string k) = Some c →
                PyStr.mem_char c ".-/" = false)
        ∧ (∀ c, last (String.list_ascii_of_string k) = Some c →
                PyStr.mem_char c ".-/" = false)
        ∧ _normalize_token k = k) as Hall.
  { intros k Hk.
    apply extract_keywords_tokens in Hk.
    destruct (keyword_tokens_shape text k Hk) as (H1 & H2 & H3).
    split_and!; [done..|]. by apply normalize_token_id. }
  split; [done|]. apply extract_keywords_normalized.
Qed.

(** X3.  The keywords come out by non-increasing count, and no token that
    was left out has a higher count than one that was kept.  The count of a
    token is the number of its occurrences plus one when it contains one of
    the skill hints ("sql", "aws", ...); the bonus for a capital letter
    never applies, the tokens being lowercased before they are counted. *)
Theorem X3_extract_keywords_ranked_by_count (text : string) (top_k : Z) :
  (∀ i j ki kj, i < j →
     extract_keywords text top_k !! i = Some ki →
     extract_keywords text top_k !! j = Some kj →
     keyword_count text kj ≤ keyword_count text ki)
  ∧ (∀ k k', k ∈ extract_keywords text top_k → k' ∈ keyword_tokens text →
             k' ∉ extract_keywords text top_k →
             keyword_count text k' ≤ keyword_count text k)
  ∧ (∀ k, k ∈ keyword_tokens text →
          keyword_count text k
          = occurrences k (keyword_tokens text) + (if has_skill_hint k then 1 else 0)).
Proof.
  destruct (keyword_counts_spec text) as (Hnd & Hin & Hcount).
  destruct (most_common_spec (keyword_counts text) top_k Hnd) as (_ & _ & _ & Hsorted).
  split_and!; [| |done].
  - intros i j ki kj Hij Hi Hj. unfold extract_keywords in Hi, Hj.
    rewrite list_lookup_fmap in Hi, Hj.
    destruct (Counter.most_common _ _ !! i) as [[ki' vi]|] eqn:Ei; [|done].
    destruct (Counter.most_common _ _ !! j) as [[kj' vj]|] eqn:Ej; [|done].
    simpl in Hi, Hj. injection Hi as <-. injection Hj as <-.
    pose proof (StronglySorted_lookup_lt _ _ _ _ _ _ Hsorted Hij Ei Ej) as Hle.
    simpl in Hle. unfold keyword_count.
    rewrite (most_common_counts _ top_k ki' vi Hnd) by (by eapply list_elem_of_lookup_2).
    rewrite (most_common_counts _ top_k kj' vj Hnd) by (by eapply list_elem_of_lookup_2).
    lia.
  - intros k k' Hk Hk' Hnk'. unfold extract_keywords in Hk.
    apply list_elem_of_fmap in Hk as ([k0 v] & -> & Hkv). simpl.
    unfold keyword_count. rewrite (most_common_counts _ top_k k0 v Hnd Hkv).
    eapply most_common_unselected; [done..| |done]. by apply Hin.
Qed.

Lemma load_job_keywords text title company location :
  JobPosting.keywords (load_job text title company location) = extract_keywords text 40.
Proof. unfold load_job, job_from_text. simpl. by destruct (extract_keywords text 40). Qed.

(** X4.  For a job loaded from its text, as the command line does, the
    selection records exactly the job's keywords ([dict.fromkeys] has
    nothing to remove), and normalizing the keywords changes none of them,
    so the keyword score and the skill boost read the same keyword set. *)
Theorem X4_selection_keeps_loaded_keywords
    (backend : list string → string → option (list Q)) (candidate : Candidate.t)
    (text : string) (title company location : option string) (budgets : Z * Z * Z) :
  let job := load_job text title company location in
  SelectionResult.keywords
    (select_bullets backend candidate (JobPosting.keywords job)
       (Some (JobPosting.text job)) budgets)
  = JobPosting.keywords job
  ∧ (list_to_set (_normalize_token <$> JobPosting.keywords job) : gset string)
    = list_to_set (JobPosting.keywords job)
  ∧ JobPosting.text job = text.
Proof.
  intros job. unfold job. rewrite load_job_keywords. split_and!.
  - unfold select_bullets. simpl. apply fromkeys_NoDup, extract_keywords_NoDup.
  - by rewrite extract_keywords_normalized.
  - reflexivity.
Qed.

(** ** More on the keyword score *)

Lemma ratio_pos a m : 0 < a → (0 < nat2Q a / nat2Q (max 1 m))%Q.
Proof.
  intros Ha. apply Qlt_shift_div_l; [apply nat2Q_max1_pos|].
  rewrite Qmult_0_l. unfold nat2Q. change 0%Q with (inject_Z 0). rewrite <- Zlt_Qlt. lia.
Qed.

Lemma ratio_one_iff a m :
  a ≤ m → (nat2Q a / nat2Q (max 1 m) == 1)%Q ↔ a = m ∧ 0 < m.
Proof.
  intros Ham. pose proof (nat2Q_max1_pos m) as Hpos.
  assert (¬ (nat2Q (max 1 m) == 0)%Q) as Hnz.
  { intros Hz. rewrite Hz in Hpos. by apply Qlt_irrefl in Hpos. }
  split.
  - intros H.
    assert (nat2Q a == nat2Q a / nat2Q (max 1 m) * nat2Q (max 1 m))%Q as Heq
      by (by field).
    rewrite H, Qmult_1_l in Heq.
    unfold nat2Q, Qeq in Heq. simpl in Heq. lia.
  - intros [-> Hm]. replace (max 1 m) with m in * by lia. by field.
Qed.

Lemma gset_size_pos (X : gset string) : X ≠ ∅ → 0 < size X.
Proof.
  intros H. destruct (decide (size X = 0)) as [E|]; [|lia].
  apply size_empty_iff in E. apply leibniz_equiv in E. done.
Qed.

(** X5.  A text earns a positive keyword score exactly when one of the
    keywords, once normalized, is one of its normalized tokens. *)
Theorem X5_keyword_score_positive_iff_shared_token (text : string) (keywords : list string) :
  (0 < score_text_against_keywords text keywords)%Q
  ↔ ∃ k, k ∈ keywords ∧ _normalize_token k ∈ _token_set text.
Proof.
  rewrite keyword_score_formula.
  set (tokens := _token_set text).
  set (kws := list_to_set (_normalize_token <$> keywords) : gset string).
  assert ((∃ k, k ∈ keywords ∧ _normalize_token k ∈ tokens) ↔ tokens ∩ kws ≠ ∅) as ->.
  { split.
    - intros (k & Hk & Hin). intros Hempty.
      assert (_normalize_token k ∈ tokens ∩ kws) as Hx.
      { apply elem_of_intersection. split; [done|].
        apply elem_of_list_to_set, list_elem_of_fmap. eauto. }
      rewrite Hempty in Hx. by apply not_elem_of_empty in Hx.
    - intros Hne. apply set_choose_L in Hne as [x Hx].
      apply elem_of_intersection in Hx as [Ht Hk].
      apply elem_of_list_to_set, list_elem_of_fmap in Hk as (k & -> & Hk). eauto. }
  pose proof (ratio_bounds (size (tokens ∩ kws)) (size kws)
                (subseteq_size _ _ (intersection_subseteq_r tokens kws))) as H1.
  pose proof (ratio_bounds (size (tokens ∩ kws)) (size tokens)
                (subseteq_size _ _ (intersection_subseteq_l tokens kws))) as H2.
  split.
  - intros Hpos Hempty. rewrite Hempty, size_empty, !ratio_zero in Hpos. lra.
  - intros Hne. apply gset_size_pos in Hne.
    pose proof (ratio_pos (size (tokens ∩ kws)) (size kws) Hne).
    lra.
Qed.

(** X6.  The keyword score reaches 1 exactly when the text has a token and
    its normalized tokens are the normalized keywords, no more and no
    less. *)
Theorem X6_keyword_score_one_iff_same_sets (text : string) (keywords : list string) :
  (score_text_against_keywords text keywords == 1)%Q
  ↔ _token_set text = list_to_set (_normalize_token <$> keywords)
    ∧ _token_set text ≠ ∅.
Proof.
  rewrite keyword_score_formula.
  set (tokens := _token_set text).
  set (kws := list_to_set (_normalize_token <$> keywords) : gset string).
  pose proof (subseteq_size _ _ (intersection_subseteq_r tokens kws)) as Hk.
  pose proof (subseteq_size _ _ (intersection_subseteq_l tokens kws)) as Ht.
  pose proof (ratio_bounds _ _ Hk) as H1.
  pose proof (ratio_bounds _ _ Ht) as H2.
  pose proof (ratio_one_iff _ _ Hk) as E1.
  pose proof (ratio_one_iff _ _ Ht) as E2.
  split.
  - intros H.
    assert (nat2Q (size (tokens ∩ kws)) / nat2Q (max 1 (size kws)) == 1)%Q as B1 by lra.
    assert (nat2Q (size (tokens ∩ kws)) / nat2Q (max 1 (size tokens)) == 1)%Q as B2 by lra.
    apply E1 in B1 as [B1 P1]. apply E2 in B2 as [B2 P2].
    assert (tokens ∩ kws = kws) as Hik.
    { apply set_subseteq_size_eq; [apply intersection_subseteq_r | lia]. }
    assert (tokens ∩ kws = tokens) as Hit.
    { apply set_subseteq_size_eq; [apply intersection_subseteq_l | lia]. }
    split; [congruence|]. intros He. rewrite He, size_empty in P2. lia.
  - intros [Heq Hne]. rewrite <- Heq.
    rewrite (idemp_L (∩) tokens).
    apply gset_size_pos in Hne.
    assert (nat2Q (size tokens) / nat2Q (max 1 (size tokens)) == 1)%Q as ->.
    { apply ratio_one_iff; [lia|]. lia. }
    lra.
Qed.

(** ** The Jaccard fall-back *)

Lemma or_one_max n : match n with 0 => 1 | S m => S m end = max 1 n.
Proof. destruct n; lia. Qed.

Lemma jaccard_bounds (a b : gset string) :
  let union := match size (a ∪ b) with 0 => 1 | n => n end in
  (0 <= nat2Q (size (a ∩ b)) / nat2Q union <= 1)%Q
  ∧ ((nat2Q (size (a ∩ b)) / nat2Q union == 0)%Q ↔ a ∩ b = ∅)
  ∧ ((nat2Q (size (a ∩ b)) / nat2Q union == 1)%Q ↔ a = b ∧ a ≠ ∅).
Proof.
  intros union. unfold union. clear union. rewrite or_one_max.
  assert (size (a ∩ b) ≤ size (a ∪ b)) as Hle by (apply subseteq_size; set_solver).
  split; [|split].
  - by apply ratio_bounds.
  - split.
    + intros H. destruct (decide (a ∩ b = ∅)) as [|Hne]; [done|].
      apply gset_size_pos in Hne. pose proof (ratio_pos _ (size (a ∪ b)) Hne). lra.
    + intros ->. rewrite size_empty. apply ratio_zero.
  - rewrite (ratio_one_iff _ _ Hle). split.
    + intros [Heq Hpos].
      assert (a ∩ b = a ∪ b) as Hiu.
      { apply set_subseteq_size_eq; [set_solver | lia]. }
      split; [set_solver|]. intros ->.
      assert (b = ∅) as -> by set_solver. rewrite union_idemp_L, size_empty in Hpos. lia.
    + intros [<- Hne]. rewrite (idemp_L (∩) a), (idemp_L (∪) a).
      split; [done|]. by apply gset_size_pos.
Qed.

(** X7.  When the scikit-learn block raises, [_tfidf_similarity] returns
    one value per bullet, and the value of a bullet is the Jaccard
    similarity |bt ∩ jd| / (|bt ∪ jd| or 1) of the bullet's and the job
    text's token sets.  It lies in [0, 1], is 0 exactly when the two sets
    share no token (in particular when both are empty) and is 1 exactly
    when they are equal and not empty. *)
Theorem X7_jaccard_fallback
    (backend : list string → string → option (list Q))
    (bullets : list string) (job_text : string) :
  backend bullets job_text = None →
  length (_tfidf_similarity backend bullets job_text) = length bullets
  ∧ (∀ i text,
       bullets !! i = Some text →
       _tfidf_similarity backend bullets job_text !! i
       = Some (nat2Q (size (_token_set text ∩ _token_set job_text))
               / nat2Q (max 1 (size (_token_set text ∪ _token_set job_text))))%Q)
  ∧ ∀ i text x,
      bullets !! i = Some text →
      _tfidf_similarity backend bullets job_text !! i = Some x →
      (0 <= x <= 1)%Q
      ∧ ((x == 0)%Q ↔ _token_set text ∩ _token_set job_text = ∅)
      ∧ ((x == 1)%Q ↔ _token_set text = _token_set job_text ∧ _token_set text ≠ ∅).
Proof.
  intros Hraise. unfold _tfidf_similarity. rewrite Hraise. split; [|split].
  - by rewrite length_fmap.
  - intros i text Ht. rewrite list_lookup_fmap, Ht. cbn [fmap option_fmap option_map].
    by rewrite or_one_max.
  - intros i text x Ht Hx. rewrite list_lookup_fmap, Ht in Hx. simpl in Hx.
    injection Hx as <-. apply jaccard_bounds.
Qed.

(** ** More on the selection *)

Lemma index_sorted_NoDup (l : list SelectedBullet.t) :
  StronglySorted (λ a b, SelectedBullet.bullet_index a < SelectedBullet.bullet_index b) l →
  NoDup (SelectedBullet.bullet_index <$> l).
Proof.
  induction 1 as [|x l _ IH Hx]; [constructor|].
  rewrite fmap_cons. constructor; [|done].
  intros Hin. apply list_elem_of_fmap in Hin as (y & Heq & Hy).
  rewrite Forall_forall in Hx. specialize (Hx y Hy). lia.
Qed.

Lemma scored_of_length idx exp keywords sims ibs :
  length (scored_of idx exp keywords sims ibs) ≤ length ibs.
Proof.
  unfold scored_of. induction ibs as [|[bidx b] ibs IH]; simpl; [done|].
  destruct (QMicromega.Qlt_bool _ _); simpl.
  - apply le_n_S, IH.
  - etrans; [apply IH|]. lia.
Qed.

Lemma scored_of_all idx exp keywords sims ibs :
  (∀ bidx b, (bidx, b) ∈ ibs → (0 < blended_score exp keywords sims bidx b)%Q) →
  length (scored_of idx exp keywords sims ibs) = length ibs.
Proof.
  unfold scored_of. induction ibs as [|[bidx b] ibs IH]; intros Hall; simpl; [done|].
  assert (QMicromega.Qlt_bool 0 (blended_score exp keywords sims bidx b) = true) as ->.
  { apply QMicromega.Qlt_bool_iff, Hall. apply elem_of_cons. by left. }
  simpl. f_equal. apply IH. intros ???. apply Hall. apply elem_of_cons. by right.
Qed.

Lemma enumerate_length {A} (l : list A) : length (PyList.enumerate l) = length l.
Proof. unfold PyList.enumerate. apply length_imap. Qed.

Lemma slice_to_prefix {A} (l : list A) (b1 b2 : Z) :
  (0 ≤ b1 ≤ b2)%Z → PyList.slice_to l b1 `prefix_of` PyList.slice_to l b2.
Proof.
  intros Hb. unfold PyList.slice_to.
  destruct (Z.ltb_spec b1 0), (Z.ltb_spec b2 0); try lia.
  replace (Z.to_nat b1) with (min (Z.to_nat b1) (Z.to_nat b2)) by lia.
  rewrite <- take_take. apply prefix_take.
Qed.

Lemma slice_to_all {A} (l : list A) (b : Z) :
  (Z.of_nat (length l) ≤ b)%Z → PyList.slice_to l b = l.
Proof.
  intros Hb. unfold PyList.slice_to. destruct (Z.ltb_spec b 0); [lia|].
  apply take_ge. lia.
Qed.

Section SelectionFacts.
Variable backend : list string → string → option (list Q).

Lemma eligible_NoDup keywords job_text idx exp :
  NoDup (SelectedBullet.bullet_index <$> eligible backend keywords job_text idx exp).
Proof.
  apply index_sorted_NoDup, scored_of_index_sorted.
  rewrite enumerate_keys. apply seq_StronglySorted.
Qed.

Lemma ranked_NoDup keywords job_text idx exp :
  NoDup (SelectedBullet.bullet_index <$> ranked backend keywords job_text idx exp).
Proof. rewrite ranked_Permutation. apply eligible_NoDup. Qed.

Lemma role_selection_NoDup keywords job_text budgets idx exp :
  NoDup (SelectedBullet.bullet_index
           <$> role_selection backend keywords job_text budgets idx exp).
Proof.
  unfold role_selection.
  destruct (slice_to_take (ranked backend keywords job_text idx exp)
              (budget_of budgets idx)) as [n ->].
  rewrite fmap_take. eapply sublist_NoDup; [apply ranked_NoDup | apply sublist_take].
Qed.

Lemma role_selection_length keywords job_text budgets idx exp :
  length (role_selection backend keywords job_text budgets idx exp)
  ≤ length (Experience.bullets exp).
Proof.
  unfold role_selection.
  destruct (slice_to_take (ranked backend keywords job_text idx exp)
              (budget_of budgets idx)) as [n ->].
  rewrite length_take, (Permutation_length (ranked_Permutation _ _ _ _ _)).
  unfold eligible.
  pose proof (scored_of_length idx exp keywords (sim_scores_of backend exp job_text)
                (PyList.enumerate (Experience.bullets exp))) as H.
  rewrite enumerate_length in H. lia.
Qed.

Lemma role_selection_top keywords job_text budgets idx exp a b :
  a ∈ role_selection backend keywords job_text budgets idx exp →
  b ∈ eligible backend keywords job_text idx exp →
  b ∉ role_selection backend keywords job_text budgets idx exp →
  ranks_before a b.
Proof.
  unfold role_selection.
  destruct (slice_to_take (ranked backend keywords job_text idx exp)
              (budget_of budgets idx)) as [n ->].
  intros Ha Hb Hnb. rewrite <- ranked_Permutation in Hb.
  pose proof (ranked_sorted backend keywords job_text idx exp) as Hs.
  rewrite <- (take_drop n (ranked backend keywords job_text idx exp)) in Hs, Hb.
  apply elem_of_app in Hb as [Hb|Hb]; [done|].
  by eapply StronglySorted_app_1_elem_of.
Qed.

End SelectionFacts.

(** X8.  No bullet is selected twice for a role, and a role never gets
    more selected bullets than it has bullets, whatever the budget. *)
Theorem X8_selection_has_no_repeats
    (backend : list string → string → option (list Q))
    (candidate : Candidate.t) (keywords : list string) (job_text : option string)
    (budgets : Z * Z * Z) (idx : nat) (exp : Experience.t) (l : list SelectedBullet.t) :
  Candidate.work_experience candidate !! idx = Some exp →
  PyDict.getitem
    (SelectionResult.selected_by_role
       (select_bullets backend candidate keywords job_text budgets)) idx = Some l →
  NoDup (SelectedBullet.bullet_index <$> l)
  ∧ length l ≤ length (Experience.bullets exp).
Proof.
  intros Hexp Hl. apply (selected_getitem_Some _ _ _ _ _ _ _ _ Hexp) in Hl. subst l.
  split; [apply role_selection_NoDup | apply role_selection_length].
Qed.

(** X9.  The cut keeps the best: a bullet of the role with a positive score
    that was not selected never outranks a selected one, so its score is at
    most the score of every selected bullet, for every budget. *)
Theorem X9_selection_keeps_the_best
    (backend : list string → string → option (list Q))
    (candidate : Candidate.t) (keywords : list string) (job_text : option string)
    (budgets : Z * Z * Z) (idx : nat) (exp : Experience.t) (l : list SelectedBullet.t)
    (a : SelectedBullet.t) (bidx : nat) (b : Bullet.t) :
  Candidate.work_experience candidate !! idx = Some exp →
  PyDict.getitem
    (SelectionResult.selected_by_role
       (select_bullets backend candidate keywords job_text budgets)) idx = Some l →
  a ∈ l →
  Experience.bullets exp !! bidx = Some b →
  bidx ∉ SelectedBullet.bullet_index <$> l →
  (blended_score exp keywords (sim_scores_of backend exp job_text) bidx b
   <= SelectedBullet.score a)%Q.
Proof.
  intros Hexp Hl Ha Hb Hnb.
  apply (selected_getitem_Some _ _ _ _ _ _ _ _ Hexp) in Hl. subst l.
  set (s := blended_score exp keywords (sim_scores_of backend exp job_text) bidx b).
  destruct (Qlt_le_dec 0 s) as [Hpos|Hneg].
  - set (sb := SelectedBullet.mk idx bidx (Bullet.text b) (Bullet.source_ids b) s).
    assert (sb ∈ eligible backend keywords job_text idx exp) as Hel.
    { apply elem_of_eligible. exists b. by split_and!. }
    assert (sb ∉ role_selection backend keywords job_text budgets idx exp) as Hns.
    { intros Hin. apply Hnb. apply list_elem_of_fmap. by exists sb. }
    by apply (ranks_before_score a sb), (role_selection_top backend keywords job_text budgets idx exp).
  - apply elem_of_role_selection, elem_of_eligible in Ha as (_ & _ & Hpos & _). lra.
Qed.

(** X10.  Budgets only cut: with a smaller non-negative budget the
    selection of a role is a prefix of its selection with a larger one, and
    with a budget no smaller than the number of its bullets every bullet
    of positive score is selected. *)
Theorem X10_budget_only_cuts
    (backend : list string → string → option (list Q))
    (candidate : Candidate.t) (keywords : list string) (job_text : option string)
    (budgets budgets' : Z * Z * Z) (idx : nat) (exp : Experience.t)
    (l l' : list SelectedBullet.t) :
  Candidate.work_experience candidate !! idx = Some exp →
  PyDict.getitem
    (SelectionResult.selected_by_role
       (select_bullets backend candidate keywords job_text budgets)) idx = Some l →
  PyDict.getitem
    (SelectionResult.selected_by_role
       (select_bullets backend candidate keywords job_text budgets')) idx = Some l' →
  ((0 ≤ budget_of budgets idx ≤ budget_of budgets' idx)%Z → l `prefix_of` l')
  ∧ ((Z.of_nat (length (Experience.bullets exp)) ≤ budget_of budgets idx)%Z →
     l = ranked backend keywords job_text idx exp
     ∧ ∀ bidx b, Experience.bullets exp !! bidx = Some b →
         (0 < blended_score exp keywords (sim_scores_of backend exp job_text) bidx b)%Q →
         bidx ∈ SelectedBullet.bullet_index <$> l).
Proof.
  intros Hexp Hl Hl'.
  apply (selected_getitem_Some _ _ _ _ _ _ _ _ Hexp) in Hl.
  apply (selected_getitem_Some _ _ _ _ _ _ _ _ Hexp) in Hl'. subst l l'.
  split.
  - intros Hb. by apply slice_to_prefix.
  - intros Hb.
    assert (role_selection backend keywords job_text budgets idx exp
            = ranked backend keywords job_text idx exp) as Hall.
    { unfold role_selection. apply slice_to_all.
      rewrite (Permutation_length (ranked_Permutation _ _ _ _ _)). unfold eligible.
      pose proof (scored_of_length idx exp keywords (sim_scores_of backend exp job_text)
                    (PyList.enumerate (Experience.bullets exp))) as H.
      rewrite enumerate_length in H. lia. }
    split; [done|]. intros bidx b Hbl Hpos. rewrite Hall, ranked_Permutation.
    apply list_elem_of_fmap.
    exists (SelectedBullet.mk idx bidx (Bullet.text b) (Bullet.source_ids b)
              (blended_score exp keywords (sim_scores_of backend exp job_text) bidx b)).
    split; [done|]. apply elem_of_eligible. exists b. by split_and!.
Qed.

(** X11.  Roles do not influence each other: the selection stored for a
    role index depends only on that role, the keywords, the job text and
    the budget of that index, not on the other roles of the candidate nor
    on the two other budgets. *)
Theorem X11_roles_are_selected_independently
    (backend : list string → string → option (list Q))
    (candidate candidate' : Candidate.t) (keywords : list string)
    (job_text : option string) (budgets budgets' : Z * Z * Z) (idx : nat)
    (exp : Experience.t) :
  Candidate.work_experience candidate !! idx = Some exp →
  Candidate.work_experience candidate' !! idx = Some exp →
  budget_of budgets idx = budget_of budgets' idx →
  PyDict.getitem
    (SelectionResult.selected_by_role
       (select_bullets backend candidate keywords job_text budgets)) idx
  = PyDict.getitem
      (SelectionResult.selected_by_role
         (select_bullets backend candidate' keywords job_text budgets')) idx.
Proof.
  intros Hexp Hexp' Hb. rewrite !selected_getitem, Hexp, Hexp'. simpl.
  unfold role_selection. by rewrite Hb.
Qed.

Lemma sim_scores_nonneg backend exp job_text :
  opt_truthy job_text = false ∨ (∀ bs jt, backend bs jt = None) →
  Forall (λ x, (0 <= x)%Q) (sim_scores_of backend exp job_text).
Proof.
  intros Hcase.
  assert (∀ n, Forall (λ x, (0 <= x)%Q) (replicate n 0%Q)) as Hrep.
  { intros n. apply Forall_replicate. lra. }
  unfold sim_scores_of. destruct job_text as [jt|]; [|apply Hrep].
  destruct (PyStr.truthy jt && PyList.truthy _) eqn:Ht; [|apply Hrep].
  destruct Hcase as [Hf|Hraise].
  { simpl in Hf. rewrite Hf in Ht. done. }
  unfold _tfidf_similarity. rewrite Hraise. apply Forall_fmap, Forall_forall.
  intros text _. simpl. apply jaccard_bounds.
Qed.

Lemma blended_score_with_skill_match backend exp keywords job_text bidx b :
  (∃ s, s ∈ Experience.skills exp ∧ s ∈ keywords) →
  opt_truthy job_text = false ∨ (∀ bs jt, backend bs jt = None) →
  (5 # 100 <= blended_score exp keywords (sim_scores_of backend exp job_text) bidx b)%Q.
Proof.
  intros (s & Hs & Hk) Hcase. unfold blended_score.
  pose proof (keyword_score_range (Bullet.text b) keywords) as Hkw.
  assert (0 <= match sim_scores_of backend exp job_text !! bidx with
               | Some x => x | None => 0 end)%Q as Hsem.
  { destruct (_ !! bidx) as [x|] eqn:Hx; [|lra].
    pose proof (sim_scores_nonneg backend exp job_text Hcase) as Hall.
    rewrite Forall_forall in Hall. apply Hall. by eapply list_elem_of_lookup_2. }
  assert (1 <= nat2Q (size ((list_to_set (Experience.skills exp) : gset string)
                              ∩ list_to_set keywords)))%Q as Hboost.
  { change 1%Q with (nat2Q 1). apply nat2Q_le.
    apply (gset_size_pos (list_to_set (Experience.skills exp) ∩ list_to_set keywords)).
    intros Hempty.
    assert (s ∈ (list_to_set (Experience.skills exp) : gset string) ∩ list_to_set keywords)
      as Hin by (apply elem_of_intersection; split; by apply elem_of_list_to_set).
    rewrite Hempty in Hin. by apply not_elem_of_empty in Hin. }
  lra.
Qed.

Lemma slice_to_length_nonneg {A} (l : list A) (stop : Z) :
  (0 ≤ stop)%Z → length (PyList.slice_to l stop) = min (Z.to_nat stop) (length l).
Proof.
  intros Hs. unfold PyList.slice_to. destruct (Z.ltb_spec stop 0); [lia|].
  apply length_take.
Qed.

(** X12.  A matching skill tag makes every bullet of the role eligible.
    When one of the role's skill tags is in the keyword list and the
    semantic scores are those of the fall-back (no job text, or the
    scikit-learn block raises), every bullet of the role scores at least
    0.05, whatever its text, and the role gets min(budget, number of its
    bullets) selected bullets for a non-negative budget. *)
Theorem X12_matching_skill_tag_makes_every_bullet_eligible
    (backend : list string → string → option (list Q))
    (candidate : Candidate.t) (keywords : list string) (job_text : option string)
    (budgets : Z * Z * Z) (idx : nat) (exp : Experience.t) (l : list SelectedBullet.t) :
  Candidate.work_experience candidate !! idx = Some exp →
  PyDict.getitem
    (SelectionResult.selected_by_role
       (select_bullets backend candidate keywords job_text budgets)) idx = Some l →
  (∃ s, s ∈ Experience.skills exp ∧ s ∈ keywords) →
  opt_truthy job_text = false ∨ (∀ bs jt, backend bs jt = None) →
  (∀ bidx b, Experience.bullets exp !! bidx = Some b →
     (5 # 100 <= blended_score exp keywords (sim_scores_of backend exp job_text) bidx b)%Q)
  ∧ ((0 ≤ budget_of budgets idx)%Z →
     length l = min (Z.to_nat (budget_of budgets idx)) (length (Experience.bullets exp))).
Proof.
  intros Hexp Hl Hskill Hcase.
  apply (selected_getitem_Some _ _ _ _ _ _ _ _ Hexp) in Hl. subst l.
  assert (∀ bidx b,
            (5 # 100 <= blended_score exp keywords (sim_scores_of backend exp job_text)
                          bidx b)%Q) as Hall
    by (intros; by apply blended_score_with_skill_match).
  split; [by intros|]. intros Hb. unfold role_selection.
  rewrite slice_to_length_nonneg by done. f_equal.
  rewrite (Permutation_length (ranked_Permutation _ _ _ _ _)). unfold eligible.
  rewrite scored_of_all, enumerate_length; [done|].
  intros bidx b _. specialize (Hall bidx b). lra.
Qed.

Lemma X12_witness :
  ∃ l,
    PyDict.getitem
      (SelectionResult.selected_by_role
         (select_bullets no_sklearn tie_candidate ["aws"] (Some "Cloud work")
            default_budgets)) 0 = Some l
    ∧ length l = 2.
Proof.
  set (l := role_selection no_sklearn ["aws"] (Some "Cloud work") default_budgets 0 tie_role).
  assert (PyDict.getitem
            (SelectionResult.selected_by_role
               (select_bullets no_sklearn tie_candidate ["aws"] (Some "Cloud work")
                  default_budgets)) 0 = Some l) as Hl by (by rewrite selected_getitem).
  exists l. split; [done|].
  destruct (X12_matching_skill_tag_makes_every_bullet_eligible no_sklearn tie_candidate
              ["aws"] (Some "Cloud work") default_budgets 0 tie_role l eq_refl Hl)
    as [_ Hlen].
  - exists "aws". split; apply list_elem_of_here.
  - right. reflexivity.
  - apply Hlen. simpl. lia.
Defined.

Lemma X1_witness : extract_keywords "Python and AWS; python, SQL." 0 = [].
Proof.
  apply (proj2 (proj2 (proj2
           (X1_extract_keywords_distinct_and_bounded "Python and AWS; python, SQL." 0)))).
  lia.
Defined.

Lemma X2_witness : _normalize_token "node.js" = "node.js".
Proof.
  apply (proj1 (X2_extracted_keywords_are_normalized "We use Node.js daily." 40)).
  apply (list_elem_of_lookup_2 _ 1). vm_compute. reflexivity.
Defined.

Lemma X3_witness :
  keyword_count "SQL and Excel; sql, reports." "reports"
  ≤ keyword_count "SQL and Excel; sql, reports." "sql".
Proof.
  apply (proj1 (X3_extract_keywords_ranked_by_count "SQL and Excel; sql, reports." 40)
           0 2 "sql" "reports"); [lia|vm_compute; reflexivity..].
Defined.

Lemma X5_witness : (0 < score_text_against_keywords "Cut AWS cost" sample_keywords)%Q.
Proof.
  apply X5_keyword_score_positive_iff_shared_token.
  exists "aws". split; [apply list_elem_of_here|].
  vm_compute. reflexivity.
Defined.

Lemma X6_witness :
  (score_text_against_keywords "AWS, cost migration!" sample_keywords == 1)%Q.
Proof.
  apply X6_keyword_score_one_iff_same_sets. split.
  - vm_compute. reflexivity.
  - vm_compute. discriminate.
Defined.

Lemma X7_witness :
  ∃ x, _tfidf_similarity no_sklearn ["Cut AWS cost."; "Built reports"] "AWS cost" !! 0
       = Some x
       ∧ (x == 2 # 3)%Q.
Proof.
  eexists. split.
  - apply (proj1 (proj2 (X7_jaccard_fallback no_sklearn
                           ["Cut AWS cost."; "Built reports"] "AWS cost" eq_refl))
             0 "Cut AWS cost." eq_refl).
  - vm_compute. reflexivity.
Defined.

Lemma sample_selection_acme :
  PyDict.getitem
    (SelectionResult.selected_by_role
       (select_bullets no_sklearn sample_candidate sample_keywords None (2, 4, 2)%Z)) 0
  = Some (role_selection no_sklearn sample_keywords None (2, 4, 2)%Z 0 sample_role_acme).
Proof. by rewrite selected_getitem. Qed.

Lemma X8_witness :
  NoDup (SelectedBullet.bullet_index
           <$> role_selection no_sklearn sample_keywords None (2, 4, 2)%Z 0 sample_role_acme).
Proof.
  exact (proj1 (X8_selection_has_no_repeats no_sklearn sample_candidate sample_keywords
                  None (2, 4, 2)%Z 0 sample_role_acme _ eq_refl sample_selection_acme)).
Defined.

Lemma X9_witness :
  Forall
    (λ a, (blended_score sample_role_acme sample_keywords
             (sim_scores_of no_sklearn sample_role_acme None) 1
             (Bullet.mk "Wrote documentation" ["cv.docx"])
           <= SelectedBullet.score a)%Q)
    (role_selection no_sklearn sample_keywords None (2, 4, 2)%Z 0 sample_role_acme).
Proof.
  apply Forall_forall. intros a Ha.
  apply (X9_selection_keeps_the_best no_sklearn sample_candidate sample_keywords
           None (2, 4, 2)%Z 0 sample_role_acme _ a 1
           (Bullet.mk "Wrote documentation" ["cv.docx"])
           eq_refl sample_selection_acme Ha eq_refl).
  vm_compute. intros Hin.
  apply elem_of_cons in Hin as [Hin|Hin]; [done|].
  apply elem_of_cons in Hin as [Hin|Hin]; [done|]. by apply elem_of_nil in Hin.
Defined.

Lemma X10_witness :
  role_selection no_sklearn sample_keywords None (2, 4, 2)%Z 0 sample_role_acme
  `prefix_of` role_selection no_sklearn sample_keywords None default_budgets 0 sample_role_acme.
Proof.
  apply (proj1 (X10_budget_only_cuts no_sklearn sample_candidate sample_keywords None
                  (2, 4, 2)%Z default_budgets 0 sample_role_acme _ _ eq_refl
                  sample_selection_acme
                  (eq_trans (selected_getitem no_sklearn sample_candidate sample_keywords
                               None default_budgets 0) eq_refl))).
  simpl. lia.
Defined.

Lemma X11_witness :
  PyDict.getitem
    (SelectionResult.selected_by_role
       (select_bullets no_sklearn tie_candidate ["aws"] None default_budgets)) 0
  = PyDict.getitem
      (SelectionResult.selected_by_role
         (select_bullets no_sklearn
            (Candidate.mk (Identity.mk "Bo" "" None None []) [tie_role; sample_role_acme]
               [] [] [] [] [] [])
            ["aws"] None (6, 1, 0)%Z)) 0.
Proof.
  apply (X11_roles_are_selected_independently no_sklearn tie_candidate _ ["aws"] None
           default_budgets (6, 1, 0)%Z 0 tie_role); reflexivity.
Defined.

(** ** The resume context of a selection *)

Lemma bullet_eta (b : Bullet.t) : Bullet.mk (Bullet.text b) (Bullet.source_ids b) = b.
Proof. by destruct b. Qed.

Lemma resume_experiences_lookup candidate job selection idx :
  ResumeContext.experiences (build_resume_context candidate job selection) !! idx
  = (λ exp,
       CtxExperience.mk (Experience.company exp) (Experience.role exp)
         (Experience.start exp) (Experience.end_ exp)
         ((λ sb, Bullet.mk (SelectedBullet.text sb) (SelectedBullet.source_ids sb))
            <$> PyDict.get (SelectionResult.selected_by_role selection) idx []))
      <$> Candidate.work_experience candidate !! idx.
Proof.
  unfold build_resume_context. simpl. unfold PyList.enumerate.
  rewrite list_lookup_fmap, list_lookup_imap.
  by destruct (Candidate.work_experience candidate !! idx).
Qed.

Lemma selected_bullet_origin backend keywords job_text budgets idx exp sb :
  sb ∈ role_selection backend keywords job_text budgets idx exp →
  Bullet.mk (SelectedBullet.text sb) (SelectedBullet.source_ids sb)
  ∈ Experience.bullets exp.
Proof.
  intros Hsb. apply elem_of_role_selection, elem_of_eligible in Hsb as (b & Hb & _ & Hsb).
  rewrite Hsb. simpl. rewrite bullet_eta. by eapply list_elem_of_lookup_2.
Qed.

Lemma selected_getitem_role backend candidate keywords job_text budgets idx exp :
  Candidate.work_experience candidate !! idx = Some exp →
  PyDict.getitem
    (SelectionResult.selected_by_role
       (select_bullets backend candidate keywords job_text budgets)) idx
  = Some (role_selection backend keywords job_text budgets idx exp).
Proof. intros Hexp. by rewrite selected_getitem, Hexp. Qed.

(** X13.  The resume context of a selection has one experience block per
    role, in the candidate's order and with the role's company, title and
    dates; the bullets of a block are the texts and source_ids of the
    role's selection in ranked order, each of them one of the role's own
    bullets, and at most budget(role index) of them for a non-negative
    budget. *)
Theorem X13_resume_blocks_follow_roles
    (backend : list string → string → option (list Q))
    (candidate : Candidate.t) (job : JobPosting.t) (keywords : list string)
    (job_text : option string) (budgets : Z * Z * Z) :
  let selection := select_bullets backend candidate keywords job_text budgets in
  let ctx := build_resume_context candidate job selection in
  length (ResumeContext.experiences ctx) = length (Candidate.work_experience candidate)
  ∧ ∀ idx exp, Candidate.work_experience candidate !! idx = Some exp →
      ∃ block l,
        ResumeContext.experiences ctx !! idx = Some block
        ∧ PyDict.getitem (SelectionResult.selected_by_role selection) idx = Some l
        ∧ CtxExperience.company block = Experience.company exp
        ∧ CtxExperience.role block = Experience.role exp
        ∧ CtxExperience.start block = Experience.start exp
        ∧ CtxExperience.end_ block = Experience.end_ exp
        ∧ Bullet.text <$> CtxExperience.bullets block = SelectedBullet.text <$> l
        ∧ Bullet.source_ids <$> CtxExperience.bullets block
          = SelectedBullet.source_ids <$> l
        ∧ (∀ b, b ∈ CtxExperience.bullets block → b ∈ Experience.bullets exp)
        ∧ ((0 ≤ budget_of budgets idx)%Z →
           (Z.of_nat (length (CtxExperience.bullets block)) ≤ budget_of budgets idx)%Z).
Proof.
  intros selection ctx. split.
  { unfold ctx, build_resume_context. simpl.
    by rewrite length_fmap, enumerate_length. }
  intros idx exp Hexp.
  pose proof (selected_getitem_role backend candidate keywords job_text budgets idx exp
                Hexp) as Hl.
  unfold ctx, selection. clear ctx selection.
  eexists _, _. split; [|split; [exact Hl|]].
  { rewrite resume_experiences_lookup, Hexp. reflexivity. }
  unfold PyDict.get. rewrite Hl. cbn [CtxExperience.company CtxExperience.role
    CtxExperience.start CtxExperience.end_ CtxExperience.bullets].
  split_and!; try done.
  - rewrite <- list_fmap_compose. done.
  - rewrite <- list_fmap_compose. done.
  - intros b Hb. apply list_elem_of_fmap in Hb as (sb & -> & Hsb).
    by eapply selected_bullet_origin.
  - intros Hb. rewrite length_fmap. by apply slice_to_length.
Qed.

Lemma X13_witness :
  ∃ block,
    ResumeContext.experiences
      (build_resume_context sample_candidate sample_job
         (select_bullets no_sklearn sample_candidate sample_keywords None (2, 4, 2)%Z))
    !! 0 = Some block
    ∧ Bullet.text <$> CtxExperience.bullets block
      = ["Led migration to AWS, reducing cost 20%"; "Cut AWS cost"].
Proof.
  destruct (proj2 (X13_resume_blocks_follow_roles no_sklearn sample_candidate sample_job
                     sample_keywords None (2, 4, 2)%Z) 0 sample_role_acme eq_refl)
    as (block & l & Hblock & Hl & _ & _ & _ & _ & Htexts & _).
  exists block. split; [done|]. rewrite Htexts.
  apply (selected_getitem_Some _ sample_candidate _ _ _ 0 sample_role_acme _ eq_refl) in Hl.
  subst l. vm_compute. reflexivity.
Defined.

(** X14.  A role without an entry in the selection (a missing key) still
    gets its experience block, with no bullets: the context has one block
    per role for every selection. *)
Theorem X14_missing_role_gets_an_empty_block
    (candidate : Candidate.t) (job : JobPosting.t) (selection : SelectionResult.t)
    (idx : nat) (exp : Experience.t) :
  Candidate.work_experience candidate !! idx = Some exp →
  PyDict.getitem (SelectionResult.selected_by_role selection) idx = None →
  length (ResumeContext.experiences (build_resume_context candidate job selection))
  = length (Candidate.work_experience candidate)
  ∧ ResumeContext.experiences (build_resume_context candidate job selection) !! idx
    = Some (CtxExperience.mk (Experience.company exp) (Experience.role exp)
              (Experience.start exp) (Experience.end_ exp) []).
Proof.
  intros Hexp Hnone. split.
  - unfold build_resume_context. simpl. by rewrite length_fmap, enumerate_length.
  - rewrite resume_experiences_lookup, Hexp. unfold PyDict.get. by rewrite Hnone.
Qed.

Lemma X14_witness :
  ResumeContext.experiences
    (build_resume_context sample_candidate sample_job empty_selection) !! 1
  = Some (CtxExperience.mk "Initech" "Analyst" (Some "2018") (Some "2021") []).
Proof.
  apply (X14_missing_role_gets_an_empty_block sample_candidate sample_job
           empty_selection 1 sample_role_initech); reflexivity.
Defined.

(** ** The trace *)

Lemma resume_trace_eq backend candidate job keywords job_text budgets :
  ResumeContext.trace
    (build_resume_context candidate job
       (select_bullets backend candidate keywords job_text budgets))
  = mjoin
      (imap
         (λ idx exp,
            (λ sb, TraceEntry.mk (SelectedBullet.text sb) (SelectedBullet.source_ids sb)
                     idx (SelectedBullet.score sb))
              <$> role_selection backend keywords job_text budgets idx exp)
         (Candidate.work_experience candidate)).
Proof.
  unfold build_resume_context. simpl. unfold PyDict.items. f_equal.
  pose proof (selected_by_role_eq backend candidate keywords job_text budgets) as He.
  unfold select_bullets in He. simpl in He. rewrite He.
  apply list_eq. intros i. rewrite list_lookup_fmap, !list_lookup_imap.
  by destruct (_ !! i).
Qed.

(** X15.  The trace lists the selected bullets and nothing else: an entry
    is in the trace exactly when it is the text, source_ids and score of a
    bullet selected for the role index it names.  Every entry therefore
    has a positive score and the text and source_ids of one of that
    role's bullets. *)
Theorem X15_trace_lists_the_selected_bullets
    (backend : list string → string → option (list Q))
    (candidate : Candidate.t) (job : JobPosting.t) (keywords : list string)
    (job_text : option string) (budgets : Z * Z * Z) (entry : TraceEntry.t) :
  let selection := select_bullets backend candidate keywords job_text budgets in
  (entry ∈ ResumeContext.trace (build_resume_context candidate job selection)
   ↔ ∃ l sb,
       PyDict.getitem (SelectionResult.selected_by_role selection)
         (TraceEntry.role_index entry) = Some l
       ∧ sb ∈ l
       ∧ entry = TraceEntry.mk (SelectedBullet.text sb) (SelectedBullet.source_ids sb)
                   (TraceEntry.role_index entry) (SelectedBullet.score sb))
  ∧ (entry ∈ ResumeContext.trace (build_resume_context candidate job selection) →
     (0 < TraceEntry.score entry)%Q
     ∧ ∃ exp,
         Candidate.work_experience candidate !! TraceEntry.role_index entry = Some exp
         ∧ Bullet.mk (TraceEntry.text entry) (TraceEntry.source_ids entry)
           ∈ Experience.bullets exp).
Proof.
  intros selection.
  assert (entry ∈ ResumeContext.trace (build_resume_context candidate job selection)
          ↔ ∃ exp sb,
              Candidate.work_experience candidate !! TraceEntry.role_index entry = Some exp
              ∧ sb ∈ role_selection backend keywords job_text budgets
                       (TraceEntry.role_index entry) exp
              ∧ entry = TraceEntry.mk (SelectedBullet.text sb)
                          (SelectedBullet.source_ids sb)
                          (TraceEntry.role_index entry) (SelectedBullet.score sb)) as Hiff.
  { unfold selection. rewrite resume_trace_eq, list_elem_of_join. split.
    - intros (l & Hin & Hl). apply elem_of_lookup_imap in Hl as (idx & exp & -> & Hexp).
      apply list_elem_of_fmap in Hin as (sb & -> & Hsb). simpl. eauto.
    - intros (exp & sb & Hexp & Hsb & Hentry).
      exists ((λ sb, TraceEntry.mk (SelectedBullet.text sb) (SelectedBullet.source_ids sb)
                       (TraceEntry.role_index entry) (SelectedBullet.score sb))
                <$> role_selection backend keywords job_text budgets
                      (TraceEntry.role_index entry) exp).
      split.
      + rewrite Hentry at 1. apply list_elem_of_fmap. exists sb. split; [reflexivity|exact Hsb].
      + apply elem_of_lookup_imap. eauto. }
  split.
  - rewrite Hiff. unfold selection. split.
    + intros (exp & sb & Hexp & Hsb & Hentry). eexists _, sb.
      rewrite (selected_getitem_role _ _ _ _ _ _ _ Hexp). done.
    + intros (l & sb & Hl & Hsb & Hentry). rewrite selected_getitem in Hl.
      destruct (_ !! TraceEntry.role_index entry) as [exp|]; [|done].
      injection Hl as <-. eauto.
  - intros (exp & sb & Hexp & Hsb & Hentry)%Hiff. split.
    + rewrite Hentry. simpl.
      by apply elem_of_role_selection, elem_of_eligible in Hsb as (_ & _ & Hpos & _).
    + exists exp. split; [done|]. rewrite Hentry. simpl.
      by eapply selected_bullet_origin.
Qed.

Lemma X15_witness :
  Forall (λ entry, (0 < TraceEntry.score entry)%Q)
    (ResumeContext.trace
       (build_resume_context sample_candidate sample_job
          (select_bullets no_sklearn sample_candidate sample_keywords None
             default_budgets))).
Proof.
  apply Forall_forall. intros entry Hin.
  exact (proj1 (proj2 (X15_trace_lists_the_selected_bullets no_sklearn sample_candidate
                         sample_job sample_keywords None default_budgets entry) Hin)).
Defined.

(** ** The cover letter of a selection *)

Lemma seq_sorted_le start n : StronglySorted Nat.le (seq start n).
Proof.
  eapply StronglySorted_weaken; [|apply seq_StronglySorted]. intros a b. lia.
Qed.

Lemma merge_sort_seq start n : merge_sort Nat.le (seq start n) = seq start n.
Proof.
  apply (StronglySorted_unique Nat.le).
  - apply StronglySorted_merge_sort; apply _.
  - apply seq_sorted_le.
  - apply merge_sort_Permutation.
Qed.

Lemma foldl_app_join {A B} (f : B → list A) (ks : list B) (acc : list A) :
  foldl (λ acc k, acc ++ f k) acc ks = acc ++ mjoin (f <$> ks).
Proof.
  revert acc. induction ks as [|k ks IH]; intros acc; simpl.
  - by rewrite app_nil_r.
  - rewrite IH. by rewrite <- app_assoc.
Qed.

Lemma letter_texts_eq backend candidate keywords job_text budgets :
  foldl
    (λ acc idx,
       acc ++ (SelectedBullet.text
                 <$> default []
                       (PyDict.getitem
                          (SelectionResult.selected_by_role
                             (select_bullets backend candidate keywords job_text budgets))
                          idx)))
    []
    (merge_sort Nat.le
       (PyDict.keys
          (SelectionResult.selected_by_role
             (select_bullets backend candidate keywords job_text budgets))))
  = mjoin ((λ kv, SelectedBullet.text <$> kv.2)
             <$> PyDict.items
                   (SelectionResult.selected_by_role
                      (select_bullets backend candidate keywords job_text budgets))).
Proof.
  rewrite selected_keys, merge_sort_seq, foldl_app_join, app_nil_l. f_equal.
  unfold PyDict.items. apply list_eq. intros i.
  rewrite !list_lookup_fmap.
  destruct (Candidate.work_experience candidate !! i) as [exp|] eqn:Hexp.
  - rewrite lookup_seq_lt by (by eapply lookup_lt_Some).
    cbn [fmap option_fmap option_map Nat.add].
    rewrite (selected_getitem_role backend candidate keywords job_text budgets i exp Hexp).
    rewrite selected_by_role_eq, list_lookup_imap, Hexp. done.
  - rewrite lookup_seq_ge by (by apply lookup_ge_None).
    rewrite selected_by_role_eq, list_lookup_imap, Hexp. done.
Qed.

(** X16.  The highlights of the cover letter are the first three selected
    texts in role order, best first within a role: the middle paragraph
    lists them, joined by "; ", or is the fall-back sentence when nothing
    was selected; truthy personal notes are appended after one space, with
    their surrounding whitespace stripped. *)
Theorem X16_letter_highlights_follow_role_order
    (backend : list string → string → option (list Q))
    (candidate : Candidate.t) (job : JobPosting.t) (keywords : list string)
    (job_text : option string) (budgets : Z * Z * Z) (personal_notes : option string) :
  let selection := select_bullets backend candidate keywords job_text budgets in
  let texts :=
    mjoin ((λ kv, SelectedBullet.text <$> kv.2)
             <$> PyDict.items (SelectionResult.selected_by_role selection)) in
  let highlights := take 3 texts in
  let middle :=
    if PyList.truthy highlights
    then "A few examples of the kind of work I do: "
         +:+ PyStr.join "; " highlights +:+ "."
    else "I’m glad to share examples of recent projects on request." in
  PyDict.keys (SelectionResult.selected_by_role selection)
  = seq 0 (length (Candidate.work_experience candidate))
  ∧ LetterContext.paragraphs
      (build_cover_letter candidate job selection personal_notes) !! 1
    = Some (if opt_truthy personal_notes
            then middle +:+ " " +:+ PyStr.strip (default "" personal_notes)
            else middle).
Proof.
  intros selection texts highlights middle. split; [apply selected_keys|].
  unfold build_cover_letter. cbv zeta.
  unfold middle, highlights, texts, selection. clear.
  rewrite (letter_texts_eq backend candidate keywords job_text budgets).
  destruct personal_notes as [notes|]; simpl; [|done].
  by destruct (PyStr.truthy notes).
Qed.

Lemma fmap_prefix {A B} (f : A → B) (l1 l2 : list A) :
  l1 `prefix_of` l2 → f <$> l1 `prefix_of` f <$> l2.
Proof. intros [k ->]. exists (f <$> k). apply fmap_app. Qed.

(** X17.  The one-page run of the command line never shows a bullet that
    the default run would not show: for every role, the bullets of the
    one-page context (budgets 5, 3, 1) are a prefix of the bullets of the
    default context (budgets 6, 4, 2), and either context holds at most its
    budget of bullets for the role. *)
Theorem X17_one_page_is_a_prefix_of_the_default
    (backend : list string → string → option (list Q))
    (candidate : Candidate.t) (job : JobPosting.t) (personal_notes : option string)
    (idx : nat) (exp : Experience.t) :
  Candidate.work_experience candidate !! idx = Some exp →
  ∃ one_page default_,
    ResumeContext.experiences
      (main_contexts backend candidate job true personal_notes).1.2 !! idx
    = Some one_page
    ∧ ResumeContext.experiences
        (main_contexts backend candidate job false personal_notes).1.2 !! idx
      = Some default_
    ∧ CtxExperience.bullets one_page `prefix_of` CtxExperience.bullets default_
    ∧ length (CtxExperience.bullets one_page)
      ≤ match idx with 0 => 5 | 1 => 3 | _ => 1 end
    ∧ length (CtxExperience.bullets default_)
      ≤ match idx with 0 => 6 | 1 => 4 | _ => 2 end.
Proof.
  intros Hexp. unfold main_contexts. cbv zeta. cbn [fst snd].
  rewrite !resume_experiences_lookup, Hexp. cbn [fmap option_fmap option_map].
  eexists _, _.
  split; [reflexivity|]. split; [reflexivity|]. cbn [CtxExperience.bullets].
  unfold PyDict.get. rewrite !(selected_getitem_role _ _ _ _ _ _ _ Hexp).
  cbn [default]. unfold role_selection. split; [|split].
  - apply fmap_prefix, slice_to_prefix. destruct idx as [|[|idx]]; simpl; lia.
  - rewrite length_fmap.
    pose proof (slice_to_length
                  (ranked backend (JobPosting.keywords job) (Some (JobPosting.text job))
                     idx exp) (budget_of (5, 3, 1)%Z idx)) as H.
    destruct idx as [|[|idx]]; simpl in *; lia.
  - rewrite length_fmap.
    pose proof (slice_to_length
                  (ranked backend (JobPosting.keywords job) (Some (JobPosting.text job))
                     idx exp) (budget_of (6, 4, 2)%Z idx)) as H.
    destruct idx as [|[|idx]]; simpl in *; lia.
Qed.

Lemma X17_witness :
  ∃ one_page,
    ResumeContext.experiences
      (main_contexts no_sklearn sample_candidate sample_job true None).1.2 !! 0
    = Some one_page
    ∧ length (CtxExperience.bullets one_page) ≤ 5.
Proof.
  destruct (X17_one_page_is_a_prefix_of_the_default no_sklearn sample_candidate
              sample_job None 0 sample_role_acme eq_refl)
    as (one_page & default_ & H1 & _ & _ & Hlen & _).
  exists one_page. by split.
Defined.

(** ** The skills of the resume context *)

Lemma filter_fresh `{EqDecision K} (x : K) (ks l : list K) :
  x ∉ l → filter (λ k, k ∉ ks ++ [x]) l = filter (λ k, k ∉ ks) l.
Proof.
  induction l as [|y l IH]; intros Hx; [done|].
  apply not_elem_of_cons in Hx as [Hne Hx]. rewrite !filter_cons, IH by done.
  destruct (decide (y ∉ ks ++ [x])) as [H1|H1], (decide (y ∉ ks)) as [H2|H2]; try done.
  - exfalso. apply H2. intros Hin. apply H1. apply elem_of_app. by left.
  - exfalso. apply H1. intros [?| ->%list_elem_of_singleton]%elem_of_app; done.
Qed.

Lemma fold_setitem_keys `{EqDecision K} {V} (l : list K) (v : V) (d : PyDict.t K V) :
  NoDup l →
  PyDict.keys (fold_left (λ d k, PyDict.setitem k v d) l d)
  = PyDict.keys d ++ filter (λ k, k ∉ PyDict.keys d) l.
Proof.
  revert d. induction l as [|x l IH]; intros d Hnd; simpl.
  - by rewrite app_nil_r.
  - apply NoDup_cons in Hnd as [Hx Hnd]. rewrite IH by done.
    rewrite keys_setitem, filter_cons.
    destruct (decide (x ∈ PyDict.keys d)) as [Hin|Hnin].
    + by rewrite decide_False by tauto.
    + rewrite decide_True by done. rewrite <- app_assoc. simpl. do 2 f_equal.
      by apply filter_fresh.
Qed.

(** X18.  When neither skill list repeats a skill, the skills of the
    resume context are the hard skills, in order, followed by the soft
    skills that are not already among the hard ones. *)
Theorem X18_skills_are_hard_then_new_soft
    (candidate : Candidate.t) (job : JobPosting.t) (selection : SelectionResult.t) :
  NoDup (Candidate.skills_hard candidate) →
  NoDup (Candidate.skills_soft candidate) →
  ResumeContext.skills (build_resume_context candidate job selection)
  = Candidate.skills_hard candidate
    ++ filter (λ s, s ∉ Candidate.skills_hard candidate) (Candidate.skills_soft candidate).
Proof.
  intros Hhard Hsoft. unfold build_resume_context. simpl.
  unfold PyDict.fromkeys. rewrite fold_left_app.
  rewrite fold_setitem_keys by done.
  by rewrite (fold_setitem_fresh (Candidate.skills_hard candidate) tt
                (PyDict.empty (K:=string) (V:=unit))) by done.
Qed.

Lemma X18_witness :
  ResumeContext.skills (build_resume_context sample_candidate sample_job empty_selection)
  = ["Python"; "AWS"; "python"; "Leadership"].
Proof.
  rewrite (X18_skills_are_hard_then_new_soft sample_candidate sample_job empty_selection).
  - vm_compute. reflexivity.
  - simpl. apply NoDup_ListNoDup. repeat constructor; simpl; intuition discriminate.
  - simpl. apply NoDup_ListNoDup. repeat constructor; simpl; intuition discriminate.
Defined.

(** ** The evaluation of a resume context *)

Lemma foldl_elem_of {A B} `{Countable A} (F : gset A → B → gset A) (P : B → Prop)
    (t : A) (l : list B) (acc : gset A) :
  (∀ acc x, t ∈ F acc x ↔ t ∈ acc ∨ P x) →
  t ∈ foldl F acc l ↔ t ∈ acc ∨ ∃ x, x ∈ l ∧ P x.
Proof.
  intros HF. revert acc. induction l as [|x l IH]; intros acc; simpl.
  - split; [by left|]. intros [?|(x & []%elem_of_nil & _)]. done.
  - rewrite IH, HF. split.
    + intros [[?|?]|(y & Hy & HP)]; [by left| |].
      * right. exists x. split; [apply list_elem_of_here|done].
      * right. exists y. split; [by apply list_elem_of_further|done].
    + intros [?|(y & [->|Hy]%elem_of_cons & HP)]; [by left; left|by left; right|].
      right. by exists y.
Qed.

Lemma elem_of_coverage_tokens (resume_ctx : ResumeContext.t) (t : string) :
  t ∈ coverage_tokens resume_ctx
  ↔ (∃ exp b w,
       exp ∈ ResumeContext.experiences resume_ctx
       ∧ b ∈ CtxExperience.bullets exp
       ∧ w ∈ PyStr.split (Bullet.text b)
       ∧ t = norm w)
    ∨ (∃ s, s ∈ ResumeContext.skills resume_ctx ∧ t = norm s).
Proof.
  unfold coverage_tokens. cbv zeta.
  rewrite (foldl_elem_of _ (λ s, t = norm s)).
  2:{ intros acc s. rewrite elem_of_union, elem_of_singleton. tauto. }
  rewrite (foldl_elem_of _
             (λ exp, ∃ b, b ∈ CtxExperience.bullets exp
                          ∧ ∃ w, w ∈ PyStr.split (Bullet.text b) ∧ t = norm w)).
  2:{ intros acc exp.
      rewrite (foldl_elem_of _
                 (λ b, ∃ w, w ∈ PyStr.split (Bullet.text b) ∧ t = norm w)); [done|].
      intros acc' b. rewrite elem_of_union, elem_of_list_to_set, list_elem_of_fmap.
      split; (intros [?|(w & ? & ?)]; [by left|right; by exists w]). }
  rewrite elem_of_empty. split.
  - intros [[[]|(exp & Hexp & b & Hb & w & Hw & Ht)]|(s & Hs & Ht)].
    + left. by exists exp, b, w.
    + right. by exists s.
  - intros [(exp & b & w & Hexp & Hb & Hw & Ht)|(s & Hs & Ht)].
    + left. right. exists exp. split; [done|]. exists b. split; [done|]. by exists w.
    + right. by exists s.
Qed.

Lemma filter_split_length {A} (P : A → Prop) `{∀ x, Decision (P x)} (l : list A) :
  length (filter P l) + length (filter (λ x, ¬ P x) l) = length l.
Proof. rewrite <- length_app. apply Permutation_length, filter_app_complement. Qed.

Lemma coverage_ratio_facts (covered kws : list string) :
  length covered ≤ length kws →
  (0 <= coverage_ratio covered kws <= 1)%Q
  ∧ ((coverage_ratio covered kws == 0)%Q ↔ covered = [])
  ∧ ((coverage_ratio covered kws == 1)%Q ↔ kws ≠ [] ∧ length covered = length kws).
Proof.
  intros Hle. unfold coverage_ratio. destruct kws as [|k kws].
  - simpl. destruct covered; [|simpl in Hle; lia].
    split; [lra|]. split; [done|]. split; [lra|]. by intros [[] _].
  - cbn [PyList.truthy].
    pose proof (ratio_bounds (length covered) (length (k :: kws)) Hle) as Hb.
    split; [done|]. split.
    + rewrite <- length_zero_iff_nil. split.
      * intros Hz. destruct (length covered) as [|n] eqn:Hn; [done|].
        pose proof (ratio_pos (S n) (length (k :: kws)) ltac:(lia)) as Hp.
        rewrite Hz in Hp. by apply Qlt_irrefl in Hp.
      * intros ->. apply ratio_zero.
    + rewrite ratio_one_iff by done. split.
      * intros [? _]. done.
      * intros [_ ?]. split; [done|]. simpl. lia.
Qed.

(** X19.  [keyword_coverage] counts the truthy job keywords after [norm],
    duplicates included.  [covered] lists, in order, those that are among
    the tokens of the context; [missing] lists at most 15 of the others, in
    order; together they account for every keyword when at most 15 are
    uncovered.  The reported coverage is the rounding of a ratio in
    [0, 1] that is 0 exactly when nothing is covered and 1 exactly when
    there is a keyword and none is missing. *)
Theorem X19_coverage_accounts_for_every_keyword
    (round3 : Q → Q) (job_keywords : list string) (resume_ctx : ResumeContext.t) :
  let cov := keyword_coverage round3 job_keywords resume_ctx in
  let kws := norm <$> filter (λ k, PyStr.truthy k = true) job_keywords in
  Coverage.total_keywords cov = length kws
  ∧ Coverage.covered cov `sublist_of` kws
  ∧ Coverage.missing cov `sublist_of` kws
  ∧ (∀ k, k ∈ Coverage.covered cov ↔ k ∈ kws ∧ k ∈ coverage_tokens resume_ctx)
  ∧ (∀ k, k ∈ Coverage.missing cov → k ∈ kws ∧ k ∉ coverage_tokens resume_ctx)
  ∧ length (Coverage.missing cov)
    = min 15 (length kws - length (Coverage.covered cov))
  ∧ ∃ q : Q,
      Coverage.coverage cov = round3 q
      ∧ (0 <= q <= 1)%Q
      ∧ ((q == 0)%Q ↔ Coverage.covered cov = [])
      ∧ ((q == 1)%Q ↔ kws ≠ [] ∧ Coverage.missing cov = []).
Proof.
  intros cov kws. unfold cov, keyword_coverage. cbv zeta. fold kws.
  cbn [Coverage.total_keywords Coverage.covered Coverage.missing Coverage.coverage].
  set (tokens := coverage_tokens resume_ctx).
  pose proof (filter_split_length (λ k, k ∈ tokens) kws) as Hsplit.
  split; [done|]. split; [apply sublist_filter|]. split.
  { etrans; [apply sublist_take|apply sublist_filter]. }
  split. { intros k. rewrite list_elem_of_filter. tauto. }
  split.
  { intros k Hk. pose proof (elem_of_prefix _ _ _ Hk (prefix_take _ _)) as Hk'.
    apply list_elem_of_filter in Hk'. tauto. }
  split. { rewrite length_take. lia. }
  exists (coverage_ratio (filter (λ k, k ∈ tokens) kws) kws). split; [done|].
  destruct (coverage_ratio_facts (filter (λ k, k ∈ tokens) kws) kws)
    as (Hr & Hz & Ho); [apply length_filter|].
  split; [done|]. split; [done|]. rewrite Ho. split.
  - intros [Hne Hlen]. split; [done|].
    assert (filter (λ k, k ∉ tokens) kws = []) as ->; [|done].
    apply length_zero_iff_nil. lia.
  - intros [Hne Hm]. split; [done|].
    apply (f_equal length) in Hm. rewrite length_take in Hm.
    change (length (@nil string)) with 0 in Hm. lia.
Qed.

(** X20.  A keyword is reported as covered exactly when it is the [norm]
    of a non-empty job keyword and also the [norm] of a whitespace-separated
    word of a bullet shown in some experience block, or the [norm] of a
    whole skill: a skill of several words is one token, so a keyword can
    match it only as a whole. *)
Theorem X20_covered_means_a_bullet_word_or_a_whole_skill
    (round3 : Q → Q) (job_keywords : list string) (resume_ctx : ResumeContext.t)
    (k : string) :
  k ∈ Coverage.covered (keyword_coverage round3 job_keywords resume_ctx)
  ↔ (∃ kw, kw ∈ job_keywords ∧ kw ≠ "" ∧ k = norm kw)
    ∧ ((∃ exp b w,
          exp ∈ ResumeContext.experiences resume_ctx
          ∧ b ∈ CtxExperience.bullets exp
          ∧ w ∈ PyStr.split (Bullet.text b)
          ∧ k = norm w)
       ∨ (∃ s, s ∈ ResumeContext.skills resume_ctx ∧ k = norm s)).
Proof.
  unfold keyword_coverage. cbv zeta. cbn [Coverage.covered].
  rewrite list_elem_of_filter, elem_of_coverage_tokens, list_elem_of_fmap.
  split.
  - intros [Htok (kw & -> & [Hkw Hin]%list_elem_of_filter)]. split; [|done].
    exists kw. split; [done|]. split; [|done]. by intros ->.
  - intros [(kw & Hin & Hne & ->) Htok]. split; [done|].
    exists kw. split; [done|]. apply list_elem_of_filter. split; [|done].
    by destruct kw.
Qed.

Lemma no_bullets_shown_iff (exps : list CtxExperience.t) :
  PyList.truthy exps
  && negb (existsb (λ e, PyList.truthy (CtxExperience.bullets e)) exps) = true
  ↔ exps ≠ [] ∧ ∀ i e, exps !! i = Some e → CtxExperience.bullets e = [].
Proof.
  rewrite andb_true_iff, negb_true_iff. split.
  - intros [Ht He]. split; [by destruct exps|]. intros i e Hi.
    destruct (CtxExperience.bullets e) as [|b bs] eqn:Hb; [done|].
    assert (existsb (λ e, PyList.truthy (CtxExperience.bullets e)) exps = true) as Hex.
    { apply existsb_exists. exists e. split.
      - apply list_elem_of_In. by eapply list_elem_of_lookup_2.
      - by rewrite Hb. }
    congruence.
  - intros [Hne Hall]. split; [by destruct exps|].
    apply not_true_iff_false. intros (e & Hin & Ht)%existsb_exists.
    apply list_elem_of_In, list_elem_of_lookup in Hin as [i Hi].
    by rewrite (Hall i e Hi) in Ht.
Qed.

Lemma resume_experiences_nil candidate job selection :
  ResumeContext.experiences (build_resume_context candidate job selection) = []
  ↔ Candidate.work_experience candidate = [].
Proof.
  unfold build_resume_context. cbn [ResumeContext.experiences].
  unfold PyList.enumerate. split.
  - intros Hnil%fmap_nil_inv. apply (f_equal length) in Hnil.
    rewrite length_imap in Hnil. by apply length_zero_iff_nil.
  - by intros ->.
Qed.

(** X21.  The evaluation that [main] prints for the context it built, for
    a candidate with at least one role.  "No bullets selected" is suggested
    exactly when the selection of every role is empty; "Skills section
    empty" exactly when the candidate lists no hard and no soft skill.
    With a posting that has no keywords and no text the first of these is
    always suggested, and no keyword is counted. *)
Theorem X21_evaluation_reports_an_empty_selection
    (round3 : Q → Q) (backend : list string → string → option (list Q))
    (candidate : Candidate.t) (job : JobPosting.t) (one_page : bool)
    (personal_notes : option string) :
  Candidate.work_experience candidate ≠ [] →
  let budgets := if one_page then (5, 3, 1)%Z else (6, 4, 2)%Z in
  let resume_ctx := (main_contexts backend candidate job one_page personal_notes).1.2 in
  let report := summarize_evaluation round3 (ResumeContext.job resume_ctx) resume_ctx in
  ("No bullets selected; ensure candidate bullets are provided."
     ∈ Evaluation.suggestions report
   ↔ ∀ idx exp, Candidate.work_experience candidate !! idx = Some exp →
       role_selection backend (JobPosting.keywords job) (Some (JobPosting.text job))
         budgets idx exp = [])
  ∧ ("Skills section empty; include key tools and domains from JD."
       ∈ Evaluation.suggestions report
     ↔ Candidate.skills_hard candidate = [] ∧ Candidate.skills_soft candidate = [])
  ∧ (JobPosting.keywords job = [] → PyStr.truthy (JobPosting.text job) = false →
     "No bullets selected; ensure candidate bullets are provided."
       ∈ Evaluation.suggestions report
     ∧ Coverage.total_keywords (Evaluation.keyword_coverage report) = 0).
Proof.
  intros Hroles budgets resume_ctx report.
  set (selection :=
         select_bullets backend candidate (JobPosting.keywords job)
           (Some (JobPosting.text job)) budgets).
  assert (resume_ctx = build_resume_context candidate job selection) as Hctx.
  { unfold resume_ctx, main_contexts, selection, budgets. done. }
  subst selection.
  assert (ResumeContext.skills resume_ctx = []
          ↔ Candidate.skills_hard candidate = [] ∧ Candidate.skills_soft candidate = [])
    as Hskills.
  { rewrite Hctx. unfold build_resume_context. cbn [ResumeContext.skills].
    destruct (fromkeys_keys
                (Candidate.skills_hard candidate ++ Candidate.skills_soft candidate))
      as [_ Hin].
    split.
    - intros Hnil. apply app_eq_nil.
      destruct (Candidate.skills_hard candidate ++ Candidate.skills_soft candidate)
        as [|s l] eqn:Hl; [done|].
      exfalso. assert (s ∈ @nil string) as []%elem_of_nil.
      rewrite <- Hnil. apply Hin. apply list_elem_of_here.
    - intros [-> ->]. done. }
  assert (PyList.truthy (ResumeContext.experiences resume_ctx)
          && negb (existsb (λ e, PyList.truthy (CtxExperience.bullets e))
                     (ResumeContext.experiences resume_ctx)) = true
          ↔ ∀ idx exp, Candidate.work_experience candidate !! idx = Some exp →
              role_selection backend (JobPosting.keywords job)
                (Some (JobPosting.text job)) budgets idx exp = []) as Hnone.
  { rewrite no_bullets_shown_iff, Hctx, resume_experiences_nil. split.
    - intros [_ Hall] idx exp Hexp.
      specialize (Hall idx). rewrite resume_experiences_lookup, Hexp in Hall.
      specialize (Hall _ eq_refl). cbn [CtxExperience.bullets] in Hall.
      apply fmap_nil_inv in Hall. unfold PyDict.get in Hall.
      by rewrite (selected_getitem_role _ _ _ _ _ _ _ Hexp) in Hall.
    - intros Hall. split; [done|]. intros idx e.
      rewrite resume_experiences_lookup.
      destruct (Candidate.work_experience candidate !! idx) as [exp|] eqn:Hexp; [|done].
      cbn [fmap option_fmap option_map]. intros He.
      apply (inj Some) in He. rewrite <- He. cbn [CtxExperience.bullets].
      unfold PyDict.get.
      rewrite (selected_getitem_role _ _ _ _ _ _ _ Hexp).
      by rewrite (Hall idx exp Hexp). }
  assert ("No bullets selected; ensure candidate bullets are provided."
            ∈ Evaluation.suggestions report
          ↔ ∀ idx exp, Candidate.work_experience candidate !! idx = Some exp →
              role_selection backend (JobPosting.keywords job)
                (Some (JobPosting.text job)) budgets idx exp = []) as Hm2.
  { rewrite <- Hnone. unfold report, summarize_evaluation. cbv zeta.
    cbn [Evaluation.suggestions].
    destruct (QMicromega.Qlt_bool _ _),
      (PyList.truthy (ResumeContext.experiences resume_ctx) && _),
      (negb (PyList.truthy (ResumeContext.skills resume_ctx)));
      cbn [app]; rewrite ?elem_of_cons, ?elem_of_nil;
      split; try done; intros H; repeat destruct H as [H|H]; try done; auto. }
  split; [done|]. split.
  - rewrite <- Hskills. unfold report, summarize_evaluation. cbv zeta.
    cbn [Evaluation.suggestions].
    destruct (ResumeContext.skills resume_ctx) as [|s l];
      destruct (QMicromega.Qlt_bool _ _),
        (PyList.truthy (ResumeContext.experiences resume_ctx) && _);
      cbn [app PyList.truthy negb]; rewrite ?elem_of_cons, ?elem_of_nil;
      split; try done; intros H; repeat destruct H as [H|H]; try done; auto.
  - intros Hkw Htext. split.
    + apply Hm2. intros idx exp Hexp. apply role_selection_nil.
      intros bidx b Hb. rewrite Hkw.
      rewrite (blended_score_no_signal backend exp (Some (JobPosting.text job)) bidx b)
        by done.
      lra.
    + unfold report, summarize_evaluation, keyword_coverage. cbv zeta.
      cbn [Evaluation.keyword_coverage Coverage.total_keywords].
      rewrite Hctx. unfold build_resume_context.
      cbn [ResumeContext.job JobSummary.keywords]. by rewrite Hkw.
Qed.

Lemma X21_witness :
  "No bullets selected; ensure candidate bullets are provided."
    ∈ Evaluation.suggestions
        (summarize_evaluation (λ q, q)
           (ResumeContext.job
              (main_contexts no_sklearn sample_candidate blank_job true None).1.2)
           (main_contexts no_sklearn sample_candidate blank_job true None).1.2).
Proof.
  apply (X21_evaluation_reports_an_empty_selection (λ q, q) no_sklearn sample_candidate
           blank_job true None); [discriminate| |]; reflexivity.
Defined.

(** ** The guarded rewriting of the bullets *)

Lemma enumerate_snoc {A} (l : list A) (x : A) :
  PyList.enumerate (l ++ [x]) = PyList.enumerate l ++ [(length l, x)].
Proof.
  unfold PyList.enumerate. rewrite imap_app. simpl. by rewrite Nat.add_0_r.
Qed.

Lemma enumerate_fold_getitem {A V} (f : A → V) (l : list A) (i : nat) :
  PyDict.getitem
    (foldl (λ d '(ridx, x), PyDict.setitem (Z.of_nat ridx) (f x) d)
       PyDict.empty (PyList.enumerate l))
    (Z.of_nat i)
  = f <$> l !! i.
Proof.
  induction l as [|x l IH] using rev_ind; [done|].
  rewrite enumerate_snoc, foldl_snoc, getitem_setitem.
  destruct (decide (Z.of_nat i = Z.of_nat (length l))) as [Heq|Hne].
  - apply Nat2Z.inj in Heq as ->. by rewrite list_lookup_middle.
  - rewrite IH. destruct (decide (i < length l)) as [Hlt|Hge].
    + by rewrite lookup_app_l.
    + rewrite (lookup_ge_None_2 l i) by lia.
      rewrite lookup_ge_None_2; [done|]. rewrite length_app. simpl. lia.
Qed.

Lemma imap_id {A} (f : nat → A → A) (l : list A) :
  (∀ i x, l !! i = Some x → f i x = x) → imap f l = l.
Proof.
  intros Hf. rewrite (imap_ext f (const id) l) by done.
  rewrite imap_const. apply list_fmap_id.
Qed.

Section RefineFacts.
Variable llm_rewrite :
  PyDict.t Z (list string) → list string → option (list (Z * list string)).
Variable _digits_set : string → gset string.

Lemma guard_bullet_cases (originals : list string) (i : nat) (nb ob : string) :
  originals !! i = Some ob →
  guard_bullet _digits_set originals i nb = ob
  ∨ (guard_bullet _digits_set originals i nb = nb
     ∧ (ob = "" ∨ _digits_set nb ⊆ _digits_set ob)).
Proof.
  intros Hob. unfold guard_bullet. rewrite Hob. cbv zeta.
  destruct ob as [|c ob]; [right; split; [done|by left]|].
  cbn [PyStr.truthy negb]. case_bool_decide as Hd; [by left|].
  right. split; [done|]. right.
  intros x Hx. destruct (decide (x ∈ _digits_set (String c ob))) as [|Hnx]; [done|].
  exfalso.
  assert (x ∈ _digits_set nb ∖ _digits_set (String c ob)) as Hin
    by (apply elem_of_difference; done).
  rewrite Hd in Hin. by apply elem_of_empty in Hin.
Qed.

Lemma safe_fold_getitem (originals_by_role : PyDict.t Z (list string))
    (items : list (Z * list string)) (safe : PyDict.t Z (list string)) k v :
  PyDict.getitem
    (foldl
       (λ safe '(ridx, new_bullets),
          let originals := PyDict.get originals_by_role ridx [] in
          PyDict.setitem ridx (imap (guard_bullet _digits_set originals) new_bullets) safe)
       safe items) k = Some v →
  PyDict.getitem safe k = Some v
  ∨ ∃ new_bullets,
      v = imap (guard_bullet _digits_set (PyDict.get originals_by_role k [])) new_bullets.
Proof.
  revert safe. induction items as [|[ridx nb] items IH]; intros safe; [by left|].
  cbn [foldl]. intros [Hv|Hv]%IH; [|by right].
  rewrite getitem_setitem in Hv. destruct (decide (k = ridx)) as [->|]; [|by left].
  right. exists nb. congruence.
Qed.

Lemma safe_rewrite_getitem (originals_by_role : PyDict.t Z (list string))
    (job_keywords : list string) k v :
  PyDict.getitem
    (_safe_rewrite_bullets llm_rewrite _digits_set originals_by_role job_keywords) k
  = Some v →
  PyDict.getitem originals_by_role k = Some v
  ∨ ∃ new_bullets,
      v = imap (guard_bullet _digits_set (PyDict.get originals_by_role k [])) new_bullets.
Proof.
  unfold _safe_rewrite_bullets.
  destruct (llm_rewrite originals_by_role job_keywords) as [roles|]; [|by left].
  cbv zeta. intros [Hv|Hv]%safe_fold_getitem; [done|by right].
Qed.

Lemma refine_experiences_lookup (resume_ctx : ResumeContext.t)
    (job_keywords : list string) (ridx : nat) :
  ResumeContext.experiences
    (refine_resume_ctx_with_llm llm_rewrite _digits_set resume_ctx job_keywords) !! ridx
  = (λ exp,
       CtxExperience.mk (CtxExperience.company exp) (CtxExperience.role exp)
         (CtxExperience.start exp) (CtxExperience.end_ exp)
         (imap
            (λ i b,
               match
                 PyDict.getitem
                   (_safe_rewrite_bullets llm_rewrite _digits_set
                      (foldl
                         (λ d '(ridx, exp),
                            PyDict.setitem (Z.of_nat ridx)
                              (Bullet.text <$> CtxExperience.bullets exp) d)
                         PyDict.empty
                         (PyList.enumerate (ResumeContext.experiences resume_ctx)))
                      job_keywords)
                   (Z.of_nat ridx)
               with
               | Some texts =>
                   match texts !! i with
                   | Some t => Bullet.mk t (Bullet.source_ids b)
                   | None => b
                   end
               | None => b
               end)
            (CtxExperience.bullets exp)))
      <$> ResumeContext.experiences resume_ctx !! ridx.
Proof.
  unfold refine_resume_ctx_with_llm. cbv zeta. cbn [ResumeContext.experiences].
  by rewrite list_lookup_imap.
Qed.

Lemma refined_bullet (resume_ctx : ResumeContext.t) (job_keywords : list string)
    (ridx : nat) (exp exp' : CtxExperience.t) :
  ResumeContext.experiences resume_ctx !! ridx = Some exp →
  ResumeContext.experiences
    (refine_resume_ctx_with_llm llm_rewrite _digits_set resume_ctx job_keywords) !! ridx
  = Some exp' →
  CtxExperience.company exp' = CtxExperience.company exp
  ∧ CtxExperience.role exp' = CtxExperience.role exp
  ∧ CtxExperience.start exp' = CtxExperience.start exp
  ∧ CtxExperience.end_ exp' = CtxExperience.end_ exp
  ∧ length (CtxExperience.bullets exp') = length (CtxExperience.bullets exp)
  ∧ ∀ i b', CtxExperience.bullets exp' !! i = Some b' →
      ∃ b, CtxExperience.bullets exp !! i = Some b
           ∧ Bullet.source_ids b' = Bullet.source_ids b
           ∧ (Bullet.text b' = Bullet.text b
              ∨ Bullet.text b = ""
              ∨ _digits_set (Bullet.text b') ⊆ _digits_set (Bullet.text b)).
Proof.
  intros Hexp. rewrite refine_experiences_lookup, Hexp.
  cbn [fmap option_fmap option_map]. intros He. apply (inj Some) in He.
  rewrite <- He. cbn [CtxExperience.company CtxExperience.role CtxExperience.start
                       CtxExperience.end_ CtxExperience.bullets].
  split; [done|]. split; [done|]. split; [done|]. split; [done|].
  split; [apply length_imap|].
  intros i b'. rewrite list_lookup_imap.
  destruct (CtxExperience.bullets exp !! i) as [b|] eqn:Hb; [|done].
  cbn [fmap option_fmap option_map]. intros Hb'. apply (inj Some) in Hb'.
  exists b. split; [done|].
  destruct (PyDict.getitem _ (Z.of_nat ridx)) as [texts|] eqn:Hget;
    [|rewrite <- Hb'; split; [done|by left]].
  destruct (texts !! i) as [t|] eqn:Ht; [|rewrite <- Hb'; split; [done|by left]].
  rewrite <- Hb'. cbn [Bullet.text Bullet.source_ids]. split; [done|].
  assert (PyDict.get
            (foldl
               (λ d '(ridx, exp),
                  PyDict.setitem (Z.of_nat ridx)
                    (Bullet.text <$> CtxExperience.bullets exp) d)
               PyDict.empty (PyList.enumerate (ResumeContext.experiences resume_ctx)))
            (Z.of_nat ridx) []
          = Bullet.text <$> CtxExperience.bullets exp) as Horig.
  { unfold PyDict.get.
    by rewrite (enumerate_fold_getitem (λ exp, Bullet.text <$> CtxExperience.bullets exp)),
         Hexp. }
  apply safe_rewrite_getitem in Hget as [Hget|[nb Hget]].
  - rewrite (enumerate_fold_getitem (λ exp, Bullet.text <$> CtxExperience.bullets exp)),
      Hexp in Hget.
    cbn [fmap option_fmap option_map] in Hget. apply (inj Some) in Hget.
    rewrite <- Hget, list_lookup_fmap, Hb in Ht. left. by injection Ht.
  - rewrite Horig in Hget. rewrite Hget, list_lookup_imap in Ht.
    destruct (nb !! i) as [n|] eqn:Hn; [|done].
    cbn [fmap option_fmap option_map] in Ht. apply (inj Some) in Ht.
    destruct (guard_bullet_cases (Bullet.text <$> CtxExperience.bullets exp) i n
                (Bullet.text b)) as [Hg|[Hg Hd]].
    + by rewrite list_lookup_fmap, Hb.
    + left. congruence.
    + right. rewrite <- Ht, Hg. done.
Qed.

Lemma refine_unavailable (resume_ctx : ResumeContext.t) (job_keywords : list string) :
  (∀ originals_by_role, llm_rewrite originals_by_role job_keywords = None) →
  refine_resume_ctx_with_llm llm_rewrite _digits_set resume_ctx job_keywords = resume_ctx.
Proof.
  intros Hnone. unfold refine_resume_ctx_with_llm, _safe_rewrite_bullets. cbv zeta.
  rewrite Hnone. destruct resume_ctx as [identity experiences education skills trace job].
  cbn [ResumeContext.identity ResumeContext.experiences ResumeContext.education
       ResumeContext.skills ResumeContext.trace ResumeContext.job].
  f_equal. apply imap_id. intros ridx exp Hexp.
  rewrite (enumerate_fold_getitem (λ exp, Bullet.text <$> CtxExperience.bullets exp)), Hexp.
  cbn [fmap option_fmap option_map]. destruct exp as [company role start end_ bullets].
  cbn [CtxExperience.company CtxExperience.role CtxExperience.start CtxExperience.end_
       CtxExperience.bullets].
  f_equal. apply imap_id. intros i b Hb. rewrite list_lookup_fmap, Hb.
  cbn [fmap option_fmap option_map]. apply bullet_eta.
Qed.

End RefineFacts.

(** X22.  Whatever the language model answers, the refinement changes
    nothing but the texts of bullets: identity, education, skills, trace
    and job summary are those of the given context, there are as many
    experience blocks, and every block keeps its company, role, dates,
    number of bullets and the source_ids of each bullet.  The trace, in
    particular, still lists the texts as they were selected. *)
Theorem X22_refinement_only_rewrites_bullet_texts
    (llm_rewrite : PyDict.t Z (list string) → list string → option (list (Z * list string)))
    (_digits_set : string → gset string)
    (resume_ctx : ResumeContext.t) (job_keywords : list string) :
  let refined :=
    refine_resume_ctx_with_llm llm_rewrite _digits_set resume_ctx job_keywords in
  ResumeContext.identity refined = ResumeContext.identity resume_ctx
  ∧ ResumeContext.education refined = ResumeContext.education resume_ctx
  ∧ ResumeContext.skills refined = ResumeContext.skills resume_ctx
  ∧ ResumeContext.trace refined = ResumeContext.trace resume_ctx
  ∧ ResumeContext.job refined = ResumeContext.job resume_ctx
  ∧ length (ResumeContext.experiences refined)
    = length (ResumeContext.experiences resume_ctx)
  ∧ ∀ ridx exp, ResumeContext.experiences resume_ctx !! ridx = Some exp →
      ∃ exp', ResumeContext.experiences refined !! ridx = Some exp'
        ∧ CtxExperience.company exp' = CtxExperience.company exp
        ∧ CtxExperience.role exp' = CtxExperience.role exp
        ∧ CtxExperience.start exp' = CtxExperience.start exp
        ∧ CtxExperience.end_ exp' = CtxExperience.end_ exp
        ∧ Bullet.source_ids <$> CtxExperience.bullets exp'
          = Bullet.source_ids <$> CtxExperience.bullets exp.
Proof.
  intros refined. do 5 (split; [done|]). split.
  { unfold refined, refine_resume_ctx_with_llm. cbv zeta.
    cbn [ResumeContext.experiences]. apply length_imap. }
  intros ridx exp Hexp.
  destruct (ResumeContext.experiences refined !! ridx) as [exp'|] eqn:Hexp'.
  2:{ exfalso. unfold refined in Hexp'.
      by rewrite refine_experiences_lookup, Hexp in Hexp'. }
  exists exp'. split; [done|].
  destruct (refined_bullet llm_rewrite _digits_set resume_ctx job_keywords ridx exp exp'
              Hexp Hexp') as (Hc & Hr & Hs & He & Hlen & Hb).
  do 4 (split; [done|]).
  apply list_eq. intros i. rewrite !list_lookup_fmap.
  destruct (CtxExperience.bullets exp' !! i) as [b'|] eqn:Hb'.
  - destruct (Hb i b' Hb') as (b & -> & Hids & _). simpl. by rewrite Hids.
  - apply lookup_ge_None in Hb'. rewrite Hlen in Hb'.
    by rewrite (lookup_ge_None_2 _ _ Hb').
Qed.

(** X23.  The guard on numbers.  A bullet of the refined context either
    keeps its text, or had an empty text, or carries a text whose numbers
    (as [_digits_set] reads them) all occur in the text it replaces: a
    rewrite that brings in a new number is never shown. *)
Theorem X23_refinement_never_shows_a_new_number
    (llm_rewrite : PyDict.t Z (list string) → list string → option (list (Z * list string)))
    (_digits_set : string → gset string)
    (resume_ctx : ResumeContext.t) (job_keywords : list string)
    (ridx i : nat) (exp exp' : CtxExperience.t) (b b' : Bullet.t) :
  ResumeContext.experiences resume_ctx !! ridx = Some exp →
  ResumeContext.experiences
    (refine_resume_ctx_with_llm llm_rewrite _digits_set resume_ctx job_keywords) !! ridx
  = Some exp' →
  CtxExperience.bullets exp !! i = Some b →
  CtxExperience.bullets exp' !! i = Some b' →
  Bullet.text b' = Bullet.text b
  ∨ Bullet.text b = ""
  ∨ _digits_set (Bullet.text b') ⊆ _digits_set (Bullet.text b).
Proof.
  intros Hexp Hexp' Hb Hb'.
  destruct (refined_bullet llm_rewrite _digits_set resume_ctx job_keywords ridx exp exp'
              Hexp Hexp') as (_ & _ & _ & _ & _ & Hall).
  destruct (Hall i b' Hb') as (b0 & Hb0 & _ & Hcases).
  rewrite Hb in Hb0. by injection Hb0 as <-.
Qed.

Lemma X23_witness :
  Bullet.text (Bullet.mk "Cut AWS cost" ["cv.docx"]) = "Cut AWS cost"
  ∨ "Cut AWS cost" = ""
  ∨ sample_digits (Bullet.text (Bullet.mk "Cut AWS cost" ["cv.docx"]))
    ⊆ sample_digits "Cut AWS cost".
Proof.
  apply (X23_refinement_never_shows_a_new_number sample_llm_answer sample_digits
           sample_ctx ["aws"] 0 0
           (CtxExperience.mk "Acme" "Engineer" (Some "2021") None
              [Bullet.mk "Cut AWS cost" ["cv.docx"];
               Bullet.mk "Wrote documentation" ["cv.docx"]])
           (CtxExperience.mk "Acme" "Engineer" (Some "2021") None
              [Bullet.mk "Cut AWS cost" ["cv.docx"];
               Bullet.mk "Authored documentation" ["cv.docx"]])
           (Bullet.mk "Cut AWS cost" ["cv.docx"])
           (Bullet.mk "Cut AWS cost" ["cv.docx"])); reflexivity.
Defined.

(** X24.  When the language model gives no answer, or an answer that
    cannot be read, the refinement returns the context it was given. *)
Theorem X24_refinement_without_an_answer_is_the_identity
    (llm_rewrite : PyDict.t Z (list string) → list string → option (list (Z * list string)))
    (_digits_set : string → gset string)
    (resume_ctx : ResumeContext.t) (job_keywords : list string) :
  (∀ originals_by_role, llm_rewrite originals_by_role job_keywords = None) →
  refine_resume_ctx_with_llm llm_rewrite _digits_set resume_ctx job_keywords = resume_ctx.
Proof. apply refine_unavailable. Qed.

Lemma X24_witness :
  refine_resume_ctx_with_llm (λ _ _, None) sample_digits sample_ctx ["aws"] = sample_ctx.
Proof.
  apply (X24_refinement_without_an_answer_is_the_identity (λ _ _, None) sample_digits
           sample_ctx ["aws"]).
  reflexivity.
Defined.

(** ** The deduplication of the merged skills *)

Lemma truthy_lower s : PyStr.truthy (PyStr.lower s) = PyStr.truthy s.
Proof. by destruct s. Qed.

Lemma truthy_true s : PyStr.truthy s = true ↔ s ≠ "".
Proof. destruct s; simpl; split; done. Qed.

Lemma dedup_step_inv st x : dedup_inv st → dedup_inv (dedup_step st x).
Proof.
  intros [Hseen Hnd]. unfold dedup_step. cbv zeta.
  destruct (PyStr.truthy (PyStr.lower (PyStr.strip x))); [|done].
  case_bool_decide as Hin; [done|]. cbn [andb negb]. split; cbn [fst snd].
  - intros k. rewrite elem_of_union, elem_of_singleton, fmap_app, elem_of_app, Hseen.
    simpl. rewrite list_elem_of_singleton. done.
  - rewrite fmap_app. apply NoDup_app. split; [done|]. split.
    + intros k Hk ->%list_elem_of_singleton. apply Hin. by apply Hseen.
    + apply NoDup_singleton.
Qed.

Lemma dedup_fold_inv items st : dedup_inv st → dedup_inv (foldl dedup_step st items).
Proof.
  revert st. induction items as [|x items IH]; intros st Hst; [done|].
  simpl. by apply IH, dedup_step_inv.
Qed.

Lemma dedup_step_seen st x : st.1 ⊆ (dedup_step st x).1.
Proof.
  unfold dedup_step. cbv zeta.
  destruct (PyStr.truthy _ && negb _); [|done]. simpl. set_solver.
Qed.

Lemma dedup_fold_seen items st : st.1 ⊆ (foldl dedup_step st items).1.
Proof.
  revert st. induction items as [|x items IH]; intros st; [done|].
  simpl. etrans; [apply (dedup_step_seen st x)|apply IH].
Qed.

Lemma dedup_fold_complete items st x :
  x ∈ items → PyStr.strip x ≠ "" →
  PyStr.lower (PyStr.strip x) ∈ (foldl dedup_step st items).1.
Proof.
  revert st. induction items as [|y items IH]; intros st Hin Hne.
  - by apply elem_of_nil in Hin.
  - simpl. apply elem_of_cons in Hin as [->|Hin]; [|by apply IH].
    apply dedup_fold_seen. unfold dedup_step. cbv zeta.
    rewrite truthy_lower. apply truthy_true in Hne. rewrite Hne.
    case_bool_decide as Hseen; [done|]. simpl. set_solver.
Qed.

Lemma dedup_step_out st x :
  (dedup_step st x).2 = st.2
  ∨ ((dedup_step st x).2 = st.2 ++ [PyStr.strip x] ∧ PyStr.strip x ≠ "").
Proof.
  unfold dedup_step. cbv zeta.
  destruct (PyStr.truthy (PyStr.lower (PyStr.strip x))) eqn:Ht; [|by left].
  destruct (negb _); [|by left]. right. split; [done|].
  rewrite truthy_lower in Ht. by apply truthy_true.
Qed.

Lemma dedup_fold_out items st :
  ∃ ext, (foldl dedup_step st items).2 = st.2 ++ ext
    ∧ ext `sublist_of` (PyStr.strip <$> items)
    ∧ ∀ y, y ∈ ext → y ≠ "".
Proof.
  revert st. induction items as [|x items IH]; intros st.
  - exists []. simpl. rewrite app_nil_r. split; [done|]. split; [done|].
    by intros y Hy%elem_of_nil.
  - cbn [foldl]. destruct (IH (dedup_step st x)) as (ext & Heq & Hsub & Hne).
    rewrite Heq. rewrite fmap_cons.
    destruct (dedup_step_out st x) as [->|[-> Hx]].
    + exists ext. split; [done|]. split; [by apply sublist_cons|done].
    + exists (PyStr.strip x :: ext). split; [by rewrite <- app_assoc|].
      split; [by apply sublist_skip|].
      intros y [->|Hy]%elem_of_cons; [done|by apply Hne].
Qed.

Lemma dedup_list_facts (items : list string) :
  NoDup (PyStr.lower <$> dedup_list items)
  ∧ dedup_list items `sublist_of` (PyStr.strip <$> items)
  ∧ (∀ y, y ∈ dedup_list items → y ≠ "")
  ∧ (∀ x, x ∈ items → PyStr.strip x ≠ "" →
       ∃ y, y ∈ dedup_list items ∧ PyStr.lower y = PyStr.lower (PyStr.strip x)).
Proof.
  unfold dedup_list.
  assert (dedup_inv (∅, [])) as Hinv0.
  { split; [|apply NoDup_nil_2]. intros k. simpl. rewrite elem_of_nil. set_solver. }
  destruct (dedup_fold_inv items _ Hinv0) as [Hseen Hnd].
  destruct (dedup_fold_out items (∅, [])) as (ext & Heq & Hsub & Hne).
  simpl in Heq. subst ext.
  split; [done|]. split; [done|]. split; [done|].
  intros x Hx Hsx.
  pose proof (dedup_fold_complete items (∅, []) x Hx Hsx) as Hin.
  apply Hseen, list_elem_of_fmap in Hin as (y & Hy & Hin). by exists y.
Qed.

(** X25.  [dedup_list] keeps one stripped spelling of every skill, in the
    order of the items: no two results are equal up to letter case, none
    is empty, the result is a subsequence of the stripped items, and every
    item that is not blank is represented up to case. *)
Theorem X25_dedup_list_is_case_insensitive (items : list string) :
  NoDup (PyStr.lower <$> dedup_list items)
  ∧ dedup_list items `sublist_of` (PyStr.strip <$> items)
  ∧ (∀ y, y ∈ dedup_list items → y ≠ "")
  ∧ (∀ x, x ∈ items → PyStr.strip x ≠ "" →
       ∃ y, y ∈ dedup_list items ∧ PyStr.lower y = PyStr.lower (PyStr.strip x)).
Proof. apply dedup_list_facts. Qed.

(** X26.  The resume context of a candidate whose hard skills come from
    [dedup_list] and who has no soft skills (what the merge of parsed
    documents writes) lists exactly those skills, so no two of them are
    equal up to letter case. *)
Theorem X26_merged_skills_reach_the_resume_unchanged
    (candidate : Candidate.t) (job : JobPosting.t) (selection : SelectionResult.t)
    (items : list string) :
  Candidate.skills_hard candidate = dedup_list items →
  Candidate.skills_soft candidate = [] →
  ResumeContext.skills (build_resume_context candidate job selection) = dedup_list items
  ∧ NoDup (PyStr.lower <$> ResumeContext.skills (build_resume_context candidate job selection)).
Proof.
  intros Hhard Hsoft.
  destruct (dedup_list_facts items) as (Hnd & _).
  assert (ResumeContext.skills (build_resume_context candidate job selection)
          = dedup_list items) as Heq.
  { unfold build_resume_context. cbn [ResumeContext.skills].
    rewrite Hhard, Hsoft, app_nil_r. unfold PyDict.fromkeys.
    rewrite (fold_setitem_fresh (dedup_list items) tt
               (PyDict.empty (K:=string) (V:=unit))); [done|].
    simpl. by apply NoDup_fmap_1 in Hnd. }
  by rewrite Heq.
Qed.

Lemma X26_witness :
  ResumeContext.skills (build_resume_context merged_candidate blank_job empty_selection)
  = ["Python"; "AWS"].
Proof.
  destruct (X26_merged_skills_reach_the_resume_unchanged merged_candidate blank_job
              empty_selection ["Python"; " python "; "AWS"; ""] eq_refl eq_refl)
    as [-> _].
  vm_compute. reflexivity.
Defined.

(** ** Letter case in the keyword score *)

Lemma lower_char_idemp c : PyStr.lower_char (PyStr.lower_char c) = PyStr.lower_char c.
Proof. destruct c as [[] [] [] [] [] [] [] []]; reflexivity. Qed.

Lemma is_space_lower_char c : PyStr.is_space (PyStr.lower_char c) = PyStr.is_space c.
Proof. destruct c as [[] [] [] [] [] [] [] []]; reflexivity. Qed.

Lemma lower_idemp s : PyStr.lower (PyStr.lower s) = PyStr.lower s.
Proof. induction s as [|c s IH]; simpl; [done|]. by rewrite lower_char_idemp, IH. Qed.

Lemma fmap_rev {A B} (f : A → B) (l : list A) : f <$> rev l = rev (f <$> l).
Proof.
  induction l as [|x l IH]; simpl; [done|]. by rewrite fmap_app, IH.
Qed.

Lemma lower_rev s : PyStr.lower (String.rev s) = String.rev (PyStr.lower s).
Proof. apply chars_inj. by rewrite chars_lower, !chars_rev, chars_lower, fmap_rev. Qed.

Lemma lower_of_list l :
  PyStr.lower (String.string_of_list_ascii l)
  = String.string_of_list_ascii (PyStr.lower_char <$> l).
Proof. induction l as [|c l IH]; simpl; [done|]. by rewrite IH. Qed.

Lemma lstrip_by_lower p s :
  (∀ c, p (PyStr.lower_char c) = p c) →
  PyStr.lstrip_by p (PyStr.lower s) = PyStr.lower (PyStr.lstrip_by p s).
Proof.
  intros Hp. induction s as [|c s IH]; simpl; [done|].
  rewrite Hp. by destruct (p c).
Qed.

Lemma strip_by_lower p s :
  (∀ c, p (PyStr.lower_char c) = p c) →
  PyStr.strip_by p (PyStr.lower s) = PyStr.lower (PyStr.strip_by p s).
Proof.
  intros Hp. unfold PyStr.strip_by, PyStr.rstrip_by.
  by rewrite lstrip_by_lower, <- lower_rev, lstrip_by_lower, lower_rev.
Qed.

Lemma strip_lower s : PyStr.strip (PyStr.lower s) = PyStr.lower (PyStr.strip s).
Proof. apply strip_by_lower, is_space_lower_char. Qed.

Lemma flush_lower cur :
  PyStr.flush (PyStr.lower_char <$> cur) = PyStr.lower <$> PyStr.flush cur.
Proof.
  destruct cur as [|c cur]; [done|]. unfold PyStr.flush.
  rewrite fmap_cons. cbn [fmap list_fmap]. by rewrite lower_of_list, fmap_rev, fmap_cons.
Qed.

Lemma split_from_lower cur s :
  PyStr.split_from (PyStr.lower_char <$> cur) (PyStr.lower s)
  = PyStr.lower <$> PyStr.split_from cur s.
Proof.
  revert cur. induction s as [|c s IH]; intros cur; simpl.
  - apply flush_lower.
  - rewrite is_space_lower_char. destruct (PyStr.is_space c).
    + rewrite fmap_app, flush_lower. f_equal. apply (IH []).
    + apply (IH (c :: cur)).
Qed.

Lemma split_lower s : PyStr.split (PyStr.lower s) = PyStr.lower <$> PyStr.split s.
Proof. apply (split_from_lower []). Qed.

Lemma normalize_token_lower t : _normalize_token (PyStr.lower t) = _normalize_token t.
Proof. unfold _normalize_token. by rewrite lower_idemp. Qed.

Lemma token_set_lower text : _token_set (PyStr.lower text) = _token_set text.
Proof.
  unfold _token_set. rewrite split_lower. f_equal.
  induction (PyStr.split text) as [|t l IH]; [done|].
  rewrite fmap_cons, !filter_cons, strip_lower, truthy_lower.
  destruct (decide (PyStr.truthy (PyStr.strip t) = true)); [|done].
  by rewrite !fmap_cons, normalize_token_lower, IH.
Qed.

Lemma lower_char_ascii c : nat_of_ascii c < 128 → nat_of_ascii (PyStr.lower_char c) < 128.
Proof. destruct c as [[] [] [] [] [] [] [] []]; vm_compute; lia. Qed.

Lemma is_ascii_lower s : is_ascii s → is_ascii (PyStr.lower s).
Proof.
  unfold is_ascii. rewrite chars_lower. intros H. apply Forall_fmap.
  eapply Forall_impl; [exact H|]. intros c. apply lower_char_ascii.
Qed.

(** X27.  For a text and keywords made of ASCII characters only, letter
    case does not matter to the keyword score: the tokens of the text are
    those of its lower-cased form, and lower-casing the text or every
    keyword leaves the score as it is.  ([PyStr.lower] is [str.lower] on
    such strings.) *)
Theorem X27_keyword_score_ignores_letter_case (text : string) (keywords : list string) :
  is_ascii text →
  Forall is_ascii keywords →
  is_ascii (PyStr.lower text)
  ∧ Forall is_ascii (PyStr.lower <$> keywords)
  ∧ _token_set (PyStr.lower text) = _token_set text
  ∧ score_text_against_keywords (PyStr.lower text) keywords
    = score_text_against_keywords text keywords
  ∧ score_text_against_keywords text (PyStr.lower <$> keywords)
    = score_text_against_keywords text keywords.
Proof.
  intros Htext Hkws.
  split; [by apply is_ascii_lower|]. split.
  { apply Forall_fmap. eapply Forall_impl; [exact Hkws|]. intros k. apply is_ascii_lower. }
  split; [apply token_set_lower|]. split.
  - unfold score_text_against_keywords. by rewrite token_set_lower.
  - unfold score_text_against_keywords.
    assert (_normalize_token <$> (PyStr.lower <$> keywords) = _normalize_token <$> keywords)
      as ->; [|done].
    rewrite <- list_fmap_compose. apply list_fmap_ext. intros i k _.
    apply normalize_token_lower.
Qed.

Lemma X27_witness :
  score_text_against_keywords (PyStr.lower "Cut AWS Cost.") ["AWS"; "cost"]
  = score_text_against_keywords "Cut AWS Cost." ["AWS"; "cost"].
Proof.
  apply (X27_keyword_score_ignores_letter_case "Cut AWS Cost." ["AWS"; "cost"]).
  - unfold is_ascii. simpl. repeat constructor.
  - repeat constructor; unfold is_ascii; simpl; repeat constructor.
Defined.
